(** * setup_datasets.py: dataset download and verification script

    A shallow embedding of [setup_datasets.py].  The script is a sequence of
    filesystem checks, downloads, extractions and prints; it is embedded as
    a state-and-exception monad over

    - a filesystem (a finite map from paths to nodes),
    - the [sys.modules] entry of the [kaggle] package,
    - a trace of what the run printed and which external calls it made,

    parameterised by a [world] that fixes how the network, the archives, the
    [kaggle] import and the Kaggle API respond. *)

From stdpp Require Import gmap strings list fin_maps.
From Stdlib Require Import ZArith Ascii String.

Open Scope string_scope.
Open Scope list_scope.

(** ** Paths and the filesystem *)

(** A [pathlib.Path] relative to the working directory, as its components:
    [Path("datasets/MovieLens")] is [["datasets"; "MovieLens"]] and the
    working directory itself is [[]]. *)
Abbreviation path := (list string).

Fixpoint split_slash (acc : string) (s : string) : list string :=
  match s with
  | EmptyString => [acc]
  | String c s' =>
      if Ascii.eqb c "/"%char then acc :: split_slash "" s'
      else split_slash (acc +:+ String c "") s'
  end.

(** [Path(s)]: empty and [.] components are dropped, as pathlib does. *)
Definition Path (s : string) : path :=
  List.filter (fun c => negb (String.eqb c "" || String.eqb c ".")) (split_slash "" s).

(** [str(p)] *)
Definition path_str (p : path) : string := String.concat "/" p.

(** [p.parent] *)
Definition parent (p : path) : path := removelast p.

Inductive node :=
| File (content : string)
| Dir.

Abbreviation filesystem := (gmap path node).

(** The working directory always exists and is a directory. *)
Definition lookup_path (f : filesystem) (p : path) : option node :=
  match p with
  | [] => Some Dir
  | _ => f !! p
  end.

Fixpoint strip_prefix (p k : path) : option path :=
  match p, k with
  | [], _ => Some k
  | x :: p', y :: k' => if String.eqb x y then strip_prefix p' k' else None
  | _ :: _, [] => None
  end.

(** The name of [k] inside directory [p], when [k] is a direct entry of it. *)
Definition child_name (p k : path) : option string :=
  match strip_prefix p k with
  | Some [x] => Some x
  | _ => None
  end.

(** The entries of directory [p]. *)
Definition entries (f : filesystem) (p : path) : list string :=
  omap (fun kv => child_name p kv.1) (map_to_list f).

(** A filesystem is well formed when every entry lies in a directory. *)
Definition parent_is_dir (f : filesystem) (k : path) : bool :=
  match lookup_path f (parent k) with
  | Some Dir => true
  | _ => false
  end.

Definition wf_fs (f : filesystem) : bool :=
  forallb (fun kv => parent_is_dir f kv.1) (map_to_list f).

(** ** Exceptions *)

(** The exception classes the script can meet.  All of them derive from
    [Exception]; [OtherException] stands for any further class that derives
    from [Exception] directly. *)
Inductive exn_class :=
| ImportError | ModuleNotFoundError
| OSError | FileExistsError | FileNotFoundError | NotADirectoryError
| IsADirectoryError | PermissionError
| URLError | HTTPError | ContentTooShortError
| BadZipFile | ZeroDivisionError | ValueError
| OtherException (name : string).

Record exn := Exn { exn_class_of : exn_class; exn_str : string }.

(** [isinstance(e, OSError)] *)
Definition is_OSError (c : exn_class) : bool :=
  match c with
  | OSError | FileExistsError | FileNotFoundError | NotADirectoryError
  | IsADirectoryError | PermissionError
  | URLError | HTTPError | ContentTooShortError => true
  | _ => false
  end.

(** [isinstance(e, ImportError)] *)
Definition is_ImportError (c : exn_class) : bool :=
  match c with
  | ImportError | ModuleNotFoundError => true
  | _ => false
  end.

(** [isinstance(e, Exception)] *)
Definition is_Exception (c : exn_class) : bool := true.

Definition os_error (c : exn_class) (what : string) (p : path) : exn :=
  Exn c (what +:+ ": '" +:+ path_str p +:+ "'").

(** ** The outside world *)

(** What [urlretrieve] meets at a URL: an error before the destination is
    opened, or a response with its [Content-Length] ([-1] when the header
    is absent), the blocks read, and a possible error after them. *)
Inductive fetch_result :=
| Unreachable (e : exn)
| Response (total_size : Z) (blocks : list string) (broken : option exn).

(** A member of an archive: a directory entry, or a file with its data and
    a possible error raised once the data is written (a bad CRC). *)
Inductive member_body :=
| MDir
| MFile (data : string) (err : option exn).

Abbreviation zip_member := (path * member_body)%type.

Record world := World {
  (** what executing [import kaggle] raises, if anything *)
  kaggle_import : option exn;
  (** the response behind each URL *)
  fetch : string -> fetch_result;
  (** how the bytes of a file read as a ZIP archive *)
  unzip : string -> exn + list zip_member;
  (** what [dataset_download_files] writes below its destination, and
      what it raises afterwards, if anything *)
  kaggle_api : string -> list zip_member * option exn
}.

(** ** Program state and the monad *)

Inductive event :=
| Stdout (text : string)                           (** one [print(text)] *)
| Progress (count block_size total_size : Z)       (** one progress write *)
| Retrieve (url : string) (dest : path)            (** [urlretrieve] called *)
| Unzip (zip : path) (to : path)                   (** [ZipFile(...).extractall] *)
| Unlink (p : path)                                (** [Path.unlink] called *)
| KaggleDownload (id : string) (to : path).        (** [dataset_download_files] called *)

Record state := State {
  fs : filesystem;
  kaggle_loaded : bool;
  trace : list event
}.

Inductive outcome (A : Type) :=
| Returned (a : A)
| Raised (e : exn).
Arguments Returned {A} a.
Arguments Raised {A} e.

Definition py (A : Type) : Type := state -> outcome A * state.

Definition run {A} (m : py A) (s : state) : outcome A * state := m s.

Definition ret {A} (a : A) : py A := fun s => (Returned a, s).

Definition bind {A B} (m : py A) (k : A -> py B) : py B := fun s =>
  match m s with
  | (Returned a, s') => k a s'
  | (Raised e, s') => (Raised e, s')
  end.

Declare Scope py_scope.
Delimit Scope py_scope with py.
Notation "x ← y ; z" := (bind y (fun x : _ => z))
  (at level 20, y at level 100, z at level 200, only parsing) : py_scope.
Notation "x ;; z" := (bind x (fun _ => z))
  (at level 100, z at level 200, only parsing, right associativity) : py_scope.
Open Scope py_scope.

Definition raise {A} (e : exn) : py A := fun s => (Raised e, s).

Definition get_fs : py filesystem := fun s => (Returned (fs s), s).

Definition put_fs (f : filesystem) : py unit :=
  fun s => (Returned tt, State f (kaggle_loaded s) (trace s)).

Definition emit (e : event) : py unit :=
  fun s => (Returned tt, State (fs s) (kaggle_loaded s) (trace s ++ [e])).

(** [try: body except <classes>: handler]; clauses are tried in order and
    an exception no clause names propagates. *)
Fixpoint dispatch {A} (hs : list ((exn_class -> bool) * (exn -> py A))) (e : exn) : py A :=
  match hs with
  | [] => raise e
  | (catches, handler) :: hs' =>
      if catches (exn_class_of e) then handler e else dispatch hs' e
  end.

Definition try_except {A} (body : py A)
    (hs : list ((exn_class -> bool) * (exn -> py A))) : py A :=
  fun s =>
    match body s with
    | (Returned a, s') => (Returned a, s')
    | (Raised e, s') => dispatch hs e s'
    end.

(** [for x in xs: body] *)
Fixpoint for_each {A} (xs : list A) (body : A -> py unit) : py unit :=
  match xs with
  | [] => ret tt
  | x :: xs' => body x ;; for_each xs' body
  end.

(** A loop that updates one local variable. *)
Fixpoint for_fold {A B} (xs : list A) (acc : B) (body : B -> A -> py B) : py B :=
  match xs with
  | [] => ret acc
  | x :: xs' => acc' ← body acc x; for_fold xs' acc' body
  end.

(** ** Presentation helpers *)

Definition nl : string := String (ascii_of_nat 10) "".

Fixpoint string_rep (s : string) (n : nat) : string :=
  match n with
  | O => ""
  | S n' => s +:+ string_rep s n'
  end.

(** [str.center(width)] with the space fill character. *)
Definition center (text : string) (width : nat) : string :=
  let len := String.length text in
  if (width <=? len)%nat then text
  else
    let marg := (width - len)%nat in
    let left := (marg / 2 + (if Nat.odd marg && Nat.odd width then 1 else 0))%nat in
    string_rep " " left +:+ text +:+ string_rep " " (marg - left).

Definition print (text : string) : py unit := emit (Stdout text).

Definition print_header (text : string) : py unit :=
  print (nl +:+ string_rep "=" 70) ;;
  print (center text 70) ;;
  print (string_rep "=" 70 +:+ nl).

Definition print_success (text : string) : py unit := print ("[OK] " +:+ text).
Definition print_info (text : string) : py unit := print ("[INFO] " +:+ text).
Definition print_warning (text : string) : py unit := print ("[WARNING] " +:+ text).
Definition print_error (text : string) : py unit := print ("[ERROR] " +:+ text).

(** ** Path operations *)

(** [Path.exists] *)
Definition path_exists (p : path) : py bool :=
  f ← get_fs; ret (bool_decide (is_Some (lookup_path f p))).

(** [Path.iterdir] *)
Definition iterdir (p : path) : py (list string) :=
  f ← get_fs;
  match lookup_path f p with
  | Some Dir => ret (entries f p)
  | Some (File _) => raise (os_error NotADirectoryError "[Errno 20] Not a directory" p)
  | None => raise (os_error FileNotFoundError "[Errno 2] No such file or directory" p)
  end.

(** [any(p.iterdir())]: path objects are truthy. *)
Definition any_iterdir (p : path) : py bool :=
  l ← iterdir p; ret (negb (bool_decide (l = []))).

(** [p.exists() and any(p.iterdir())] *)
Definition is_populated (p : path) : py bool :=
  b ← path_exists p; if b then any_iterdir p else ret false.

(** ** Verification *)

Definition required_files : list (string * string) :=
  [ ("MovieLens 1M", "datasets/MovieLens/ml-1m/ratings.dat");
    ("MovieLens 25M", "datasets/MovieLens/ml-25m/ratings.csv");
    ("Netflix Shows", "datasets/Netflix/netflix/netflix_titles.csv");
    ("Netflix Prize", "datasets/Netflix/netflix_prize");
    ("TMDB", "datasets/TMDB/TMDB_movie_dataset_v11.csv");
    ("MyAnimeList", "datasets/anime/anime.csv") ].

Definition verify_entry (all_present : bool) (item : string * string) : py bool :=
  let '(name, file) := item in
  b ← path_exists (Path file);
  if b then print_success (name +:+ ": Found") ;; ret all_present
  else print_error (name +:+ ": Missing") ;; ret false.

Definition verify_datasets : py bool :=
  print_header "Verification" ;;
  for_fold required_files true verify_entry.

(** ** File operations of the standard library *)

Definition enoent (p : path) : exn :=
  os_error FileNotFoundError "[Errno 2] No such file or directory" p.
Definition enotdir (p : path) : exn :=
  os_error NotADirectoryError "[Errno 20] Not a directory" p.
Definition eisdir (p : path) : exn :=
  os_error IsADirectoryError "[Errno 21] Is a directory" p.
Definition eexist (p : path) : exn :=
  os_error FileExistsError "[Errno 17] File exists" p.

(** [os.mkdir(p)] *)
Definition os_mkdir (p : path) : py unit :=
  f ← get_fs;
  match lookup_path f (parent p) with
  | None => raise (enoent p)
  | Some (File _) => raise (enotdir p)
  | Some Dir =>
      match lookup_path f p with
      | Some _ => raise (eexist p)
      | None => put_fs (<[p := Dir]> f)
      end
  end.

(** [p.mkdir(exist_ok=True)]: the parent must be there; an existing
    directory is accepted, an existing file is not. *)
Definition mkdir_exist_ok (p : path) : py unit :=
  f ← get_fs;
  match lookup_path f (parent p) with
  | None => raise (enoent p)
  | Some (File _) => raise (enotdir p)
  | Some Dir =>
      match lookup_path f p with
      | Some Dir => ret tt
      | Some (File _) => raise (eexist p)
      | None => put_fs (<[p := Dir]> f)
      end
  end.

(** Creation of the components [rest] below [pre], one after the other;
    existing directories are accepted. *)
Fixpoint mkdir_p (pre : path) (rest : list string) : py unit :=
  match rest with
  | [] => ret tt
  | x :: rest' =>
      let q := pre ++ [x] in
      f ← get_fs;
      match f !! q with
      | Some Dir => mkdir_p q rest'
      | Some (File _) =>
          raise (match rest' with [] => eexist q | _ => enotdir q end)
      | None => put_fs (<[q := Dir]> f) ;; mkdir_p q rest'
      end
  end.

(** [p.mkdir(parents=True, exist_ok=True)] *)
Definition mkdir_parents_exist_ok (p : path) : py unit := mkdir_p [] p.

(** [open(p, "wb")]: the file is created, or truncated. *)
Definition open_wb (p : path) : py unit :=
  f ← get_fs;
  match lookup_path f (parent p) with
  | None => raise (enoent p)
  | Some (File _) => raise (enotdir p)
  | Some Dir =>
      match lookup_path f p with
      | Some Dir => raise (eisdir p)
      | _ => put_fs (<[p := File ""]> f)
      end
  end.

(** One [write] on a file opened at [p]. *)
Definition write_block (p : path) (block : string) : py unit :=
  f ← get_fs;
  match f !! p with
  | Some (File c) => put_fs (<[p := File (c +:+ block)]> f)
  | _ => ret tt
  end.

(** [p.unlink()] *)
Definition unlink (p : path) : py unit :=
  emit (Unlink p) ;;
  f ← get_fs;
  match lookup_path f p with
  | None => raise (enoent p)
  | Some Dir => raise (eisdir p)
  | Some (File _) => put_fs (delete p f)
  end.

(** ** Transport primitives *)

(** The progress callback of [download_file]. The percentage is
    [int(count * block_size * 100 / total_size)], a float division that
    raises on a zero [total_size]; the trace keeps its operands. *)
Definition reporthook (count block_size total_size : Z) : py unit :=
  if (total_size =? 0)%Z then raise (Exn ZeroDivisionError "division by zero")
  else emit (Progress count block_size total_size).

Definition block_bytes : Z := 1024 * 8.

(** [urllib.request.urlretrieve(url, filename, reporthook)] *)
Definition urlretrieve (w : world) (url : string) (filename : path)
    (hook : Z -> Z -> Z -> py unit) : py unit :=
  emit (Retrieve url filename) ;;
  match fetch w url with
  | Unreachable e => raise e
  | Response size blocks broken =>
      open_wb filename ;;
      hook 0%Z block_bytes size ;;
      st ← for_fold blocks (0%Z, 0%Z) (fun acc block =>
              let '(blocknum, read) := acc in
              write_block filename block ;;
              hook (blocknum + 1)%Z block_bytes size ;;
              ret ((blocknum + 1)%Z, (read + Z.of_nat (String.length block))%Z));
      match broken with
      | Some e => raise e
      | None =>
          if ((0 <=? size)%Z && (st.2 <? size)%Z)%bool
          then raise (Exn ContentTooShortError "retrieval incomplete")
          else ret tt
      end
  end.

Definition download_file (w : world) (url : string) (destination : path)
    (description : string) : py bool :=
  print_info ("Downloading " +:+ description +:+ "...") ;;
  try_except
    (urlretrieve w url destination reporthook ;;
     print "" ;;
     print_success ("Downloaded " +:+ description) ;;
     ret true)
    [ (is_Exception, fun e =>
         print_error ("Failed to download " +:+ description +:+ ": " +:+ exn_str e) ;;
         ret false) ].

(** One member of an archive written below [target]. *)
Definition extract_member (target : path) (m : zip_member) : py unit :=
  let p := target ++ m.1 in
  there ← path_exists (parent p);
  (if there then ret tt else mkdir_p [] (parent p)) ;;
  match m.2 with
  | MDir =>
      f ← get_fs;
      match lookup_path f p with
      | Some Dir => ret tt
      | _ => os_mkdir p
      end
  | MFile data err =>
      open_wb p ;;
      write_block p data ;;
      match err with
      | Some e => raise e
      | None => ret tt
      end
  end.

(** [with zipfile.ZipFile(zip_path, "r") as z: z.extractall(extract_to)] *)
Definition extractall (w : world) (zip_path extract_to : path) : py unit :=
  emit (Unzip zip_path extract_to) ;;
  f ← get_fs;
  match lookup_path f zip_path with
  | None => raise (enoent zip_path)
  | Some Dir => raise (eisdir zip_path)
  | Some (File c) =>
      match unzip w c with
      | inl e => raise e
      | inr members => for_each members (extract_member extract_to)
      end
  end.

Definition extract_zip (w : world) (zip_path extract_to : path)
    (description : string) : py bool :=
  print_info ("Extracting " +:+ description +:+ "...") ;;
  try_except
    (extractall w zip_path extract_to ;;
     print_success ("Extracted " +:+ description) ;;
     ret true)
    [ (is_Exception, fun e =>
         print_error ("Failed to extract " +:+ description +:+ ": " +:+ exn_str e) ;;
         ret false) ].

(** ** MovieLens: the direct-download routine *)

Record dataset := Dataset {
  d_name : string;
  d_url : string;
  d_filename : string;
  d_extract_dir : string
}.

Definition movielens_datasets : list dataset :=
  [ Dataset "MovieLens 1M"
      "https://files.grouplens.org/datasets/movielens/ml-1m.zip" "ml-1m.zip" "ml-1m";
    Dataset "MovieLens 25M"
      "https://files.grouplens.org/datasets/movielens/ml-25m.zip" "ml-25m.zip" "ml-25m" ].

(** The body of the loop of [setup_movielens]. *)
Definition movielens_item (w : world) (datasets_dir : path) (d : dataset) : py unit :=
  let extract_path := datasets_dir ++ Path (d_extract_dir d) in
  populated ← is_populated extract_path;
  if populated then
    print_warning (d_name d +:+ " already exists. Skipping...")
  else
    let zip_path := datasets_dir ++ Path (d_filename d) in
    downloaded ← download_file w (d_url d) zip_path (d_name d);
    if negb downloaded then ret tt
    else
      extracted ← extract_zip w zip_path datasets_dir (d_name d);
      if extracted then
        unlink zip_path ;;
        print_success (d_name d +:+ " setup complete")
      else ret tt.

Definition setup_movielens (w : world) : py unit :=
  print_header "MovieLens Datasets" ;;
  let datasets_dir := Path "datasets/MovieLens" in
  mkdir_parents_exist_ok datasets_dir ;;
  for_each movielens_datasets (movielens_item w datasets_dir).

(** ** Kaggle: probe and API-mediated routines *)

(** [import kaggle]: a module already in [sys.modules] is not executed
    again; a failed import leaves no entry. *)
Definition import_kaggle (w : world) : py unit := fun s =>
  if kaggle_loaded s then (Returned tt, s)
  else
    match kaggle_import w with
    | None => (Returned tt, State (fs s) true (trace s))
    | Some e => (Raised e, s)
    end.

Definition check_kaggle_api (w : world) : py bool :=
  try_except
    (import_kaggle w ;;
     print_success "Kaggle API is configured" ;;
     ret true)
    [ (is_OSError, fun _ =>
         print_error "Kaggle API credentials not found" ;; ret false);
      (is_ImportError, fun _ =>
         print_error "Kaggle package not installed" ;; ret false) ].

Definition check_dataset_exists (p : string) (dataset_name : string) : py bool :=
  let dataset_path := Path p in
  populated ← is_populated dataset_path;
  if populated then
    print_success (dataset_name +:+ ": Already exists") ;; ret true
  else ret false.

(** [kaggle.api.dataset_download_files(dataset_id, path=dest, unzip=True)] *)
Definition dataset_download_files (w : world) (dataset_id : string) (dest : path) : py unit :=
  emit (KaggleDownload dataset_id dest) ;;
  for_each (kaggle_api w dataset_id).1 (extract_member dest) ;;
  match (kaggle_api w dataset_id).2 with
  | Some e => raise e
  | None => ret tt
  end.

Definition setup_kaggle_dataset (w : world) (dataset_id extract_to dataset_name : string)
    : py bool :=
  try_except
    (import_kaggle w ;;
     let extract_path := Path extract_to in
     mkdir_parents_exist_ok extract_path ;;
     print_info ("Downloading " +:+ dataset_name +:+ " from Kaggle...") ;;
     dataset_download_files w dataset_id (Path extract_to) ;;
     print_success (dataset_name +:+ " downloaded and extracted") ;;
     ret true)
    [ (is_Exception, fun e =>
         print_error ("Failed to download " +:+ dataset_name +:+ ": " +:+ exn_str e) ;;
         ret false) ].

Definition setup_netflix_datasets (w : world) (has_kaggle : bool) : py unit :=
  print_header "Netflix Datasets" ;;
  netflix_shows_exists ← check_dataset_exists "datasets/Netflix/netflix" "Netflix Shows";
  netflix_prize_exists ← check_dataset_exists "datasets/Netflix/netflix_prize" "Netflix Prize";
  if netflix_shows_exists && netflix_prize_exists then ret tt
  else if negb has_kaggle then
    print_warning "Kaggle API not configured - Manual download required" ;;
    (if negb netflix_shows_exists then
       print_info "Netflix Shows:" ;;
       print "  1. Go to: https://www.kaggle.com/datasets/shivamb/netflix-shows" ;;
       print "  2. Click 'Download' button (requires Kaggle login)" ;;
       print "  3. Extract netflix_titles.csv to: datasets/Netflix/netflix/" ;;
       print ""
     else ret tt) ;;
    (if negb netflix_prize_exists then
       print_info "Netflix Prize:" ;;
       print "  1. Go to: https://www.kaggle.com/datasets/netflix-inc/netflix-prize-data" ;;
       print "  2. Click 'Download' button (requires Kaggle login)" ;;
       print "  3. Extract all files to: datasets/Netflix/netflix_prize/"
     else ret tt)
  else
    (if negb netflix_shows_exists then
       _ ← setup_kaggle_dataset w "shivamb/netflix-shows" "datasets/Netflix/netflix"
             "Netflix Shows";
       ret tt
     else ret tt) ;;
    (if negb netflix_prize_exists then
       _ ← setup_kaggle_dataset w "netflix-inc/netflix-prize-data"
             "datasets/Netflix/netflix_prize" "Netflix Prize";
       ret tt
     else ret tt).

Definition setup_tmdb_dataset (w : world) (has_kaggle : bool) : py unit :=
  print_header "TMDB Dataset" ;;
  present ← check_dataset_exists "datasets/TMDB" "TMDB Movies";
  if present then ret tt
  else if negb has_kaggle then
    print_warning "Kaggle API not configured - Manual download required" ;;
    print_info "TMDB Movies:" ;;
    print "  1. Go to: https://www.kaggle.com/datasets/asaniczka/tmdb-movies-dataset-2023-930k-movies" ;;
    print "  2. Click 'Download' button (requires Kaggle login)" ;;
    print "  3. Extract TMDB_movie_dataset_v11.csv to: datasets/TMDB/"
  else
    _ ← setup_kaggle_dataset w "asaniczka/tmdb-movies-dataset-2023-930k-movies"
          "datasets/TMDB" "TMDB Movies";
    ret tt.

Definition setup_anime_dataset (w : world) (has_kaggle : bool) : py unit :=
  print_header "MyAnimeList Dataset" ;;
  present ← check_dataset_exists "datasets/anime" "MyAnimeList";
  if present then ret tt
  else if negb has_kaggle then
    print_warning "Kaggle API not configured - Manual download required" ;;
    print_info "MyAnimeList:" ;;
    print "  1. Go to: https://www.kaggle.com/datasets/hernan4444/anime-recommendation-database-2020" ;;
    print "  2. Click 'Download' button (requires Kaggle login)" ;;
    print "  3. Extract all CSV files to: datasets/anime/"
  else
    _ ← setup_kaggle_dataset w "hernan4444/anime-recommendation-database-2020"
          "datasets/anime" "MyAnimeList";
    ret tt.

(** ** Orchestrator *)

Definition print_kaggle_setup_instructions : py unit :=
  print_header "Kaggle API Setup (Optional)" ;;
  print "To enable automatic downloads from Kaggle:" ;;
  print "" ;;
  print "1. Create a Kaggle account at https://www.kaggle.com" ;;
  print "2. Go to your Account Settings (click on profile picture)" ;;
  print "3. Scroll to 'API' section" ;;
  print "4. Click 'Create New API Token'" ;;
  print "5. This downloads kaggle.json file" ;;
  print "6. Place kaggle.json in:" ;;
  print "   - Windows: C:\Users\<YourUsername>\.kaggle\kaggle.json" ;;
  print "   - Linux/Mac: ~/.kaggle/kaggle.json" ;;
  print "7. Install kaggle package: pip install kaggle" ;;
  print "" ;;
  print_info "Alternatively, you can download datasets manually (see instructions above)" ;;
  print "".

(** [main] up to and including the per-dataset routines; it yields
    [has_kaggle]. *)
Definition main_setup (w : world) : py bool :=
  print_header "Movie Recommendation Systems - Dataset Setup" ;;
  print "This script will download and setup all required datasets." ;;
  print "" ;;
  mkdir_exist_ok (Path "datasets") ;;
  has_kaggle ← check_kaggle_api w;
  (if negb has_kaggle then print "" ;; print_kaggle_setup_instructions else ret tt) ;;
  print "" ;;
  setup_movielens w ;;
  setup_netflix_datasets w has_kaggle ;;
  setup_tmdb_dataset w has_kaggle ;;
  setup_anime_dataset w has_kaggle ;;
  ret has_kaggle.

(** The final message of [main]. *)
Definition main_report (has_kaggle all_present : bool) : py unit :=
  print_header "Setup Complete" ;;
  (if all_present then
     print_success "All datasets are ready!" ;;
     print_info "You can now run the Jupyter notebooks in recommendation_techniques/"
   else
     print_warning "Some datasets are missing." ;;
     (if negb has_kaggle then
        print_info "For Kaggle datasets, you can:" ;;
        print "  Option 1: Setup Kaggle API and run this script again" ;;
        print "  Option 2: Download manually from the URLs shown above"
      else ret tt) ;;
     print_info "Place downloaded files in the correct folders and run this script again to verify.") ;;
  print "".

Definition main (w : world) : py unit :=
  has_kaggle ← main_setup w;
  print "" ;;
  all_present ← verify_datasets;
  main_report has_kaggle all_present.

(** The exit status of [python setup_datasets.py]: the module calls
    [main()] and nothing else; the interpreter exits with 0 when the module
    body ends and with 1 on an uncaught exception. *)
Definition exit_status (w : world) (s : state) : Z :=
  match main w s with
  | (Returned _, _) => 0
  | (Raised _, _) => 1
  end.

(** * Vocabulary of the statements *)

(** [log s out]: the state [s] after the events [out], nothing else changed. *)
Definition log (s : state) (out : list event) : state :=
  State (fs s) (kaggle_loaded s) (trace s ++ out).

Definition header_lines (text : string) : list event :=
  [ Stdout (nl +:+ string_rep "=" 70);
    Stdout (center text 70);
    Stdout (string_rep "=" 70 +:+ nl) ].

(** The line [verify_datasets] prints for one entry of its table. *)
Definition verify_line (f : filesystem) (item : string * string) : event :=
  if bool_decide (is_Some (lookup_path f (Path item.2)))
  then Stdout ("[OK] " +:+ item.1 +:+ ": Found")
  else Stdout ("[ERROR] " +:+ item.1 +:+ ": Missing").

Definition present (f : filesystem) (item : string * string) : bool :=
  bool_decide (is_Some (lookup_path f (Path item.2))).


(** A destination the routines skip: an existing directory with an entry. *)
Definition populated (f : filesystem) (p : path) : Prop :=
  lookup_path f p = Some Dir /\ entries f p <> [].

(** A destination the routines do not skip (and can inspect): absent, or
    an existing directory without entries. *)
Definition unpopulated (f : filesystem) (p : path) : Prop :=
  lookup_path f p = None \/ (lookup_path f p = Some Dir /\ entries f p = []).

(** Output events, as opposed to calls of the download, extraction,
    deletion and API operations. *)
Definition is_print (e : event) : bool :=
  match e with
  | Stdout _ | Progress _ _ _ => true
  | _ => false
  end.

(** A destination the skip check can inspect: not a regular file. *)
Definition inspectable (f : filesystem) (p : path) : Prop :=
  populated f p \/ unpopulated f p.

(** What a verification pass started in [s] reports for a dataset. *)
Definition reported_missing (s : state) (name : string) : Prop :=
  exists out,
    verify_datasets s = (Returned false, log s out) /\
    In (Stdout ("[ERROR] " +:+ name +:+ ": Missing")) out.

Definition reported_found (s : state) (name : string) : Prop :=
  exists b out,
    verify_datasets s = (Returned b, log s out) /\
    In (Stdout ("[OK] " +:+ name +:+ ": Found")) out.

(** [routine] only prints, among other lines the given [lines], and
    returns: the filesystem and the module table stay as they are and no
    download, extraction, deletion or API call is made; [after] holds of
    the state it leaves. *)
Definition manual_fallback (routine : py unit) (s : state) (lines : list string)
    (after : state -> Prop) : Prop :=
  exists out,
    routine s = (Returned tt, log s out) /\
    forallb is_print out = true /\
    (forall l, In l lines -> In (Stdout l) out) /\
    after (log s out).


(** ** Footprints *)

(** What a piece of code may do: the paths it may change at all, the paths
    at which it may create a regular file, the paths at which it may delete
    one, and the events it may add to the trace. It never removes a
    directory or turns a directory into a file. *)
Record footprint := Footprint {
  touches : path -> Prop;
  writes : path -> Prop;
  deletes : path -> Prop;
  emits : event -> Prop
}.

Definition within (fp : footprint) (s s' : state) : Prop :=
  (forall q, ~ touches fp q -> fs s' !! q = fs s !! q) /\
  (forall q, fs s !! q = Some Dir -> fs s' !! q = Some Dir) /\
  (forall q c, fs s !! q = Some (File c) ->
     (exists c', fs s' !! q = Some (File c')) \/ deletes fp q) /\
  (forall q c, fs s' !! q = Some (File c) ->
     (exists c', fs s !! q = Some (File c')) \/ writes fp q) /\
  (exists out, trace s' = trace s ++ out /\ Forall (emits fp) out) /\
  (kaggle_loaded s = true -> kaggle_loaded s' = true).

(** [m] stays within [fp], whether it returns or raises. *)
Definition keeps {A} (fp : footprint) (m : py A) : Prop :=
  forall s, within fp s (m s).2.

(** [m] returns in state [s]: no exception leaves it. *)
Definition returns {A} (m : py A) (s : state) : Prop :=
  exists a s', m s = (Returned a, s').

(** [fp] allows nothing more than [fp'] does. *)
Definition narrower (fp fp' : footprint) : Prop :=
  (forall q, touches fp q -> touches fp' q) /\
  (forall q, writes fp q -> writes fp' q) /\
  (forall q, deletes fp q -> deletes fp' q) /\
  (forall e, emits fp e -> emits fp' e).

Definition printing (e : event) : Prop := is_print e = true.

(** Only output. *)
Definition fp_print : footprint :=
  Footprint (fun _ => False) (fun _ => False) (fun _ => False) printing.

(** A path that is absent or a directory. *)
Definition dirlike (f : filesystem) (q : path) : Prop :=
  f !! q = None \/ f !! q = Some Dir.

(** A file member of the archive [ms], extracted below [to], lands at [q]. *)
Definition member_file (to : path) (ms : list zip_member) (q : path) : Prop :=
  exists rel data err, In (rel, MFile data err) ms /\ q = to ++ rel.

(** [q] lies on the way to a member of the archive [ms] extracted below
    [to]: the member itself, or a directory above it. *)
Definition member_path (to : path) (ms : list zip_member) (q : path) : Prop :=
  exists rel body, In (rel, body) ms /\ q `prefix_of` to ++ rel.

Definition fp_download (url : string) (dest : path) : footprint :=
  Footprint (fun q => q = dest) (fun q => q = dest) (fun _ => False)
            (fun e => printing e \/ e = Retrieve url dest).

Definition fp_extract (w : world) (zip to : path) : footprint :=
  Footprint (fun q => exists c ms, unzip w c = inr ms /\ member_path to ms q)
            (fun q => exists c ms, unzip w c = inr ms /\ member_file to ms q)
            (fun _ => False)
            (fun e => printing e \/ e = Unzip zip to).

Definition fp_kaggle (w : world) (id : string) (dest : path) : footprint :=
  Footprint (fun q => q `prefix_of` dest \/ member_path dest (kaggle_api w id).1 q)
            (member_file dest (kaggle_api w id).1) (fun _ => False)
            (fun e => printing e \/ e = KaggleDownload id dest).

(** The footprint of one item of [setup_movielens]. *)
Definition fp_item (w : world) (dir : path) (d : dataset) : footprint :=
  Footprint
    (fun q => q = dir ++ Path (d_filename d) \/
              touches (fp_extract w (dir ++ Path (d_filename d)) dir) q)
    (fun q => q = dir ++ Path (d_filename d) \/
              writes (fp_extract w (dir ++ Path (d_filename d)) dir) q)
    (fun q => q = dir ++ Path (d_filename d))
    (fun e => printing e \/ e = Retrieve (d_url d) (dir ++ Path (d_filename d)) \/
              e = Unzip (dir ++ Path (d_filename d)) dir \/
              e = Unlink (dir ++ Path (d_filename d))).


(** The state once [kaggle] is in [sys.modules]. *)
Definition loaded (s : state) : state := State (fs s) true (trace s).

(** [import kaggle] goes through in [s]. *)
Definition importable (w : world) (s : state) : Prop :=
  kaggle_loaded s = true \/ kaggle_import w = None.

(** No regular file stands where [p] or a directory above it should be. *)
Definition clear_way (f : filesystem) (p : path) : Prop :=
  forall q c, q <> [] -> q `prefix_of` p -> f !! q <> Some (File c).

(** Anything, as long as regular files appear and disappear only at or
    below one of [roots]. *)
Definition fp_under (roots : list path) : footprint :=
  Footprint (fun _ => True)
            (fun q => exists r, In r roots /\ r `prefix_of` q)
            (fun q => exists r, In r roots /\ r `prefix_of` q)
            (fun _ => True).

(** The paths the script uses as directories outside of its [try] blocks. *)
Definition directories : list path :=
  [ Path "datasets"; Path "datasets/MovieLens";
    Path "datasets/MovieLens/ml-1m"; Path "datasets/MovieLens/ml-25m";
    Path "datasets/Netflix/netflix"; Path "datasets/Netflix/netflix_prize";
    Path "datasets/TMDB"; Path "datasets/anime" ].

(** No regular file stands where the script wants a directory. *)
Definition clean_layout (f : filesystem) : Prop :=
  forall p, In p directories -> dirlike f p.

(** [import kaggle] goes through, or fails with an exception of a class
    that [check_kaggle_api] handles. *)
Definition probe_caught (w : world) (s : state) : Prop :=
  importable w s \/
  exists e, kaggle_import w = Some e /\
            is_OSError (exn_class_of e) || is_ImportError (exn_class_of e) = true.

(** No archive holds a regular file named [ml-25m] at its top level, where
    the destination of the second MovieLens item belongs. *)
Definition tidy_archives (w : world) : Prop :=
  forall c ms data err, unzip w c = inr ms -> ~ In (["ml-25m"], MFile data err) ms.

(** The output of a run of [main] in which every per-dataset routine and
    the verification pass were run, in their order. *)
Definition full_run_output (f : filesystem) (out : list event) : Prop :=
  exists out0 out1 out2 out3 out4 out5,
    out = out0 ++ header_lines "MovieLens Datasets" ++ out1
               ++ header_lines "Netflix Datasets" ++ out2
               ++ header_lines "TMDB Dataset" ++ out3
               ++ header_lines "MyAnimeList Dataset" ++ out4
               ++ header_lines "Verification"
               ++ map (verify_line f) required_files ++ out5.

(** * Concrete worlds and filesystems for the examples *)

Definition no_credentials : exn :=
  Exn OSError "Could not find kaggle.json. Make sure it's located in ~/.kaggle.".

Definition no_kaggle_package : exn :=
  Exn ModuleNotFoundError "No module named 'kaggle'".

Definition bad_credentials : exn :=
  Exn ValueError "Error: Missing username in configuration.".

Definition api_unauthorized : exn :=
  Exn (OtherException "ApiException") "(401) Unauthorized".

Definition ml_archive : list zip_member :=
  [ (["ml-1m"], MDir); (["ml-1m"; "ratings.dat"], MFile "1::1193::5::978300760" None) ].

(** A world without Kaggle access: both archives download and extract,
    every API call is refused. *)
Definition offline_kaggle (import : option exn) : world :=
  World import
    (fun _ => Response 3 ["PK."] None)
    (fun _ => inr ml_archive)
    (fun _ => ([], Some api_unauthorized)).

Definition fresh : state := State ∅ false [].

Definition dir_tree (dirs files : list path) : filesystem :=
  list_to_map (map (fun p => (p, Dir)) dirs ++ map (fun p => (p, File "data")) files).

(** Every dataset in place. *)
Definition complete_fs : filesystem :=
  dir_tree
    [ ["datasets"]; ["datasets"; "MovieLens"]; ["datasets"; "MovieLens"; "ml-1m"];
      ["datasets"; "MovieLens"; "ml-25m"]; ["datasets"; "Netflix"];
      ["datasets"; "Netflix"; "netflix"]; ["datasets"; "Netflix"; "netflix_prize"];
      ["datasets"; "TMDB"]; ["datasets"; "anime"] ]
    [ ["datasets"; "MovieLens"; "ml-1m"; "ratings.dat"];
      ["datasets"; "MovieLens"; "ml-25m"; "ratings.csv"];
      ["datasets"; "Netflix"; "netflix"; "netflix_titles.csv"];
      ["datasets"; "Netflix"; "netflix_prize"; "combined_data_1.txt"];
      ["datasets"; "TMDB"; "TMDB_movie_dataset_v11.csv"];
      ["datasets"; "anime"; "anime.csv"] ].

Definition complete : state := State complete_fs false [].

(** The Netflix Prize directory exists and is empty. *)
Definition empty_prize_dir : state :=
  State (dir_tree [ ["datasets"]; ["datasets"; "Netflix"];
                    ["datasets"; "Netflix"; "netflix_prize"] ] [])
        false [].

Definition ml_dir : path := ["datasets"; "MovieLens"].

Definition ml_1m : dataset :=
  Dataset "MovieLens 1M"
    "https://files.grouplens.org/datasets/movielens/ml-1m.zip" "ml-1m.zip" "ml-1m".

Definition ml_25m : dataset :=
  Dataset "MovieLens 25M"
    "https://files.grouplens.org/datasets/movielens/ml-25m.zip" "ml-25m.zip" "ml-25m".

(** The downloads arrive, but what arrives is not a ZIP archive. *)
Definition corrupt_archives : world :=
  World (Some no_credentials)
    (fun _ => Response 3 ["<ht"] None)
    (fun _ => inl (Exn BadZipFile "File is not a zip file"))
    (fun _ => ([], Some api_unauthorized)).

(** [datasets/MovieLens] exists, nothing below it. *)
Definition movielens_ready : state :=
  State (dir_tree [ ["datasets"]; ["datasets"; "MovieLens"] ] []) false [].

(** The TMDB directory exists and is empty. *)
Definition empty_tmdb_dir : state :=
  State (dir_tree [ ["datasets"]; ["datasets"; "TMDB"] ] []) false [].

(** A regular file stands where the root directory belongs. *)
Definition datasets_is_file : state :=
  State (dir_tree [] [ ["datasets"] ]) false [].

(** A regular file stands where the TMDB directory belongs. *)
Definition tmdb_is_file : state :=
  State (dir_tree [ ["datasets"] ] [ ["datasets"; "TMDB"] ]) false [].

(** An archive whose third member is damaged. *)
Definition damaged_archive : list zip_member :=
  [ (["ml-1m"], MDir);
    (["ml-1m"; "movies.dat"], MFile "1::Toy Story (1995)::Animation" None);
    (["ml-1m"; "ratings.dat"],
     MFile "1::1193" (Some (Exn BadZipFile "Bad CRC-32 for file 'ml-1m/ratings.dat'")));
    (["ml-1m"; "users.dat"], MFile "1::F::1::10::48067" None) ].

Definition damaged_archives : world :=
  World None
    (fun _ => Response 3 ["PK."] None)
    (fun _ => inr damaged_archive)
    (fun _ => ([], None)).

(** The first MovieLens archive has been downloaded, nothing is extracted. *)
Definition archive_downloaded : state :=
  State (dir_tree [ ["datasets"]; ["datasets"; "MovieLens"] ]
                  [ ["datasets"; "MovieLens"; "ml-1m.zip"] ])
        false [].

(** A world with Kaggle access whose deliveries are empty archives. *)
Definition empty_deliveries : world :=
  World None
    (fun _ => Unreachable (Exn URLError "<urlopen error [Errno 101] Network is unreachable>"))
    (fun _ => inr [])
    (fun _ => ([], None)).

(** The connection breaks after two blocks of the archive. *)
Definition connection_reset : world :=
  World None
    (fun _ => Response 24594 ["PK.."; "...."]
                (Some (Exn OSError "[Errno 104] Connection reset by peer")))
    (fun _ => inr [])
    (fun _ => ([], None)).

(** Netflix Shows is in place, Netflix Prize is not. *)
Definition shows_in_place : state :=
  State (dir_tree [ ["datasets"]; ["datasets"; "Netflix"]; ["datasets"; "Netflix"; "netflix"] ]
                  [ ["datasets"; "Netflix"; "netflix"; "netflix_titles.csv"] ])
        false [].
(** * Properties *)

(** ** Running the monad *)

Lemma log_nil s : log s [] = s.
Proof. destruct s; unfold log; simpl. by rewrite app_nil_r. Qed.

Lemma log_log s a b : log (log s a) b = log s (a ++ b).
Proof. unfold log; simpl. by rewrite <- app_assoc. Qed.

Lemma fs_log s out : fs (log s out) = fs s.
Proof. reflexivity. Qed.

Lemma kaggle_loaded_log s out : kaggle_loaded (log s out) = kaggle_loaded s.
Proof. reflexivity. Qed.

Lemma trace_log s out : trace (log s out) = trace s ++ out.
Proof. reflexivity. Qed.

Lemma bind_run {A B} (m : py A) (k : A -> py B) s :
  bind m k s = match m s with
               | (Returned a, s') => k a s'
               | (Raised e, s') => (Raised e, s')
               end.
Proof. reflexivity. Qed.

Lemma bind_returned {A B} (m : py A) (k : A -> py B) s a s' :
  m s = (Returned a, s') -> bind m k s = k a s'.
Proof. intros H. by rewrite bind_run, H. Qed.

Lemma bind_raised {A B} (m : py A) (k : A -> py B) s e s' :
  m s = (Raised e, s') -> bind m k s = (Raised e, s').
Proof. intros H. by rewrite bind_run, H. Qed.

Lemma print_run text s : print text s = (Returned tt, log s [Stdout text]).
Proof. reflexivity. Qed.

Lemma print_header_run text s :
  print_header text s = (Returned tt, log s (header_lines text)).
Proof.
  unfold print_header. rewrite bind_run, print_run, bind_run, print_run, print_run.
  by rewrite !log_log.
Qed.

Lemma path_exists_run p s :
  path_exists p s = (Returned (bool_decide (is_Some (lookup_path (fs s) p))), s).
Proof. reflexivity. Qed.

(** ** Verification *)

Lemma verify_loop_run items acc s :
  for_fold items acc verify_entry s =
    (Returned (acc && forallb (present (fs s)) items),
     log s (map (verify_line (fs s)) items)).
Proof.
  revert acc s. induction items as [|[name file] items IH]; intros acc s; simpl.
  - unfold ret. by rewrite log_nil, andb_true_r.
  - rewrite bind_run. unfold verify_entry at 1.
    rewrite bind_run, path_exists_run.
    unfold present at 1, verify_line at 1. simpl.
    destruct (bool_decide (is_Some (lookup_path (fs s) (Path file)))).
    + unfold print_success. rewrite bind_run, print_run. unfold ret at 1.
      rewrite IH, log_log, fs_log. reflexivity.
    + unfold print_error. rewrite bind_run, print_run. unfold ret at 1.
      rewrite IH, log_log, fs_log. by rewrite andb_false_r.
Qed.

Lemma verify_datasets_run s :
  verify_datasets s =
    (Returned (forallb (present (fs s)) required_files),
     log s (header_lines "Verification" ++ map (verify_line (fs s)) required_files)).
Proof.
  unfold verify_datasets. rewrite bind_run, print_header_run, verify_loop_run.
  by rewrite log_log, fs_log.
Qed.

(** C1. [verify_datasets] returns true if and only if every one of the six
    fixed marker paths exists in the filesystem; for every entry of its
    table whose path is absent it prints a [Missing] line for that entry
    and the result is false. *)
Theorem verify_datasets_true_iff_markers_exist (s : state) :
  exists b out,
    verify_datasets s = (Returned b, log s out) /\
    (b = true <->
       Forall (fun file => is_Some (lookup_path (fs s) (Path file)))
         [ "datasets/MovieLens/ml-1m/ratings.dat";
           "datasets/MovieLens/ml-25m/ratings.csv";
           "datasets/Netflix/netflix/netflix_titles.csv";
           "datasets/Netflix/netflix_prize";
           "datasets/TMDB/TMDB_movie_dataset_v11.csv";
           "datasets/anime/anime.csv" ]) /\
    (forall name file,
       In (name, file) required_files ->
       lookup_path (fs s) (Path file) = None ->
       In (Stdout ("[ERROR] " +:+ name +:+ ": Missing")) out /\ b = false).
Proof.
  eexists _, _. split; [apply verify_datasets_run|]. split.
  - unfold required_files. cbn [forallb present snd].
    unfold present. cbn [snd].
    rewrite !andb_true_iff, !bool_decide_eq_true, !Forall_cons, Forall_nil.
    tauto.
  - intros name file Hin Hnone. split.
    + apply in_or_app. right.
      apply (in_map (verify_line (fs s))) in Hin.
      unfold verify_line at 1 in Hin. cbn [fst snd] in Hin.
      rewrite bool_decide_eq_false_2 in Hin; [exact Hin|].
      rewrite Hnone. by intros [? ?].
    + apply not_true_is_false. intros Hall.
      rewrite forallb_forall in Hall. specialize (Hall _ Hin).
      unfold present in Hall. cbn [snd] in Hall.
      apply bool_decide_eq_true in Hall. rewrite Hnone in Hall.
      by destruct Hall.
Qed.

(** C8. [verify_datasets] never changes the filesystem: whatever the
    starting state, the filesystem after the call is the one before it (and
    so is the module table); the call only adds its lines to the output,
    one per entry of the fixed table. *)
Theorem verify_datasets_reads_only (s : state) :
  fs (verify_datasets s).2 = fs s /\
  kaggle_loaded (verify_datasets s).2 = kaggle_loaded s /\
  trace (verify_datasets s).2 =
    trace s ++ header_lines "Verification" ++ map (verify_line (fs s)) required_files.
Proof. rewrite verify_datasets_run. by repeat split. Qed.

(** ** Paths and directory entries *)

Lemma strip_prefix_spec p k r : strip_prefix p k = Some r <-> k = p ++ r.
Proof.
  revert k. induction p as [|x p IH]; intros k; simpl.
  - split; congruence.
  - destruct k as [|y k]; [split; discriminate|].
    destruct (String.eqb_spec x y) as [->|Hne].
    + rewrite IH. split; congruence.
    + split; [discriminate|]. intros [= -> ->]. done.
Qed.

Lemma child_name_spec p k x : child_name p k = Some x <-> k = p ++ [x].
Proof.
  unfold child_name. destruct (strip_prefix p k) as [r|] eqn:E.
  - apply strip_prefix_spec in E. subst k.
    destruct r as [|y [|z r]]; split; try discriminate.
    + rewrite app_nil_r. intros H. apply (f_equal (@List.length string)) in H.
      rewrite length_app in H. simpl in H. lia.
    + congruence.
    + intros H. apply app_inv_head in H. congruence.
    + intros H. apply app_inv_head in H. discriminate.
  - split; [discriminate|]. intros ->.
    assert (strip_prefix p (p ++ [x]) = Some [x]) by by apply strip_prefix_spec.
    congruence.
Qed.

Lemma entries_spec (f : filesystem) p x :
  In x (entries f p) <-> is_Some (f !! (p ++ [x])).
Proof.
  unfold entries. rewrite <- list_elem_of_In, list_elem_of_omap. split.
  - intros [[k n] [Hk Hc]]. simpl in Hc. apply child_name_spec in Hc. subst k.
    apply elem_of_map_to_list in Hk. eauto.
  - intros [n Hn]. exists (p ++ [x], n). split.
    + by apply elem_of_map_to_list.
    + simpl. by apply child_name_spec.
Qed.

Lemma entries_nil_lookup (f : filesystem) p x :
  entries f p = [] -> f !! (p ++ [x]) = None.
Proof.
  intros E. destruct (f !! (p ++ [x])) eqn:H; [|done].
  assert (In x (entries f p)) as Hin by (apply entries_spec; eauto).
  rewrite E in Hin. destruct Hin.
Qed.

Lemma parent_snoc p x : parent (p ++ [x]) = p.
Proof. unfold parent. apply removelast_last. Qed.

Lemma wf_fs_parent (f : filesystem) k n :
  wf_fs f = true -> f !! k = Some n -> lookup_path f (parent k) = Some Dir.
Proof.
  unfold wf_fs. rewrite forallb_forall. intros Hwf Hk.
  specialize (Hwf (k, n)). simpl in Hwf.
  assert (parent_is_dir f k = true) as H.
  { apply Hwf. apply list_elem_of_In. by apply elem_of_map_to_list. }
  unfold parent_is_dir in H.
  destruct (lookup_path f (parent k)) as [[|]|]; done.
Qed.

(** In a well-formed filesystem nothing lies below an unpopulated
    destination. *)
Lemma unpopulated_child_absent (f : filesystem) p x :
  wf_fs f = true -> p <> [] -> unpopulated f p -> f !! (p ++ [x]) = None.
Proof.
  intros Hwf Hp [Habs|[_ Hnil]].
  - destruct (f !! (p ++ [x])) eqn:H; [|done].
    apply (wf_fs_parent _ _ _ Hwf) in H. rewrite parent_snoc in H. congruence.
  - by apply entries_nil_lookup.
Qed.

(** ** The skip check *)

Lemma is_populated_run p s :
  is_populated p s =
    match lookup_path (fs s) p with
    | None => (Returned false, s)
    | Some Dir => (Returned (negb (bool_decide (entries (fs s) p = []))), s)
    | Some (File _) => (Raised (enotdir p), s)
    end.
Proof.
  unfold is_populated, path_exists, any_iterdir, iterdir, get_fs, bind, ret, raise.
  destruct (lookup_path (fs s) p) as [[c|]|] eqn:E; simpl; try rewrite E; reflexivity.
Qed.

Lemma is_populated_true p s :
  populated (fs s) p -> is_populated p s = (Returned true, s).
Proof.
  intros [Hd Hne]. rewrite is_populated_run, Hd.
  by rewrite bool_decide_eq_false_2.
Qed.

Lemma is_populated_false p s :
  unpopulated (fs s) p -> is_populated p s = (Returned false, s).
Proof.
  intros [Ha|[Hd Hnil]]; rewrite is_populated_run.
  - by rewrite Ha.
  - rewrite Hd. by rewrite bool_decide_eq_true_2.
Qed.

Lemma check_dataset_exists_true p name s :
  populated (fs s) (Path p) ->
  check_dataset_exists p name s =
    (Returned true, log s [Stdout ("[OK] " +:+ name +:+ ": Already exists")]).
Proof.
  intros H. unfold check_dataset_exists.
  rewrite (bind_returned _ _ _ _ _ (is_populated_true _ _ H)).
  reflexivity.
Qed.

Lemma check_dataset_exists_false p name s :
  unpopulated (fs s) (Path p) ->
  check_dataset_exists p name s = (Returned false, s).
Proof.
  intros H. unfold check_dataset_exists.
  by rewrite (bind_returned _ _ _ _ _ (is_populated_false _ _ H)).
Qed.

(** ** Output-only code *)

Lemma bind_print {A} text (k : unit -> py A) s :
  bind (print text) k s = k tt (log s [Stdout text]).
Proof. reflexivity. Qed.

Lemma bind_print_header {A} text (k : unit -> py A) s :
  bind (print_header text) k s = k tt (log s (header_lines text)).
Proof. by rewrite bind_run, print_header_run. Qed.

Lemma ret_run {A} (a : A) s : ret a s = (Returned a, s).
Proof. reflexivity. Qed.

Lemma bind_assoc {A B C} (m : py A) (f : A -> py B) (g : B -> py C) s :
  bind (bind m f) g s = bind m (fun x => bind (f x) g) s.
Proof. rewrite !bind_run. by destruct (m s) as [[a|e] s']. Qed.

Lemma bind_ret {A B} (a : A) (k : A -> py B) s : bind (ret a) k s = k a s.
Proof. reflexivity. Qed.

Ltac run_prints :=
  unfold print_success, print_info, print_warning, print_error;
  repeat first
    [ rewrite bind_assoc | rewrite bind_print_header | rewrite bind_print
    | rewrite bind_ret | rewrite print_header_run
    | rewrite print_run | rewrite ret_run | rewrite log_log ].

Lemma print_kaggle_setup_instructions_returns s :
  exists out, print_kaggle_setup_instructions s = (Returned tt, log s out).
Proof. eexists. unfold print_kaggle_setup_instructions. run_prints. reflexivity. Qed.

Lemma main_report_returns has_kaggle all_present s :
  exists out, main_report has_kaggle all_present s = (Returned tt, log s out).
Proof.
  unfold main_report. destruct all_present, has_kaggle; cbn [negb];
    eexists; run_prints; reflexivity.
Qed.

(** ** The credential probe *)

Lemma import_kaggle_raised w s e s1 :
  import_kaggle w s = (Raised e, s1) -> s1 = s /\ kaggle_import w = Some e.
Proof.
  unfold import_kaggle. destruct (kaggle_loaded s); [discriminate|].
  destruct (kaggle_import w); [|discriminate]. by intros [= -> ->].
Qed.

Lemma check_kaggle_api_run w s :
  check_kaggle_api w s =
    match import_kaggle w s with
    | (Returned _, s1) => (Returned true, log s1 [Stdout "[OK] Kaggle API is configured"])
    | (Raised e, s1) =>
        if is_OSError (exn_class_of e)
        then (Returned false, log s1 [Stdout "[ERROR] Kaggle API credentials not found"])
        else if is_ImportError (exn_class_of e)
        then (Returned false, log s1 [Stdout "[ERROR] Kaggle package not installed"])
        else (Raised e, s1)
    end.
Proof.
  unfold check_kaggle_api, try_except. rewrite bind_run.
  destruct (import_kaggle w s) as [[[]|e] s1]; [reflexivity|].
  simpl. destruct (is_OSError (exn_class_of e)); [reflexivity|].
  destruct (is_ImportError (exn_class_of e)); reflexivity.
Qed.

(** C4. [check_kaggle_api] returns false when [import kaggle] raises an
    [ImportError] (the package cannot be imported), returns false when it
    raises an [OSError] (the package is there, the credentials are not), and
    returns true exactly when the import goes through; in each of these
    cases the call returns a boolean and raises nothing. *)
Theorem check_kaggle_api_boolean (w : world) (s : state) :
  (forall e s1,
     import_kaggle w s = (Raised e, s1) -> is_ImportError (exn_class_of e) = true ->
     check_kaggle_api w s =
       (Returned false, log s [Stdout "[ERROR] Kaggle package not installed"])) /\
  (forall e s1,
     import_kaggle w s = (Raised e, s1) -> is_OSError (exn_class_of e) = true ->
     check_kaggle_api w s =
       (Returned false, log s [Stdout "[ERROR] Kaggle API credentials not found"])) /\
  (forall s',
     check_kaggle_api w s = (Returned true, s') <->
     exists s1, import_kaggle w s = (Returned tt, s1) /\
                s' = log s1 [Stdout "[OK] Kaggle API is configured"]).
Proof.
  rewrite check_kaggle_api_run. repeat split.
  - intros e s1 H Hc. rewrite H. apply import_kaggle_raised in H as [-> _].
    destruct (exn_class_of e); try discriminate; reflexivity.
  - intros e s1 H Hc. rewrite H. apply import_kaggle_raised in H as [-> _].
    by rewrite Hc.
  - destruct (import_kaggle w s) as [[[]|e] s1].
    + intros [= <-]. eauto.
    + destruct (is_OSError (exn_class_of e)); [discriminate|].
      destruct (is_ImportError (exn_class_of e)); discriminate.
  - intros [s1 [-> ->]]. reflexivity.
Qed.

Lemma check_kaggle_api_boolean_witness :
  check_kaggle_api (offline_kaggle (Some no_kaggle_package)) fresh =
    (Returned false, log fresh [Stdout "[ERROR] Kaggle package not installed"]) /\
  check_kaggle_api (offline_kaggle (Some no_credentials)) fresh =
    (Returned false, log fresh [Stdout "[ERROR] Kaggle API credentials not found"]) /\
  check_kaggle_api (offline_kaggle None) fresh =
    (Returned true, log (State ∅ true []) [Stdout "[OK] Kaggle API is configured"]).
Proof.
  split; [|split].
  - apply (proj1 (check_kaggle_api_boolean (offline_kaggle (Some no_kaggle_package)) fresh)
             no_kaggle_package fresh); reflexivity.
  - apply (proj1 (proj2 (check_kaggle_api_boolean (offline_kaggle (Some no_credentials)) fresh))
             no_credentials fresh); reflexivity.
  - apply (proj2 (proj2 (check_kaggle_api_boolean (offline_kaggle None) fresh))).
    exists (State ∅ true []). split; reflexivity.
Defined.

(** ** Exit status *)

Lemma outcome_eta {A} (r : outcome A * state) (a : outcome A) :
  r.1 = a -> r = (a, r.2).
Proof. destruct r; simpl; congruence. Qed.


Lemma main_run w s has_kaggle s1 :
  main_setup w s = (Returned has_kaggle, s1) ->
  exists out,
    main w s =
      (Returned tt,
       log s1 ([Stdout ""] ++ header_lines "Verification"
               ++ map (verify_line (fs s1)) required_files ++ out)).
Proof.
  intros H. unfold main. rewrite (bind_returned _ _ _ _ _ H).
  rewrite bind_print, bind_run, verify_datasets_run.
  destruct (main_report_returns has_kaggle
              (forallb (present (fs (log s1 [Stdout ""]))) required_files)
              (log (log s1 [Stdout ""])
                 (header_lines "Verification"
                  ++ map (verify_line (fs (log s1 [Stdout ""]))) required_files)))
    as [out Hout].
  exists out. rewrite Hout, !log_log, fs_log. by rewrite <- !app_assoc.
Qed.

(** C7. Every run in which [main] gets through its setup ends normally
    with exit status 0, whatever [verify_datasets] returned: [main] sets no
    exit code of its own. *)
Theorem main_exit_status_zero (w : world) (s : state) (has_kaggle all_present : bool) :
  (main_setup w s).1 = Returned has_kaggle ->
  (verify_datasets (log (main_setup w s).2 [Stdout ""])).1 = Returned all_present ->
  (exists s3, main w s = (Returned tt, s3)) /\ exit_status w s = 0%Z.
Proof.
  intros H _. apply outcome_eta in H.
  destruct (main_run _ _ _ _ H) as [out Hout].
  split; [eauto|]. unfold exit_status. by rewrite Hout.
Qed.

Lemma main_exit_status_zero_witness :
  ((main_setup (offline_kaggle (Some no_credentials)) fresh).1 = Returned false /\
   (verify_datasets
      (log (main_setup (offline_kaggle (Some no_credentials)) fresh).2 [Stdout ""])).1
     = Returned false /\
   exit_status (offline_kaggle (Some no_credentials)) fresh = 0%Z) /\
  ((main_setup (offline_kaggle None) complete).1 = Returned true /\
   (verify_datasets (log (main_setup (offline_kaggle None) complete).2 [Stdout ""])).1
     = Returned true /\
   exit_status (offline_kaggle None) complete = 0%Z).
Proof.
  split.
  - assert ((main_setup (offline_kaggle (Some no_credentials)) fresh).1 = Returned false)
      as E1 by (vm_compute; reflexivity).
    assert ((verify_datasets
               (log (main_setup (offline_kaggle (Some no_credentials)) fresh).2
                  [Stdout ""])).1 = Returned false)
      as E2 by (vm_compute; reflexivity).
    split; [exact E1|]. split; [exact E2|].
    exact (proj2 (main_exit_status_zero _ _ _ _ E1 E2)).
  - assert ((main_setup (offline_kaggle None) complete).1 = Returned true)
      as E1 by (vm_compute; reflexivity).
    assert ((verify_datasets
               (log (main_setup (offline_kaggle None) complete).2 [Stdout ""])).1
            = Returned true)
      as E2 by (vm_compute; reflexivity).
    split; [exact E1|]. split; [exact E2|].
    exact (proj2 (main_exit_status_zero _ _ _ _ E1 E2)).
Defined.

(** ** What the verification pass reports *)

Lemma verify_line_in f item :
  In item required_files ->
  In (verify_line f item) (header_lines "Verification" ++ map (verify_line f) required_files).
Proof. intros H. apply in_or_app. right. by apply in_map. Qed.

Lemma verify_false_of_absent s name file :
  In (name, file) required_files ->
  lookup_path (fs s) (Path file) = None ->
  forallb (present (fs s)) required_files = false.
Proof.
  intros Hitem Hnone. apply not_true_is_false. intros Hall.
  rewrite forallb_forall in Hall. specialize (Hall _ Hitem).
  unfold present in Hall. cbn [snd] in Hall.
  apply bool_decide_eq_true in Hall. rewrite Hnone in Hall. by destruct Hall.
Qed.

Lemma verify_line_absent f name file :
  lookup_path f (Path file) = None ->
  verify_line f (name, file) = Stdout ("[ERROR] " +:+ name +:+ ": Missing").
Proof.
  intros Hnone. unfold verify_line. cbn [fst snd].
  rewrite bool_decide_eq_false_2; [done|]. rewrite Hnone. by intros [? ?].
Qed.

Lemma verify_line_present f name file :
  is_Some (lookup_path f (Path file)) ->
  verify_line f (name, file) = Stdout ("[OK] " +:+ name +:+ ": Found").
Proof.
  intros Hsome. unfold verify_line. cbn [fst snd]. by rewrite bool_decide_eq_true_2.
Qed.

Lemma verify_reports_missing s name file :
  In (name, file) required_files ->
  lookup_path (fs s) (Path file) = None ->
  reported_missing s name.
Proof.
  intros Hitem Hnone. eexists. split.
  - rewrite verify_datasets_run. by rewrite (verify_false_of_absent _ _ _ Hitem Hnone).
  - rewrite <- (verify_line_absent (fs s) name file Hnone). by apply verify_line_in.
Qed.

Lemma verify_reports_found s name file :
  In (name, file) required_files ->
  is_Some (lookup_path (fs s) (Path file)) ->
  reported_found s name.
Proof.
  intros Hitem Hsome. eexists _, _. split.
  - apply verify_datasets_run.
  - rewrite <- (verify_line_present (fs s) name file Hsome). by apply verify_line_in.
Qed.

Lemma log_inj s a b : log s a = log s b -> a = b.
Proof. unfold log. intros [= H]. by apply app_inv_head in H. Qed.

(** ** Kaggle routines without API access *)

Lemma lookup_path_snoc (f : filesystem) p x : lookup_path f (p ++ [x]) = f !! (p ++ [x]).
Proof. by destruct p. Qed.

Ltac in_list := repeat first [ left; reflexivity | right ].

Ltac find_line := vm_compute; in_list.

Lemma marker_missing s (name file dest leaf : string) out :
  In (name, file) required_files ->
  Path file = Path dest ++ [leaf] ->
  Path dest <> [] ->
  wf_fs (fs s) = true ->
  unpopulated (fs s) (Path dest) ->
  reported_missing (log s out) name.
Proof.
  intros Hitem Hfile Hne Hwf Hun. apply (verify_reports_missing _ name file Hitem).
  rewrite fs_log, Hfile, lookup_path_snoc.
  by apply unpopulated_child_absent.
Qed.

Lemma setup_tmdb_manual w s :
  wf_fs (fs s) = true ->
  unpopulated (fs s) (Path "datasets/TMDB") ->
  manual_fallback (setup_tmdb_dataset w false) s
    [ "  1. Go to: https://www.kaggle.com/datasets/asaniczka/tmdb-movies-dataset-2023-930k-movies";
      "  2. Click 'Download' button (requires Kaggle login)";
      "  3. Extract TMDB_movie_dataset_v11.csv to: datasets/TMDB/" ]
    (fun s' => reported_missing s' "TMDB").
Proof.
  intros Hwf Hun. eexists. split; [|split; [|split]].
  - unfold setup_tmdb_dataset. rewrite bind_print_header.
    rewrite (bind_returned _ _ _ _ _
               (check_dataset_exists_false "datasets/TMDB" "TMDB Movies"
                  (log s (header_lines "TMDB Dataset")) Hun)).
    cbn [negb]. run_prints. reflexivity.
  - reflexivity.
  - intros l Hl. destruct Hl as [<-|[<-|[<-|[]]]]; find_line.
  - apply (marker_missing s "TMDB" "datasets/TMDB/TMDB_movie_dataset_v11.csv"
             "datasets/TMDB" "TMDB_movie_dataset_v11.csv"); try done.
    unfold required_files; in_list.
Qed.

Lemma setup_anime_manual w s :
  wf_fs (fs s) = true ->
  unpopulated (fs s) (Path "datasets/anime") ->
  manual_fallback (setup_anime_dataset w false) s
    [ "  1. Go to: https://www.kaggle.com/datasets/hernan4444/anime-recommendation-database-2020";
      "  2. Click 'Download' button (requires Kaggle login)";
      "  3. Extract all CSV files to: datasets/anime/" ]
    (fun s' => reported_missing s' "MyAnimeList").
Proof.
  intros Hwf Hun. eexists. split; [|split; [|split]].
  - unfold setup_anime_dataset. rewrite bind_print_header.
    rewrite (bind_returned _ _ _ _ _
               (check_dataset_exists_false "datasets/anime" "MyAnimeList"
                  (log s (header_lines "MyAnimeList Dataset")) Hun)).
    cbn [negb]. run_prints. reflexivity.
  - reflexivity.
  - intros l Hl. destruct Hl as [<-|[<-|[<-|[]]]]; find_line.
  - apply (marker_missing s "MyAnimeList" "datasets/anime/anime.csv"
             "datasets/anime" "anime.csv"); try done.
    unfold required_files; in_list.
Qed.

Lemma netflix_checks s :
  inspectable (fs s) (Path "datasets/Netflix/netflix") ->
  inspectable (fs s) (Path "datasets/Netflix/netflix_prize") ->
  exists b1 b2 out,
    (b1 = true <-> populated (fs s) (Path "datasets/Netflix/netflix")) /\
    (b2 = true <-> populated (fs s) (Path "datasets/Netflix/netflix_prize")) /\
    forallb is_print out = true /\
    forall A (k : bool -> bool -> py A),
      bind (check_dataset_exists "datasets/Netflix/netflix" "Netflix Shows")
        (fun x => bind (check_dataset_exists "datasets/Netflix/netflix_prize" "Netflix Prize")
                    (fun y => k x y)) s
      = k b1 b2 (log s out).
Proof.
  assert (forall p, populated (fs s) p -> unpopulated (fs s) p -> False) as Hex.
  { intros p [Hd Hne] [Ha|[_ Hnil]]; congruence. }
  assert (forall p, populated (fs s) p -> true = true <-> populated (fs s) p) as Ht by done.
  assert (forall p, unpopulated (fs s) p -> false = true <-> populated (fs s) p) as Hf.
  { intros p Hu. split; [discriminate|]. intros Hp. exfalso. eauto. }
  intros [H1|H1] [H2|H2].
  - exists true, true, [Stdout "[OK] Netflix Shows: Already exists";
                        Stdout "[OK] Netflix Prize: Already exists"].
    split; [auto|]. split; [auto|]. split; [reflexivity|]. intros A k.
    rewrite (bind_returned _ _ _ _ _ (check_dataset_exists_true _ "Netflix Shows" s H1)).
    rewrite (bind_returned _ _ _ _ _
               (check_dataset_exists_true _ "Netflix Prize" (log s _) H2)).
    by rewrite log_log.
  - exists true, false, [Stdout "[OK] Netflix Shows: Already exists"].
    split; [auto|]. split; [auto|]. split; [reflexivity|]. intros A k.
    rewrite (bind_returned _ _ _ _ _ (check_dataset_exists_true _ "Netflix Shows" s H1)).
    by rewrite (bind_returned _ _ _ _ _
                  (check_dataset_exists_false _ "Netflix Prize" (log s _) H2)).
  - exists false, true, [Stdout "[OK] Netflix Prize: Already exists"].
    split; [auto|]. split; [auto|]. split; [reflexivity|]. intros A k.
    rewrite (bind_returned _ _ _ _ _ (check_dataset_exists_false _ "Netflix Shows" s H1)).
    by rewrite (bind_returned _ _ _ _ _
                  (check_dataset_exists_true _ "Netflix Prize" s H2)).
  - exists false, false, [].
    split; [auto|]. split; [auto|]. split; [reflexivity|]. intros A k.
    rewrite (bind_returned _ _ _ _ _ (check_dataset_exists_false _ "Netflix Shows" s H1)).
    rewrite (bind_returned _ _ _ _ _ (check_dataset_exists_false _ "Netflix Prize" s H2)).
    by rewrite log_nil.
Qed.

Lemma populated_not_unpopulated f p : populated f p -> unpopulated f p -> False.
Proof. intros [Hd Hne] [Ha|[_ Hnil]]; congruence. Qed.

Lemma setup_netflix_manual_shows w s :
  wf_fs (fs s) = true ->
  unpopulated (fs s) (Path "datasets/Netflix/netflix") ->
  inspectable (fs s) (Path "datasets/Netflix/netflix_prize") ->
  manual_fallback (setup_netflix_datasets w false) s
    [ "  1. Go to: https://www.kaggle.com/datasets/shivamb/netflix-shows";
      "  2. Click 'Download' button (requires Kaggle login)";
      "  3. Extract netflix_titles.csv to: datasets/Netflix/netflix/" ]
    (fun s' => reported_missing s' "Netflix Shows").
Proof.
  intros Hwf H1 H2.
  destruct (netflix_checks (log s (header_lines "Netflix Datasets")) (or_intror H1) H2)
    as (b1 & b2 & outc & Hb1 & Hb2 & Hpr & Hk).
  assert (b1 = false) as ->.
  { destruct b1; [|done]. exfalso.
    apply (populated_not_unpopulated (fs s) (Path "datasets/Netflix/netflix")); [|done].
    by apply Hb1. }
  destruct b2; (eexists; split; [|split; [|split]]).
  - unfold setup_netflix_datasets. rewrite bind_print_header, Hk.
    cbn [andb negb]. run_prints. reflexivity.
  - by rewrite !forallb_app, Hpr.
  - intros l Hl. apply in_or_app. right. apply in_or_app. right.
    destruct Hl as [<-|[<-|[<-|[]]]]; find_line.
  - apply (marker_missing s "Netflix Shows" "datasets/Netflix/netflix/netflix_titles.csv"
             "datasets/Netflix/netflix" "netflix_titles.csv"); try done.
    unfold required_files; in_list.
  - unfold setup_netflix_datasets. rewrite bind_print_header, Hk.
    cbn [andb negb]. run_prints. reflexivity.
  - by rewrite !forallb_app, Hpr.
  - intros l Hl. apply in_or_app. right. apply in_or_app. right.
    destruct Hl as [<-|[<-|[<-|[]]]]; find_line.
  - apply (marker_missing s "Netflix Shows" "datasets/Netflix/netflix/netflix_titles.csv"
             "datasets/Netflix/netflix" "netflix_titles.csv"); try done.
    unfold required_files; in_list.
Qed.

Lemma setup_netflix_manual_prize w s :
  unpopulated (fs s) (Path "datasets/Netflix/netflix_prize") ->
  inspectable (fs s) (Path "datasets/Netflix/netflix") ->
  manual_fallback (setup_netflix_datasets w false) s
    [ "  1. Go to: https://www.kaggle.com/datasets/netflix-inc/netflix-prize-data";
      "  2. Click 'Download' button (requires Kaggle login)";
      "  3. Extract all files to: datasets/Netflix/netflix_prize/" ]
    (fun s' =>
       (lookup_path (fs s) (Path "datasets/Netflix/netflix_prize") = None ->
        reported_missing s' "Netflix Prize") /\
       (lookup_path (fs s) (Path "datasets/Netflix/netflix_prize") = Some Dir ->
        reported_found s' "Netflix Prize")).
Proof.
  intros H2 H1.
  destruct (netflix_checks (log s (header_lines "Netflix Datasets")) H1 (or_intror H2))
    as (b1 & b2 & outc & Hb1 & Hb2 & Hpr & Hk).
  assert (b2 = false) as ->.
  { destruct b2; [|done]. exfalso.
    apply (populated_not_unpopulated (fs s) (Path "datasets/Netflix/netflix_prize")); [|done].
    by apply Hb2. }
  assert (In ("Netflix Prize", "datasets/Netflix/netflix_prize") required_files) as Hitem.
  { unfold required_files; in_list. }
  destruct b1; (eexists; split; [|split; [|split; [|split]]]).
  - unfold setup_netflix_datasets. rewrite bind_print_header, Hk.
    cbn [andb negb]. run_prints. reflexivity.
  - by rewrite !forallb_app, Hpr.
  - intros l Hl. apply in_or_app. right. apply in_or_app. right.
    destruct Hl as [<-|[<-|[<-|[]]]]; find_line.
  - intros Hn. by apply (verify_reports_missing _ _ _ Hitem).
  - intros Hd. apply (verify_reports_found _ _ _ Hitem). rewrite fs_log, Hd. eauto.
  - unfold setup_netflix_datasets. rewrite bind_print_header, Hk.
    cbn [andb negb]. run_prints. reflexivity.
  - by rewrite !forallb_app, Hpr.
  - intros l Hl. apply in_or_app. right. apply in_or_app. right.
    destruct Hl as [<-|[<-|[<-|[]]]]; find_line.
  - intros Hn. by apply (verify_reports_missing _ _ _ Hitem).
  - intros Hd. apply (verify_reports_found _ _ _ Hitem). rewrite fs_log, Hd. eauto.
Qed.

(** C6, as amended. In a well-formed filesystem, a Kaggle-mediated routine
    called without API access on an unpopulated destination prints the
    manual instructions for it (source URL, steps, destination path) and
    returns; it makes no download, extraction or API call and leaves the
    filesystem as it was.  The Netflix routine inspects both of its
    destinations before it prints anything, so for it the other Netflix
    destination has to be inspectable as well: absent or a directory, not a
    regular file.  A verification pass run afterwards reports
    Netflix Shows, TMDB and MyAnimeList as Missing, their markers being
    files inside the destination.  The marker of Netflix Prize is the
    destination directory itself: verification reports it Missing when
    the directory is absent and Found when it exists and is empty. *)
Theorem kaggle_routines_without_api_access (w : world) (s : state) :
  wf_fs (fs s) = true ->
  (unpopulated (fs s) (Path "datasets/Netflix/netflix") ->
   inspectable (fs s) (Path "datasets/Netflix/netflix_prize") ->
   manual_fallback (setup_netflix_datasets w false) s
     [ "  1. Go to: https://www.kaggle.com/datasets/shivamb/netflix-shows";
       "  2. Click 'Download' button (requires Kaggle login)";
       "  3. Extract netflix_titles.csv to: datasets/Netflix/netflix/" ]
     (fun s' => reported_missing s' "Netflix Shows")) /\
  (unpopulated (fs s) (Path "datasets/Netflix/netflix_prize") ->
   inspectable (fs s) (Path "datasets/Netflix/netflix") ->
   manual_fallback (setup_netflix_datasets w false) s
     [ "  1. Go to: https://www.kaggle.com/datasets/netflix-inc/netflix-prize-data";
       "  2. Click 'Download' button (requires Kaggle login)";
       "  3. Extract all files to: datasets/Netflix/netflix_prize/" ]
     (fun s' =>
        (lookup_path (fs s) (Path "datasets/Netflix/netflix_prize") = None ->
         reported_missing s' "Netflix Prize") /\
        (lookup_path (fs s) (Path "datasets/Netflix/netflix_prize") = Some Dir ->
         reported_found s' "Netflix Prize"))) /\
  (unpopulated (fs s) (Path "datasets/TMDB") ->
   manual_fallback (setup_tmdb_dataset w false) s
     [ "  1. Go to: https://www.kaggle.com/datasets/asaniczka/tmdb-movies-dataset-2023-930k-movies";
       "  2. Click 'Download' button (requires Kaggle login)";
       "  3. Extract TMDB_movie_dataset_v11.csv to: datasets/TMDB/" ]
     (fun s' => reported_missing s' "TMDB")) /\
  (unpopulated (fs s) (Path "datasets/anime") ->
   manual_fallback (setup_anime_dataset w false) s
     [ "  1. Go to: https://www.kaggle.com/datasets/hernan4444/anime-recommendation-database-2020";
       "  2. Click 'Download' button (requires Kaggle login)";
       "  3. Extract all CSV files to: datasets/anime/" ]
     (fun s' => reported_missing s' "MyAnimeList")).
Proof.
  intros Hwf. split; [|split; [|split]].
  - by apply setup_netflix_manual_shows.
  - by apply setup_netflix_manual_prize.
  - by apply setup_tmdb_manual.
  - by apply setup_anime_manual.
Qed.

Lemma kaggle_routines_without_api_access_witness :
  wf_fs (fs fresh) = true /\
  unpopulated (fs fresh) (Path "datasets/TMDB") /\
  manual_fallback (setup_tmdb_dataset (offline_kaggle (Some no_credentials)) false) fresh
    [ "  1. Go to: https://www.kaggle.com/datasets/asaniczka/tmdb-movies-dataset-2023-930k-movies";
      "  2. Click 'Download' button (requires Kaggle login)";
      "  3. Extract TMDB_movie_dataset_v11.csv to: datasets/TMDB/" ]
    (fun s' => reported_missing s' "TMDB").
Proof.
  assert (wf_fs (fs fresh) = true) as Hwf by (vm_compute; reflexivity).
  assert (unpopulated (fs fresh) (Path "datasets/TMDB")) as Hun
    by (left; vm_compute; reflexivity).
  split; [exact Hwf|]. split; [exact Hun|].
  exact (proj1 (proj2 (proj2
           (kaggle_routines_without_api_access
              (offline_kaggle (Some no_credentials)) fresh Hwf))) Hun).
Defined.

(** C6, as stated, fails for Netflix Prize: with the destination directory
    present and empty the routine prints its instructions and writes
    nothing, yet the verification that follows reports Netflix Prize as
    Found, not Missing. *)
Lemma empty_prize_dir_is_reported_found :
  wf_fs (fs empty_prize_dir) = true /\
  unpopulated (fs empty_prize_dir) (Path "datasets/Netflix/netflix_prize") /\
  exists out,
    setup_netflix_datasets (offline_kaggle (Some no_credentials)) false empty_prize_dir
      = (Returned tt, log empty_prize_dir out) /\
    forallb is_print out = true /\
    reported_found (log empty_prize_dir out) "Netflix Prize" /\
    ~ reported_missing (log empty_prize_dir out) "Netflix Prize".
Proof.
  assert (unpopulated (fs empty_prize_dir) (Path "datasets/Netflix/netflix_prize")) as Hun
    by (right; split; vm_compute; reflexivity).
  assert (inspectable (fs empty_prize_dir) (Path "datasets/Netflix/netflix")) as Hin
    by (right; left; vm_compute; reflexivity).
  split; [vm_compute; reflexivity|]. split; [exact Hun|].
  destruct (setup_netflix_manual_prize (offline_kaggle (Some no_credentials))
              empty_prize_dir Hun Hin) as (out & Hrun & Hpr & _ & _ & Hfound).
  exists out. split; [exact Hrun|]. split; [exact Hpr|]. split.
  - apply Hfound. vm_compute. reflexivity.
  - intros (out' & Hv & Hmiss). rewrite verify_datasets_run in Hv.
    apply (f_equal snd) in Hv. cbn [snd] in Hv. apply log_inj in Hv. subst out'.
    rewrite fs_log in Hmiss. vm_compute in Hmiss.
    repeat (destruct Hmiss as [Hmiss|Hmiss]; [discriminate Hmiss|]).
    destruct Hmiss.
Qed.

(** ** Footprints of monadic code *)

Lemma within_refl fp s : within fp s s.
Proof.
  repeat split; eauto. exists []. by rewrite app_nil_r.
Qed.

Lemma within_trans fp s1 s2 s3 :
  within fp s1 s2 -> within fp s2 s3 -> within fp s1 s3.
Proof.
  intros (Hu1 & Hd1 & Hf1 & Hw1 & (out1 & Ht1 & Ho1) & Hl1)
         (Hu2 & Hd2 & Hf2 & Hw2 & (out2 & Ht2 & Ho2) & Hl2).
  repeat split.
  - intros q Hq. by rewrite Hu2, Hu1.
  - eauto.
  - intros q c Hq. destruct (Hf1 _ _ Hq) as [[c' Hc']|]; [|by right].
    eauto.
  - intros q c Hq. destruct (Hw2 _ _ Hq) as [[c' Hc']|]; [|by right].
    eauto.
  - exists (out1 ++ out2). rewrite Ht2, Ht1, <- app_assoc. split; [done|].
    by apply Forall_app.
  - eauto.
Qed.

Lemma within_narrower fp fp' s s' :
  narrower fp fp' -> within fp s s' -> within fp' s s'.
Proof.
  intros (Hu & Hw & Hd & He) (H0 & H1 & H2 & H3 & (out & Ht & Ho) & Hl). repeat split.
  - intros q Hq. apply H0. eauto.
  - done.
  - intros q c Hq. destruct (H2 _ _ Hq); eauto.
  - intros q c Hq. destruct (H3 _ _ Hq); eauto.
  - exists out. split; [done|]. eapply Forall_impl; eauto.
  - done.
Qed.

Lemma keeps_narrower {A} fp fp' (m : py A) :
  narrower fp fp' -> keeps fp m -> keeps fp' m.
Proof. intros Hn Hk s. eapply within_narrower; eauto. Qed.

Lemma keeps_ret {A} fp (a : A) : keeps fp (ret a).
Proof. intros s. apply within_refl. Qed.

Lemma keeps_raise {A} fp e : keeps fp (@raise A e).
Proof. intros s. apply within_refl. Qed.

Lemma keeps_bind {A B} fp (m : py A) (k : A -> py B) :
  keeps fp m -> (forall a, keeps fp (k a)) -> keeps fp (bind m k).
Proof.
  intros Hm Hk s. specialize (Hm s). rewrite bind_run.
  destruct (m s) as [[a|e] s1]; simpl in *; [|done].
  eapply within_trans; [exact Hm|]. apply Hk.
Qed.

Lemma keeps_dispatch {A} fp (hs : list ((exn_class -> bool) * (exn -> py A))) e :
  Forall (fun h => forall e, keeps fp (h.2 e)) hs -> keeps fp (dispatch hs e).
Proof.
  induction 1 as [|[c h] hs Hh _ IH]; simpl.
  - apply keeps_raise.
  - destruct (c (exn_class_of e)); [apply Hh | apply IH].
Qed.

Lemma keeps_try_except {A} fp (body : py A) hs :
  keeps fp body -> Forall (fun h => forall e, keeps fp (h.2 e)) hs ->
  keeps fp (try_except body hs).
Proof.
  intros Hb Hh s. specialize (Hb s). unfold try_except.
  destruct (body s) as [[a|e] s1]; simpl in *; [done|].
  eapply within_trans; [exact Hb|]. by apply keeps_dispatch.
Qed.

Lemma keeps_for_each {A} fp (xs : list A) body :
  (forall x, keeps fp (body x)) -> keeps fp (for_each xs body).
Proof.
  intros Hb. induction xs as [|x xs IH]; simpl.
  - apply keeps_ret.
  - apply keeps_bind; [apply Hb | intros _; apply IH].
Qed.

Lemma keeps_for_fold {A B} fp (xs : list A) (acc : B) body :
  (forall b x, keeps fp (body b x)) -> keeps fp (for_fold xs acc body).
Proof.
  intros Hb. revert acc. induction xs as [|x xs IH]; intros acc; simpl.
  - apply keeps_ret.
  - apply keeps_bind; [apply Hb | intros b; apply IH].
Qed.

Lemma keeps_if {A} fp (b : bool) (m1 m2 : py A) :
  keeps fp m1 -> keeps fp m2 -> keeps fp (if b then m1 else m2).
Proof. by destruct b. Qed.

Lemma keeps_emit fp e : emits fp e -> keeps fp (emit e).
Proof.
  intros He s. repeat split; simpl; eauto.
Qed.

Lemma keeps_print fp text : emits fp (Stdout text) -> keeps fp (print text).
Proof. apply keeps_emit. Qed.

Lemma keeps_get_fs fp : keeps fp get_fs.
Proof. intros s. apply within_refl. Qed.

(** A change of the filesystem alone. *)
Lemma within_put_fs fp s f :
  (forall q, ~ touches fp q -> f !! q = fs s !! q) ->
  (forall q, fs s !! q = Some Dir -> f !! q = Some Dir) ->
  (forall q c, fs s !! q = Some (File c) -> (exists c', f !! q = Some (File c')) \/ deletes fp q) ->
  (forall q c, f !! q = Some (File c) -> (exists c', fs s !! q = Some (File c')) \/ writes fp q) ->
  within fp s (put_fs f s).2.
Proof.
  intros H0 H1 H2 H3. repeat split; simpl; eauto.
  exists []. by rewrite app_nil_r.
Qed.

(** ** Footprints of the file operations *)

Create HintDb footprint.
#[local] Hint Resolve keeps_ret keeps_raise keeps_get_fs keeps_for_each keeps_for_fold
  keeps_if keeps_try_except : footprint.

Ltac keeps_step :=
  first
    [ apply keeps_ret | apply keeps_raise | apply keeps_get_fs
    | apply keeps_bind; [|intros ?] | apply keeps_if
    | apply keeps_for_each; intros ? | apply keeps_for_fold; intros ? ? ].

Lemma lookup_path_cons (f : filesystem) x p : lookup_path f (x :: p) = f !! (x :: p).
Proof. reflexivity. Qed.

Lemma lookup_path_dir_inv (f : filesystem) p :
  lookup_path f p <> Some Dir -> p <> [] /\ f !! p <> Some Dir.
Proof. destruct p; simpl; [congruence|]. by split. Qed.

Lemma insert_dir_within fp s p :
  touches fp p ->
  (forall c, fs s !! p <> Some (File c)) ->
  within fp s (put_fs (<[p := Dir]> (fs s)) s).2.
Proof.
  intros Ht Hp. apply within_put_fs.
  - intros q Hq. rewrite lookup_insert_ne; [done|]. by intros ->.
  - intros q Hq. destruct (decide (p = q)) as [->|Hne].
    + by rewrite lookup_insert_eq.
    + by rewrite lookup_insert_ne.
  - intros q c Hq. left. destruct (decide (p = q)) as [->|Hne].
    + by destruct (Hp c).
    + rewrite lookup_insert_ne; eauto.
  - intros q c Hq. left. destruct (decide (p = q)) as [->|Hne].
    + by rewrite lookup_insert_eq in Hq.
    + rewrite lookup_insert_ne in Hq; eauto.
Qed.

Lemma insert_file_within fp s p c :
  touches fp p ->
  fs s !! p <> Some Dir ->
  writes fp p \/ (exists c', fs s !! p = Some (File c')) ->
  within fp s (put_fs (<[p := File c]> (fs s)) s).2.
Proof.
  intros Ht Hp Hw. apply within_put_fs.
  - intros q Hq. rewrite lookup_insert_ne; [done|]. by intros ->.
  - intros q Hq. destruct (decide (p = q)) as [->|Hne]; [done|].
    by rewrite lookup_insert_ne.
  - intros q c0 Hq. left. destruct (decide (p = q)) as [->|Hne].
    + rewrite lookup_insert_eq. eauto.
    + rewrite lookup_insert_ne; eauto.
  - intros q c0 Hq. destruct (decide (p = q)) as [->|Hne].
    + destruct Hw; [by right | by left].
    + rewrite lookup_insert_ne in Hq; eauto.
Qed.

Lemma delete_file_within fp s p :
  touches fp p -> deletes fp p -> fs s !! p <> Some Dir ->
  within fp s (put_fs (delete p (fs s)) s).2.
Proof.
  intros Ht Hd Hp. apply within_put_fs.
  - intros q Hq. rewrite lookup_delete_ne; [done|]. by intros ->.
  - intros q Hq. destruct (decide (p = q)) as [->|Hne]; [done|].
    by rewrite lookup_delete_ne.
  - intros q c Hq. destruct (decide (p = q)) as [->|Hne]; [by right|].
    left. rewrite lookup_delete_ne; eauto.
  - intros q c Hq. left. destruct (decide (p = q)) as [->|Hne].
    + by rewrite lookup_delete_eq in Hq.
    + rewrite lookup_delete_ne in Hq; eauto.
Qed.

Lemma keeps_path_exists fp p : keeps fp (path_exists p).
Proof. intros s. apply within_refl. Qed.

Lemma keeps_is_populated fp p : keeps fp (is_populated p).
Proof.
  intros s. rewrite is_populated_run.
  destruct (lookup_path (fs s) p) as [[|]|]; apply within_refl.
Qed.

Lemma keeps_os_mkdir fp p : touches fp p -> keeps fp (os_mkdir p).
Proof.
  intros Ht s. unfold os_mkdir, get_fs. rewrite bind_run.
  destruct (lookup_path (fs s) (parent p)) as [[|]|]; try apply within_refl.
  destruct (lookup_path (fs s) p) eqn:E; [apply within_refl|].
  apply insert_dir_within; [done|]. intros c Hc. destruct p; simpl in E; congruence.
Qed.

Lemma keeps_mkdir_exist_ok fp p : touches fp p -> keeps fp (mkdir_exist_ok p).
Proof.
  intros Ht s. unfold mkdir_exist_ok, get_fs. rewrite bind_run.
  destruct (lookup_path (fs s) (parent p)) as [[|]|]; try apply within_refl.
  destruct (lookup_path (fs s) p) as [[|]|] eqn:E; try apply within_refl.
  apply insert_dir_within; [done|]. intros c Hc. destruct p; simpl in E; congruence.
Qed.

Lemma keeps_mkdir_p fp pre rest :
  (forall q, q `prefix_of` pre ++ rest -> touches fp q) ->
  keeps fp (mkdir_p pre rest).
Proof.
  revert pre. induction rest as [|x rest IH]; intros pre Ht; simpl.
  - apply keeps_ret.
  - assert (forall q, q `prefix_of` (pre ++ [x]) ++ rest -> touches fp q) as Ht'.
    { intros q Hq. apply Ht. by rewrite <- app_assoc in Hq. }
    intros s. unfold get_fs. rewrite bind_run.
    destruct (fs s !! (pre ++ [x])) as [[|]|] eqn:E.
    + apply within_refl.
    + by apply IH.
    + rewrite bind_run.
      eapply within_trans; [|by apply IH].
      apply insert_dir_within; [|intros c; congruence].
      apply Ht. exists rest. by rewrite <- app_assoc.
Qed.

Lemma keeps_open_wb fp p : touches fp p -> writes fp p -> keeps fp (open_wb p).
Proof.
  intros Ht Hw s. unfold open_wb, get_fs. rewrite bind_run.
  destruct (lookup_path (fs s) (parent p)) as [[|]|]; try apply within_refl.
  destruct (lookup_path (fs s) p) as [[|]|] eqn:E; try apply within_refl.
  - apply insert_file_within; [done| |by left]. destruct p; simpl in E; congruence.
  - apply insert_file_within; [done| |by left]. destruct p; simpl in E; congruence.
Qed.

Lemma keeps_write_block fp p block : touches fp p -> keeps fp (write_block p block).
Proof.
  intros Ht s. unfold write_block, get_fs. rewrite bind_run.
  destruct (fs s !! p) as [[c|]|] eqn:E; try apply within_refl.
  apply insert_file_within; [done|congruence|]. right. eauto.
Qed.

Lemma keeps_unlink fp p :
  touches fp p -> deletes fp p -> emits fp (Unlink p) -> keeps fp (unlink p).
Proof.
  intros Ht Hd He. unfold unlink. apply keeps_bind; [by apply keeps_emit|]. intros _.
  intros s. unfold get_fs. rewrite bind_run.
  destruct (lookup_path (fs s) p) as [[|]|] eqn:E; try apply within_refl.
  apply delete_file_within; [done|done|]. destruct p; simpl in E; congruence.
Qed.

Lemma keeps_import_kaggle fp w : keeps fp (import_kaggle w).
Proof.
  intros s. unfold import_kaggle.
  destruct (kaggle_loaded s); [apply within_refl|].
  destruct (kaggle_import w); [apply within_refl|].
  repeat split; simpl; eauto. exists []. by rewrite app_nil_r.
Qed.

(** ** Transport primitives: containment and footprint *)

Lemma try_except_all_run {A} (body : py A) h s :
  try_except body [(is_Exception, h)] s =
    match body s with
    | (Returned a, s') => (Returned a, s')
    | (Raised e, s') => h e s'
    end.
Proof. unfold try_except. by destruct (body s) as [[a|e] s']. Qed.

Lemma keeps_reporthook fp count block_size total_size :
  emits fp (Progress count block_size total_size) ->
  keeps fp (reporthook count block_size total_size).
Proof.
  intros He. unfold reporthook.
  destruct (total_size =? 0)%Z; [apply keeps_raise | by apply keeps_emit].
Qed.

Lemma keeps_urlretrieve w url dest :
  keeps (fp_download url dest) (urlretrieve w url dest reporthook).
Proof.
  unfold urlretrieve. apply keeps_bind; [apply keeps_emit; by right|]. intros _.
  destruct (fetch w url) as [e|size blocks broken]; [apply keeps_raise|].
  apply keeps_bind; [by apply keeps_open_wb|]. intros _.
  apply keeps_bind; [apply keeps_reporthook; by left|]. intros _.
  apply keeps_bind.
  - apply keeps_for_fold. intros [blocknum read] block.
    apply keeps_bind; [by apply keeps_write_block|]. intros _.
    apply keeps_bind; [apply keeps_reporthook; by left|]. intros _.
    apply keeps_ret.
  - intros st. destruct broken; [apply keeps_raise|].
    apply keeps_if; [apply keeps_raise | apply keeps_ret].
Qed.

Lemma keeps_download_file w url dest description :
  keeps (fp_download url dest) (download_file w url dest description).
Proof.
  unfold download_file, print_info, print_success, print_error.
  apply keeps_bind; [apply keeps_print; by left|]. intros _.
  apply keeps_try_except.
  - apply keeps_bind; [apply keeps_urlretrieve|]. intros _.
    apply keeps_bind; [apply keeps_print; by left|]. intros _.
    apply keeps_bind; [apply keeps_print; by left|]. intros _.
    apply keeps_ret.
  - constructor; [|constructor]. intros e. cbn [snd].
    apply keeps_bind; [apply keeps_print; by left|]. intros _. apply keeps_ret.
Qed.

(** [download_file] turns every outcome of the download into a boolean. *)
Lemma download_file_run w url dest description s :
  download_file w url dest description s =
    match urlretrieve w url dest reporthook
            (log s [Stdout ("[INFO] Downloading " +:+ description +:+ "...")]) with
    | (Returned _, s1) =>
        (Returned true,
         log s1 [Stdout ""; Stdout ("[OK] Downloaded " +:+ description)])
    | (Raised e, s1) =>
        (Returned false,
         log s1 [Stdout ("[ERROR] Failed to download " +:+ description +:+ ": "
                         +:+ exn_str e)])
    end.
Proof.
  unfold download_file, print_info. rewrite bind_print, try_except_all_run, bind_run.
  destruct (urlretrieve _ _ _ _ _) as [[[]|e] s1].
  - unfold print_success. by rewrite bind_print, bind_print, ret_run, log_log.
  - unfold print_error. by rewrite bind_print, ret_run.
Qed.

Lemma download_file_returns w url dest description s :
  returns (download_file w url dest description) s.
Proof.
  unfold returns. rewrite download_file_run.
  destruct (urlretrieve _ _ _ _ _) as [[[]|e] s1]; eauto.
Qed.

Lemma parent_prefix (p : path) : parent p `prefix_of` p.
Proof.
  unfold parent. destruct (decide (p = [])) as [->|Hne]; [by exists []|].
  exists [List.last p ""]. by apply app_removelast_last.
Qed.

Lemma keeps_extract_member fp to (m : zip_member) :
  (forall q, q `prefix_of` to ++ m.1 -> touches fp q) ->
  (forall data err, m.2 = MFile data err -> writes fp (to ++ m.1)) ->
  keeps fp (extract_member to m).
Proof.
  intros Ht Hw. unfold extract_member.
  assert (touches fp (to ++ m.1)) as Htp by (by apply Ht).
  apply keeps_bind; [apply keeps_path_exists|]. intros there.
  apply keeps_bind.
  { apply keeps_if; [apply keeps_ret|]. apply keeps_mkdir_p. intros q Hq.
    apply Ht. simpl in Hq. etrans; [exact Hq|]. apply parent_prefix. }
  intros _. destruct (m.2) as [|data err] eqn:E.
  - apply keeps_bind; [apply keeps_get_fs|]. intros f.
    destruct (lookup_path f (to ++ m.1)) as [[|]|];
      first [apply keeps_ret | by apply keeps_os_mkdir].
  - apply keeps_bind; [apply keeps_open_wb; eauto|]. intros _.
    apply keeps_bind; [by apply keeps_write_block|]. intros _.
    destruct err; [apply keeps_raise | apply keeps_ret].
Qed.

Lemma keeps_extract_members fp to ms :
  (forall q, member_path to ms q -> touches fp q) ->
  (forall q, member_file to ms q -> writes fp q) ->
  keeps fp (for_each ms (extract_member to)).
Proof.
  intros Ht Hw. induction ms as [|m ms IH]; simpl.
  - apply keeps_ret.
  - apply keeps_bind.
    + apply keeps_extract_member.
      * intros q Hq. apply Ht. exists m.1, m.2. split; [|done]. left. by destruct m.
      * intros data err E. apply Hw.
        exists m.1, data, err. split; [|done]. left. destruct m; simpl in *. by subst.
    + intros _. apply IH.
      * intros q (rel & body & Hin & Hq). apply Ht.
        exists rel, body. split; [by right|done].
      * intros q (rel & data & err & Hin & ->). apply Hw.
        exists rel, data, err. split; [by right|done].
Qed.

Lemma keeps_extractall w zip to :
  keeps (fp_extract w zip to) (extractall w zip to).
Proof.
  unfold extractall. apply keeps_bind; [apply keeps_emit; by right|]. intros _.
  apply keeps_bind; [apply keeps_get_fs|]. intros f.
  destruct (lookup_path f zip) as [[c|]|]; try apply keeps_raise.
  destruct (unzip w c) as [e|ms] eqn:E; [apply keeps_raise|].
  apply keeps_extract_members; intros q Hq; simpl; eauto.
Qed.

Lemma keeps_extract_zip w zip to description :
  keeps (fp_extract w zip to) (extract_zip w zip to description).
Proof.
  unfold extract_zip, print_info, print_success, print_error.
  apply keeps_bind; [apply keeps_print; by left|]. intros _.
  apply keeps_try_except.
  - apply keeps_bind; [apply keeps_extractall|]. intros _.
    apply keeps_bind; [apply keeps_print; by left|]. intros _.
    apply keeps_ret.
  - constructor; [|constructor]. intros e. cbn [snd].
    apply keeps_bind; [apply keeps_print; by left|]. intros _. apply keeps_ret.
Qed.

Lemma extract_zip_run w zip to description s :
  extract_zip w zip to description s =
    match extractall w zip to
            (log s [Stdout ("[INFO] Extracting " +:+ description +:+ "...")]) with
    | (Returned _, s1) =>
        (Returned true, log s1 [Stdout ("[OK] Extracted " +:+ description)])
    | (Raised e, s1) =>
        (Returned false,
         log s1 [Stdout ("[ERROR] Failed to extract " +:+ description +:+ ": "
                         +:+ exn_str e)])
    end.
Proof.
  unfold extract_zip, print_info. rewrite bind_print, try_except_all_run, bind_run.
  destruct (extractall _ _ _ _) as [[[]|e] s1].
  - unfold print_success. by rewrite bind_print, ret_run.
  - unfold print_error. by rewrite bind_print, ret_run.
Qed.

Lemma extract_zip_returns w zip to description s :
  returns (extract_zip w zip to description) s.
Proof.
  unfold returns. rewrite extract_zip_run.
  destruct (extractall _ _ _ _) as [[[]|e] s1]; eauto.
Qed.

Lemma keeps_dataset_download_files w id dest :
  keeps (fp_kaggle w id dest) (dataset_download_files w id dest).
Proof.
  unfold dataset_download_files.
  apply keeps_bind; [apply keeps_emit; by right|]. intros _.
  apply keeps_bind.
  { apply keeps_extract_members; intros q Hq; simpl; eauto. }
  intros _. destruct ((kaggle_api w id).2); [apply keeps_raise | apply keeps_ret].
Qed.

Lemma keeps_setup_kaggle_dataset w id extract_to name :
  keeps (fp_kaggle w id (Path extract_to)) (setup_kaggle_dataset w id extract_to name).
Proof.
  unfold setup_kaggle_dataset, print_info, print_success, print_error.
  apply keeps_try_except.
  - apply keeps_bind; [apply keeps_import_kaggle|]. intros _.
    apply keeps_bind; [apply keeps_mkdir_p; intros q Hq; by left|]. intros _.
    apply keeps_bind; [apply keeps_print; by left|]. intros _.
    apply keeps_bind; [apply keeps_dataset_download_files|]. intros _.
    apply keeps_bind; [apply keeps_print; by left|]. intros _.
    apply keeps_ret.
  - constructor; [|constructor]. intros e. cbn [snd].
    apply keeps_bind; [apply keeps_print; by left|]. intros _. apply keeps_ret.
Qed.

Lemma setup_kaggle_dataset_returns w id extract_to name s :
  returns (setup_kaggle_dataset w id extract_to name) s.
Proof.
  unfold returns, setup_kaggle_dataset. rewrite try_except_all_run.
  match goal with |- context [match ?b s with _ => _ end] => destruct (b s) as [[a|e] s1] end.
  - eauto.
  - unfold print_error. rewrite bind_print, ret_run. eauto.
Qed.

(** ** One MovieLens item *)

Lemma bind_inv_returned {A B} (m : py A) (k : A -> py B) s b s' :
  bind m k s = (Returned b, s') ->
  exists a s1, m s = (Returned a, s1) /\ k a s1 = (Returned b, s').
Proof.
  rewrite bind_run. destruct (m s) as [[a|e] s1]; [eauto|discriminate].
Qed.

Lemma is_populated_state p s : (is_populated p s).2 = s.
Proof.
  rewrite is_populated_run. by destruct (lookup_path (fs s) p) as [[|]|].
Qed.

Lemma unlink_run p s :
  unlink p s =
    match lookup_path (fs s) p with
    | Some (File _) =>
        (Returned tt, State (delete p (fs s)) (kaggle_loaded s) (trace s ++ [Unlink p]))
    | Some Dir => (Raised (eisdir p), log s [Unlink p])
    | None => (Raised (enoent p), log s [Unlink p])
    end.
Proof.
  unfold unlink, emit, get_fs. rewrite !bind_run. simpl.
  by destruct (lookup_path (fs s) p) as [[|]|].
Qed.

Lemma movielens_item_run w dir d s :
  movielens_item w dir d s =
    match is_populated (dir ++ Path (d_extract_dir d)) s with
    | (Raised e, _) => (Raised e, s)
    | (Returned true, _) =>
        (Returned tt, log s [Stdout ("[WARNING] " +:+ d_name d +:+ " already exists. Skipping...")])
    | (Returned false, _) =>
        match download_file w (d_url d) (dir ++ Path (d_filename d)) (d_name d) s with
        | (Returned true, s1) =>
            match extract_zip w (dir ++ Path (d_filename d)) dir (d_name d) s1 with
            | (Returned true, s2) =>
                bind (unlink (dir ++ Path (d_filename d)))
                  (fun _ => print_success (d_name d +:+ " setup complete")) s2
            | (Returned false, s2) => (Returned tt, s2)
            | (Raised e, s2) => (Raised e, s2)
            end
        | (Returned false, s1) => (Returned tt, s1)
        | (Raised e, s1) => (Raised e, s1)
        end
    end.
Proof.
  unfold movielens_item. rewrite bind_run.
  pose proof (is_populated_state (dir ++ Path (d_extract_dir d)) s) as Hs.
  destruct (is_populated _ s) as [[[|]|e] s0]; simpl in Hs; subst s0; try reflexivity.
  rewrite bind_run.
  destruct (download_file _ _ _ _ s) as [[[|]|e] s1]; try reflexivity.
  cbn [negb]. rewrite bind_run.
  by destruct (extract_zip _ _ _ _ s1) as [[[|]|e] s2].
Qed.

Lemma lookup_path_ne (f : filesystem) p : p <> [] -> lookup_path f p = f !! p.
Proof. by destruct p. Qed.

Lemma open_wb_returned p s s1 :
  open_wb p s = (Returned tt, s1) -> p <> [] /\ fs s1 !! p = Some (File "").
Proof.
  unfold open_wb, get_fs. rewrite bind_run.
  destruct (lookup_path (fs s) (parent p)) as [[|]|]; try discriminate.
  destruct (lookup_path (fs s) p) as [[|]|] eqn:E; try discriminate;
    intros [= <-]; simpl; rewrite lookup_insert_eq; (split; [|done]);
    by destruct p.
Qed.

Lemma within_file_persists fp s s' q c :
  (forall p, ~ deletes fp p) -> within fp s s' ->
  fs s !! q = Some (File c) -> exists c', fs s' !! q = Some (File c').
Proof.
  intros Hnd (_ & _ & Hf & _) Hq. destruct (Hf _ _ Hq) as [|Hd]; [done|].
  by destruct (Hnd q).
Qed.

Lemma within_new_events fp s s' :
  within fp s s' -> exists out, trace s' = trace s ++ out /\ Forall (emits fp) out.
Proof. by intros (_ & _ & _ & _ & H & _). Qed.

Lemma urlretrieve_returned_file w url dest s s1 :
  urlretrieve w url dest reporthook s = (Returned tt, s1) ->
  dest <> [] /\ exists c, fs s1 !! dest = Some (File c).
Proof.
  unfold urlretrieve. intros H.
  apply bind_inv_returned in H as ([] & sa & _ & H).
  destruct (fetch w url) as [e|size blocks broken]; [discriminate|].
  apply bind_inv_returned in H as ([] & sb & Hopen & H).
  apply open_wb_returned in Hopen as [Hne Hopen]. split; [done|].
  assert (keeps (fp_download url dest)
            (bind (reporthook 0 block_bytes size) (fun _ =>
               bind (for_fold blocks (0%Z, 0%Z) (fun acc block =>
                       let '(blocknum, read) := acc in
                       bind (write_block dest block) (fun _ =>
                         bind (reporthook (blocknum + 1) block_bytes size) (fun _ =>
                           ret ((blocknum + 1)%Z,
                                (read + Z.of_nat (String.length block))%Z)))))
                 (fun st =>
                    match broken with
                    | Some e => raise e
                    | None =>
                        if ((0 <=? size)%Z && (st.2 <? size)%Z)%bool
                        then raise (Exn ContentTooShortError "retrieval incomplete")
                        else ret tt
                    end)))) as Hk.
  { apply keeps_bind; [apply keeps_reporthook; by left|]. intros _.
    apply keeps_bind.
    - apply keeps_for_fold. intros [blocknum read] block.
      apply keeps_bind; [by apply keeps_write_block|]. intros _.
      apply keeps_bind; [apply keeps_reporthook; by left|]. intros _.
      apply keeps_ret.
    - intros st. destruct broken; [apply keeps_raise|].
      apply keeps_if; [apply keeps_raise | apply keeps_ret]. }
  specialize (Hk sb). rewrite H in Hk. simpl in Hk.
  eapply (within_file_persists (fp_download url dest)); [|exact Hk|exact Hopen].
  by intros p Hp.
Qed.

Lemma download_file_true_file w url dest description s s1 :
  download_file w url dest description s = (Returned true, s1) ->
  dest <> [] /\ exists c, fs s1 !! dest = Some (File c).
Proof.
  rewrite download_file_run.
  destruct (urlretrieve _ _ _ _ _) as [[[]|e] s0] eqn:E; [|discriminate].
  intros [= <-]. rewrite fs_log. eapply urlretrieve_returned_file; eauto.
Qed.

Lemma extract_zip_file_persists w zip to description s b s' q c :
  extract_zip w zip to description s = (Returned b, s') ->
  fs s !! q = Some (File c) -> exists c', fs s' !! q = Some (File c').
Proof.
  intros H Hq. pose proof (keeps_extract_zip w zip to description s) as Hk.
  rewrite H in Hk. simpl in Hk.
  eapply (within_file_persists (fp_extract w zip to)); [|exact Hk|exact Hq].
  by intros p Hp.
Qed.

Lemma download_file_events w url dest description s :
  exists out,
    trace (download_file w url dest description s).2 = trace s ++ out /\
    forall p, ~ In (Unlink p) out.
Proof.
  destruct (within_new_events _ _ _ (keeps_download_file w url dest description s))
    as (out & Ht & Ho).
  exists out. split; [done|]. intros p Hin.
  rewrite Forall_forall in Ho. apply list_elem_of_In in Hin.
  destruct (Ho _ Hin) as [H|H]; discriminate H.
Qed.

Lemma extract_zip_events w zip to description s :
  exists out,
    trace (extract_zip w zip to description s).2 = trace s ++ out /\
    forall p, ~ In (Unlink p) out.
Proof.
  destruct (within_new_events _ _ _ (keeps_extract_zip w zip to description s))
    as (out & Ht & Ho).
  exists out. split; [done|]. intros p Hin.
  rewrite Forall_forall in Ho. apply list_elem_of_In in Hin.
  destruct (Ho _ Hin) as [H|H]; discriminate H.
Qed.

Lemma split_unique {A} (x : A) pre post a b :
  ~ In x a -> ~ In x b -> pre ++ x :: post = a ++ x :: b -> pre = a.
Proof.
  revert a. induction pre as [|y pre IH]; intros a Ha Hb H.
  - destruct a as [|z a]; [done|]. simpl in H. injection H as -> _.
    destruct Ha. by left.
  - destruct a as [|z a]; simpl in H.
    + injection H as -> H. destruct Hb. rewrite <- H. apply in_or_app. right. by left.
    + injection H as -> H. f_equal. apply (IH a); [|done|done].
      intros Hin. apply Ha. by right.
Qed.

Lemma no_split (out pre post : list event) p :
  (forall q, ~ In (Unlink q) out) -> out <> pre ++ Unlink p :: post.
Proof.
  intros Hno ->. apply (Hno p). apply in_or_app. right. by left.
Qed.

(** C5. For every direct-download item the archive is deleted only after
    [extract_zip] has reported success, never before: when the item's
    trace shows the deletion, the download and the extraction have both
    returned true and everything before the deletion is what they did; and
    when the extraction fails the item ends there, without any deletion,
    the archive still in place. *)
Theorem archive_deleted_only_after_extraction (w : world) (dir : path) (d : dataset)
    (s : state) :
  (forall pre post,
     trace (movielens_item w dir d s).2 =
       trace s ++ pre ++ Unlink (dir ++ Path (d_filename d)) :: post ->
     exists s1 s2,
       download_file w (d_url d) (dir ++ Path (d_filename d)) (d_name d) s
         = (Returned true, s1) /\
       extract_zip w (dir ++ Path (d_filename d)) dir (d_name d) s1
         = (Returned true, s2) /\
       trace s2 = trace s ++ pre) /\
  (forall s1 s2,
     is_populated (dir ++ Path (d_extract_dir d)) s = (Returned false, s) ->
     download_file w (d_url d) (dir ++ Path (d_filename d)) (d_name d) s
       = (Returned true, s1) ->
     extract_zip w (dir ++ Path (d_filename d)) dir (d_name d) s1
       = (Returned false, s2) ->
     movielens_item w dir d s = (Returned tt, s2) /\
     (exists c, fs s2 !! (dir ++ Path (d_filename d)) = Some (File c)) /\
     (exists out, trace s2 = trace s ++ out /\ forall p, ~ In (Unlink p) out)).
Proof.
  destruct (download_file_events w (d_url d) (dir ++ Path (d_filename d)) (d_name d) s)
    as (out1 & Ht1 & Hno1).
  split.
  - intros pre post. rewrite movielens_item_run.
    destruct (is_populated _ s) as [[[|]|e] s0].
    + simpl. intros H. apply app_inv_head in H. exfalso.
      eapply (no_split [Stdout _]); [|exact H].
      intros q [Hq|[]]. discriminate Hq.
    + destruct (download_file _ _ _ _ s) as [[[|]|e] s1] eqn:Ed; simpl in Ht1.
      * destruct (extract_zip_events w (dir ++ Path (d_filename d)) dir (d_name d) s1)
          as (out2 & Ht2 & Hno2).
        destruct (extract_zip _ _ _ _ s1) as [[[|]|e] s2] eqn:Ee; simpl in Ht2.
        -- destruct (download_file_true_file _ _ _ _ _ _ Ed) as [Hne [c Hc]].
           destruct (extract_zip_file_persists _ _ _ _ _ _ _ _ _ Ee Hc) as [c' Hc'].
           rewrite bind_run, unlink_run, (lookup_path_ne _ _ Hne), Hc'.
           unfold print_success. rewrite print_run. simpl.
           rewrite Ht2, Ht1, <- !app_assoc. intros H.
           apply app_inv_head in H. symmetry in H. rewrite app_assoc in H.
           cbn [app] in H. apply split_unique in H.
           ++ exists s1, s2. split; [done|]. split; [done|].
              by rewrite Ht2, Ht1, H, app_assoc.
           ++ intros Hin. apply in_app_or in Hin as [Hin|Hin];
                [by apply (Hno1 _ Hin) | by apply (Hno2 _ Hin)].
           ++ intros [Hq|[]]. discriminate Hq.
        -- simpl. rewrite Ht2, Ht1, <- app_assoc. intros H.
           apply app_inv_head in H. exfalso. eapply (no_split (out1 ++ out2)); [|exact H].
           intros q Hin. apply in_app_or in Hin as [Hin|Hin];
             [by apply (Hno1 _ Hin) | by apply (Hno2 _ Hin)].
        -- destruct (extract_zip_returns w (dir ++ Path (d_filename d)) dir (d_name d) s1)
             as (b & s' & Hr). congruence.
      * simpl. rewrite Ht1. intros H. apply app_inv_head in H. exfalso.
        by eapply (no_split out1).
      * destruct (download_file_returns w (d_url d) (dir ++ Path (d_filename d))
                    (d_name d) s) as (b & s' & Hr). congruence.
    + simpl. intros H. rewrite <- (app_nil_r (trace s)) in H at 1.
      apply app_inv_head in H. by destruct pre.
  - intros s1 s2 Hpop Hd He. rewrite movielens_item_run, Hpop, Hd, He.
    split; [done|]. split.
    + destruct (download_file_true_file _ _ _ _ _ _ Hd) as [_ [c Hc]].
      eapply extract_zip_file_persists; eauto.
    + destruct (extract_zip_events w (dir ++ Path (d_filename d)) dir (d_name d) s1)
        as (out2 & Ht2 & Hno2).
      rewrite Hd in Ht1. rewrite He in Ht2. simpl in *.
      exists (out1 ++ out2). rewrite Ht2, Ht1, <- app_assoc. split; [done|].
      intros q Hin. apply in_app_or in Hin as [Hin|Hin];
        [by apply (Hno1 _ Hin) | by apply (Hno2 _ Hin)].
Qed.

Lemma archive_deleted_only_after_extraction_witness :
  is_populated (ml_dir ++ Path (d_extract_dir ml_1m)) movielens_ready
    = (Returned false, movielens_ready) /\
  (download_file corrupt_archives (d_url ml_1m) (ml_dir ++ Path (d_filename ml_1m))
     (d_name ml_1m) movielens_ready).1 = Returned true /\
  (extract_zip corrupt_archives (ml_dir ++ Path (d_filename ml_1m)) ml_dir (d_name ml_1m)
     (download_file corrupt_archives (d_url ml_1m) (ml_dir ++ Path (d_filename ml_1m))
        (d_name ml_1m) movielens_ready).2).1 = Returned false /\
  (movielens_item corrupt_archives ml_dir ml_1m movielens_ready =
     (Returned tt,
      (extract_zip corrupt_archives (ml_dir ++ Path (d_filename ml_1m)) ml_dir
         (d_name ml_1m)
         (download_file corrupt_archives (d_url ml_1m) (ml_dir ++ Path (d_filename ml_1m))
            (d_name ml_1m) movielens_ready).2).2) /\
   (exists c,
      fs (extract_zip corrupt_archives (ml_dir ++ Path (d_filename ml_1m)) ml_dir
            (d_name ml_1m)
            (download_file corrupt_archives (d_url ml_1m)
               (ml_dir ++ Path (d_filename ml_1m)) (d_name ml_1m) movielens_ready).2).2
        !! (ml_dir ++ Path (d_filename ml_1m)) = Some (File c)) /\
   (exists out,
      trace (extract_zip corrupt_archives (ml_dir ++ Path (d_filename ml_1m)) ml_dir
               (d_name ml_1m)
               (download_file corrupt_archives (d_url ml_1m)
                  (ml_dir ++ Path (d_filename ml_1m)) (d_name ml_1m) movielens_ready).2).2
        = trace movielens_ready ++ out /\
      forall p, ~ In (Unlink p) out)).
Proof.
  assert (is_populated (ml_dir ++ Path (d_extract_dir ml_1m)) movielens_ready
          = (Returned false, movielens_ready)) as H0
    by (apply is_populated_false; left; vm_compute; reflexivity).
  assert ((download_file corrupt_archives (d_url ml_1m) (ml_dir ++ Path (d_filename ml_1m))
             (d_name ml_1m) movielens_ready).1 = Returned true) as H1
    by (vm_compute; reflexivity).
  assert ((extract_zip corrupt_archives (ml_dir ++ Path (d_filename ml_1m)) ml_dir
             (d_name ml_1m)
             (download_file corrupt_archives (d_url ml_1m)
                (ml_dir ++ Path (d_filename ml_1m)) (d_name ml_1m) movielens_ready).2).1
          = Returned false) as H2 by (vm_compute; reflexivity).
  split; [exact H0|]. split; [exact H1|]. split; [exact H2|].
  exact (proj2 (archive_deleted_only_after_extraction corrupt_archives ml_dir ml_1m
                  movielens_ready) _ _ H0 (outcome_eta _ _ H1) (outcome_eta _ _ H2)).
Defined.

(** ** Skipping populated destinations *)

Lemma within_log fp s out : Forall (emits fp) out -> within fp s (log s out).
Proof. intros Ho. repeat split; simpl; eauto. Qed.

Lemma within_print_log fp s out :
  (forall e, printing e -> emits fp e) -> forallb is_print out = true ->
  within fp s (log s out).
Proof.
  intros He Ho. apply within_log. rewrite forallb_forall in Ho.
  apply Forall_forall. intros e Hin. apply He, Ho. by apply list_elem_of_In.
Qed.


Lemma keeps_movielens_item w dir d : keeps (fp_item w dir d) (movielens_item w dir d).
Proof.
  unfold movielens_item, print_warning, print_success.
  apply keeps_bind; [apply keeps_is_populated|]. intros populated.
  apply keeps_if; [apply keeps_print; by left|].
  apply keeps_bind.
  { eapply keeps_narrower; [|apply keeps_download_file].
    split; [|split; [|split]]; simpl.
    - intros q ->. by left.
    - intros q ->. by left.
    - intros q [].
    - intros e [H|H]; [by left | right; by left]. }
  intros downloaded. apply keeps_if; [apply keeps_ret|].
  apply keeps_bind.
  { eapply keeps_narrower; [|apply keeps_extract_zip].
    split; [|split; [|split]]; simpl.
    - intros q H. by right.
    - intros q H. by right.
    - intros q [].
    - intros e [H|H]; [by left | right; right; by left]. }
  intros extracted. apply keeps_if; [|apply keeps_ret].
  apply keeps_bind; [apply keeps_unlink; simpl; auto|]. intros _.
  apply keeps_print. by left.
Qed.


Lemma movielens_item_skip w dir d s :
  populated (fs s) (dir ++ Path (d_extract_dir d)) ->
  movielens_item w dir d s =
    (Returned tt,
     log s [Stdout ("[WARNING] " +:+ d_name d +:+ " already exists. Skipping...")]).
Proof.
  intros Hp. rewrite movielens_item_run. by rewrite (is_populated_true _ _ Hp).
Qed.

Lemma check_dataset_exists_cases p name s :
  (exists e, check_dataset_exists p name s = (Raised e, s)) \/
  (populated (fs s) (Path p) /\
   check_dataset_exists p name s =
     (Returned true, log s [Stdout ("[OK] " +:+ name +:+ ": Already exists")])) \/
  (unpopulated (fs s) (Path p) /\ check_dataset_exists p name s = (Returned false, s)).
Proof.
  destruct (lookup_path (fs s) (Path p)) as [[c|]|] eqn:E.
  - left. unfold check_dataset_exists. rewrite bind_run, is_populated_run, E. eauto.
  - destruct (entries (fs s) (Path p)) as [|x l] eqn:El.
    + right. right. assert (unpopulated (fs s) (Path p)) as Hu by (right; done).
      split; [done|]. by apply check_dataset_exists_false.
    + right. left. assert (populated (fs s) (Path p)) as Hp.
      { split; [done|]. by rewrite El. }
      split; [done|]. by apply check_dataset_exists_true.
  - right. right. assert (unpopulated (fs s) (Path p)) as Hu by (by left).
    split; [done|]. by apply check_dataset_exists_false.
Qed.

Lemma keeps_check_dataset_exists fp p name :
  (forall e, printing e -> emits fp e) -> keeps fp (check_dataset_exists p name).
Proof.
  intros He s.
  destruct (check_dataset_exists_cases p name s) as [[e H]|[[_ H]|[_ H]]]; rewrite H; simpl.
  - apply within_refl.
  - apply within_log. constructor; [|constructor]. by apply He.
  - apply within_refl.
Qed.

Lemma setup_movielens_run w s :
  setup_movielens w s =
    bind (mkdir_p [] ml_dir) (fun _ =>
      bind (movielens_item w ml_dir ml_1m) (fun _ =>
        bind (movielens_item w ml_dir ml_25m) (fun _ => ret tt)))
      (log s (header_lines "MovieLens Datasets")).
Proof. unfold setup_movielens. by rewrite bind_print_header. Qed.




Ltac keeps_prints :=
  unfold print_success, print_info, print_warning, print_error;
  repeat first
    [ apply keeps_ret
    | apply keeps_print; first [reflexivity | by left]
    | apply keeps_bind; [|intros ?]
    | apply keeps_if ].

Lemma mkdir_ml_dir_noop s :
  wf_fs (fs s) = true ->
  (exists x, fs s !! (ml_dir ++ [x]) = Some Dir) ->
  mkdir_p [] ml_dir s = (Returned tt, s).
Proof.
  intros Hwf [x Hx].
  assert (fs s !! ml_dir = Some Dir) as H2.
  { apply (wf_fs_parent _ _ _ Hwf) in Hx. by rewrite parent_snoc in Hx. }
  assert (fs s !! ["datasets"] = Some Dir) as H1.
  { by apply (wf_fs_parent _ _ _ Hwf) in H2. }
  unfold ml_dir in *. cbn [mkdir_p app]. unfold get_fs.
  rewrite bind_run. cbn [fst snd]. rewrite H1.
  rewrite bind_run. cbn [fst snd]. by rewrite H2.
Qed.

Lemma setup_movielens_all_populated w s :
  wf_fs (fs s) = true ->
  (forall d, In d movielens_datasets ->
     populated (fs s) (Path "datasets/MovieLens" ++ Path (d_extract_dir d))) ->
  exists out, setup_movielens w s = (Returned tt, log s out) /\ forallb is_print out = true.
Proof.
  intros Hwf Hall.
  assert (populated (fs s) (ml_dir ++ Path (d_extract_dir ml_1m))) as H1.
  { apply (Hall ml_1m). by left. }
  assert (populated (fs s) (ml_dir ++ Path (d_extract_dir ml_25m))) as H2.
  { apply (Hall ml_25m). right. by left. }
  eexists. split.
  - rewrite setup_movielens_run.
    rewrite (bind_returned _ _ _ _ _ (mkdir_ml_dir_noop (log s _) Hwf
               (ex_intro _ "ml-1m" (proj1 H1)))).
    rewrite (bind_returned _ _ _ _ _ (movielens_item_skip w ml_dir ml_1m (log s _) H1)).
    rewrite (bind_returned _ _ _ _ _ (movielens_item_skip w ml_dir ml_25m (log (log s _) _) H2)).
    rewrite ret_run, !log_log. reflexivity.
  - reflexivity.
Qed.

Lemma setup_tmdb_populated w has_kaggle s :
  populated (fs s) (Path "datasets/TMDB") ->
  exists out,
    setup_tmdb_dataset w has_kaggle s = (Returned tt, log s out) /\
    forallb is_print out = true.
Proof.
  intros Hp. eexists. split.
  - unfold setup_tmdb_dataset. rewrite bind_print_header.
    rewrite (bind_returned _ _ _ _ _
               (check_dataset_exists_true "datasets/TMDB" "TMDB Movies" (log s _) Hp)).
    rewrite ret_run, log_log. reflexivity.
  - reflexivity.
Qed.

Lemma setup_anime_populated w has_kaggle s :
  populated (fs s) (Path "datasets/anime") ->
  exists out,
    setup_anime_dataset w has_kaggle s = (Returned tt, log s out) /\
    forallb is_print out = true.
Proof.
  intros Hp. eexists. split.
  - unfold setup_anime_dataset. rewrite bind_print_header.
    rewrite (bind_returned _ _ _ _ _
               (check_dataset_exists_true "datasets/anime" "MyAnimeList" (log s _) Hp)).
    rewrite ret_run, log_log. reflexivity.
  - reflexivity.
Qed.

Lemma setup_netflix_populated w has_kaggle s :
  populated (fs s) (Path "datasets/Netflix/netflix") ->
  populated (fs s) (Path "datasets/Netflix/netflix_prize") ->
  exists out,
    setup_netflix_datasets w has_kaggle s = (Returned tt, log s out) /\
    forallb is_print out = true.
Proof.
  intros H1 H2. eexists. split.
  - unfold setup_netflix_datasets. rewrite bind_print_header.
    rewrite (bind_returned _ _ _ _ _
               (check_dataset_exists_true "datasets/Netflix/netflix" "Netflix Shows"
                  (log s _) H1)).
    rewrite (bind_returned _ _ _ _ _
               (check_dataset_exists_true "datasets/Netflix/netflix_prize" "Netflix Prize"
                  (log (log s _) _) H2)).
    cbn [andb]. rewrite ret_run, !log_log. reflexivity.
  - reflexivity.
Qed.






Lemma within_frame fp s s' q : within fp s s' -> ~ touches fp q -> fs s' !! q = fs s !! q.
Proof. intros (H & _) Hq. by apply H. Qed.



(** ** The Kaggle download *)

Lemma import_kaggle_ok w s :
  importable w s -> import_kaggle w s = (Returned tt, loaded s).
Proof.
  unfold import_kaggle, loaded. intros [H|H].
  - rewrite H. destruct s; simpl in *. by subst.
  - destruct (kaggle_loaded s) eqn:E; [destruct s; simpl in *; by subst|].
    by rewrite H.
Qed.

Lemma mkdir_p_creates pre rest s :
  clear_way (fs s) (pre ++ rest) ->
  exists f,
    mkdir_p pre rest s = (Returned tt, State f (kaggle_loaded s) (trace s)) /\
    (forall q, fs s !! q = Some Dir -> f !! q = Some Dir) /\
    (rest <> [] -> f !! (pre ++ rest) = Some Dir).
Proof.
  revert pre s. induction rest as [|x rest IH]; intros pre s Hclear.
  - exists (fs s). split; [by destruct s|]. by split.
  - cbn [mkdir_p]. unfold get_fs. rewrite bind_run. cbn [fst snd].
    assert (pre ++ x :: rest = (pre ++ [x]) ++ rest) as Eq by by rewrite <- app_assoc.
    destruct (fs s !! (pre ++ [x])) as [[c|]|] eqn:E.
    + exfalso. apply (Hclear (pre ++ [x]) c); [by destruct pre| |done]. exists rest. exact Eq.
    + destruct (IH (pre ++ [x]) s) as (f & Hrun & Hkeep & Hdir).
      { by rewrite <- Eq. }
      exists f. split; [exact Hrun|]. split; [exact Hkeep|]. intros _.
      destruct rest as [|y rest].
      * by apply Hkeep.
      * rewrite Eq. by apply Hdir.
    + rewrite bind_run. cbn [put_fs fst snd].
      destruct (IH (pre ++ [x])
                  (State (<[pre ++ [x] := Dir]> (fs s)) (kaggle_loaded s) (trace s)))
        as (f & Hrun & Hkeep & Hdir).
      { rewrite <- Eq. intros q c Hq0 Hq. simpl.
        destruct (decide (pre ++ [x] = q)) as [<-|Hne].
        - by rewrite lookup_insert_eq.
        - rewrite lookup_insert_ne; [|done]. by apply Hclear. }
      simpl in Hrun, Hkeep.
      exists f. split; [exact Hrun|]. split.
      * intros q Hq. apply Hkeep. rewrite lookup_insert_ne; [done|]. congruence.
      * intros _. destruct rest as [|y rest].
        -- apply Hkeep. by rewrite lookup_insert_eq.
        -- rewrite Eq. by apply Hdir.
Qed.

Lemma dataset_download_files_trace w id dest s :
  exists out,
    trace (dataset_download_files w id dest s).2 = trace s ++ KaggleDownload id dest :: out.
Proof.
  unfold dataset_download_files. rewrite bind_run. cbn [emit fst snd].
  match goal with
  | |- context [bind ?m ?k ?st] =>
      assert (keeps (fp_kaggle w id dest) (bind m k)) as Hk
  end.
  { apply keeps_bind.
    - apply keeps_extract_members; intros q Hq; simpl; eauto.
    - intros _. destruct ((kaggle_api w id).2); [apply keeps_raise | apply keeps_ret]. }
  match goal with
  | |- context [bind ?m ?k ?st] => destruct (within_new_events _ _ _ (Hk st)) as (out & Ht & _)
  end.
  exists out. rewrite Ht. simpl. by rewrite <- app_assoc.
Qed.

(** With the import going through and no file in the way, the routine
    creates the destination and calls the API; whatever the call does, the
    routine returns a boolean. *)
Lemma setup_kaggle_dataset_calls_api w id extract_to name s :
  importable w s -> clear_way (fs s) (Path extract_to) ->
  exists sm b s' out,
    mkdir_p [] (Path extract_to) (loaded s) = (Returned tt, sm) /\
    setup_kaggle_dataset w id extract_to name s = (Returned b, s') /\
    trace s' = trace s ++ Stdout ("[INFO] Downloading " +:+ name +:+ " from Kaggle...")
                          :: KaggleDownload id (Path extract_to) :: out.
Proof.
  intros Himp Hclear.
  destruct (mkdir_p_creates [] (Path extract_to) (loaded s) Hclear) as (f & Hmk & _ & _).
  destruct (dataset_download_files_trace w id (Path extract_to)
              (log (State f true (trace s))
                 [Stdout ("[INFO] Downloading " +:+ name +:+ " from Kaggle...")]))
    as (out & Hout).
  unfold setup_kaggle_dataset. rewrite try_except_all_run.
  rewrite (bind_returned _ _ _ _ _ (import_kaggle_ok w s Himp)).
  unfold mkdir_parents_exist_ok. rewrite (bind_returned _ _ _ _ _ Hmk).
  unfold print_info. rewrite bind_print. rewrite bind_run.
  simpl kaggle_loaded. 
  destruct (dataset_download_files w id (Path extract_to) _) as [[[]|e] s2];
    simpl in Hout.
  - unfold print_success. rewrite bind_print, ret_run.
    eexists _, _, _, _. split; [exact Hmk|]. split; [reflexivity|].
    simpl. rewrite Hout, <- !app_assoc. reflexivity.
  - unfold print_error. rewrite bind_print, ret_run.
    eexists _, _, _, _. split; [exact Hmk|]. split; [reflexivity|].
    simpl. rewrite Hout, <- !app_assoc. reflexivity.
Qed.

(** ** A refused download *)

Lemma entries_nil_of (f : filesystem) p :
  (forall x, f !! (p ++ [x]) = None) -> entries f p = [].
Proof.
  intros H. destruct (entries f p) as [|x l] eqn:E; [done|].
  assert (is_Some (f !! (p ++ [x]))) as [n Hn].
  { apply entries_spec. rewrite E. by left. }
  rewrite H in Hn. discriminate Hn.
Qed.

Lemma snoc_not_prefix (p : path) x : ~ (p ++ [x]) `prefix_of` p.
Proof.
  intros [k Hk]. apply (f_equal (@List.length string)) in Hk.
  rewrite !length_app in Hk. simpl in Hk. lia.
Qed.

Lemma setup_kaggle_dataset_refused w id extract_to name s e f :
  importable w s ->
  mkdir_p [] (Path extract_to) (loaded s) = (Returned tt, State f true (trace s)) ->
  kaggle_api w id = ([], Some e) ->
  setup_kaggle_dataset w id extract_to name s =
    (Returned false,
     State f true
       (trace s ++
        [ Stdout ("[INFO] Downloading " +:+ name +:+ " from Kaggle...");
          KaggleDownload id (Path extract_to);
          Stdout ("[ERROR] Failed to download " +:+ name +:+ ": " +:+ exn_str e) ])).
Proof.
  intros Himp Hmk Hapi.
  unfold setup_kaggle_dataset. rewrite try_except_all_run.
  rewrite (bind_returned _ _ _ _ _ (import_kaggle_ok w s Himp)).
  unfold mkdir_parents_exist_ok. rewrite (bind_returned _ _ _ _ _ Hmk).
  unfold print_info. rewrite bind_print.
  unfold dataset_download_files. rewrite Hapi. cbn [fst snd for_each].
  rewrite !bind_run. cbn [bind emit ret raise fst snd].
  unfold print_error, print. cbn [bind emit ret fst snd].
  unfold log. cbn [fs kaggle_loaded trace]. rewrite <- !app_assoc. reflexivity.
Qed.

(** C10. [setup_kaggle_dataset] is not atomic on failure: it creates the
    destination directory before it calls the Kaggle download, so when the
    call raises (having written nothing) the function returns false and a
    new, empty destination directory remains. For Netflix Prize, whose
    verification marker is that directory, a verification pass run
    afterwards reports Found although the directory holds no data. *)
Theorem failed_kaggle_download_leaves_empty_directory
    (w : world) (s : state) (id extract_to name : string) (e : exn) :
  wf_fs (fs s) = true ->
  importable w s ->
  lookup_path (fs s) (Path extract_to) = None ->
  clear_way (fs s) (Path extract_to) ->
  kaggle_api w id = ([], Some e) ->
  exists s',
    setup_kaggle_dataset w id extract_to name s = (Returned false, s') /\
    mkdir_parents_exist_ok (Path extract_to) (loaded s)
      = (Returned tt, State (fs s') true (trace s)) /\
    trace s' =
      trace s ++
      [ Stdout ("[INFO] Downloading " +:+ name +:+ " from Kaggle...");
        KaggleDownload id (Path extract_to);
        Stdout ("[ERROR] Failed to download " +:+ name +:+ ": " +:+ exn_str e) ] /\
    fs s' !! Path extract_to = Some Dir /\
    entries (fs s') (Path extract_to) = [] /\
    (extract_to = "datasets/Netflix/netflix_prize" -> reported_found s' "Netflix Prize").
Proof.
  intros Hwf Himp Habs Hclear Hapi.
  assert (Path extract_to <> []) as Hne.
  { intros Hnil. rewrite Hnil in Habs. discriminate Habs. }
  destruct (mkdir_p_creates [] (Path extract_to) (loaded s) Hclear)
    as (f & Hmk & _ & Hdir).
  specialize (Hdir Hne). simpl in Hmk, Hdir.
  eexists. split; [by apply (setup_kaggle_dataset_refused w id extract_to name s e f)|].
  cbn [fs trace]. split; [exact Hmk|]. split; [reflexivity|]. split; [exact Hdir|].
  split.
  - apply entries_nil_of. intros x.
    pose proof (keeps_mkdir_p
                  (Footprint (fun q => q `prefix_of` Path extract_to)
                     (fun _ => False) (fun _ => False) (fun _ => False))
                  [] (Path extract_to) (fun q Hq => Hq) (loaded s)) as Hk.
    rewrite Hmk in Hk. apply (within_frame _ _ _ (Path extract_to ++ [x])) in Hk.
    + simpl in Hk. rewrite Hk. apply unpopulated_child_absent; [done|done|by left].
    + simpl. apply snoc_not_prefix.
  - intros ->. apply (verify_reports_found _ "Netflix Prize" "datasets/Netflix/netflix_prize").
    + unfold required_files; in_list.
    + simpl fs. rewrite (lookup_path_ne _ _ Hne), Hdir. eauto.
Qed.

Lemma failed_kaggle_download_leaves_empty_directory_witness :
  wf_fs (fs fresh) = true /\
  importable (offline_kaggle None) fresh /\
  lookup_path (fs fresh) (Path "datasets/Netflix/netflix_prize") = None /\
  clear_way (fs fresh) (Path "datasets/Netflix/netflix_prize") /\
  kaggle_api (offline_kaggle None) "netflix-inc/netflix-prize-data"
    = ([], Some api_unauthorized) /\
  exists s',
    setup_kaggle_dataset (offline_kaggle None) "netflix-inc/netflix-prize-data"
      "datasets/Netflix/netflix_prize" "Netflix Prize" fresh = (Returned false, s') /\
    fs s' !! Path "datasets/Netflix/netflix_prize" = Some Dir /\
    entries (fs s') (Path "datasets/Netflix/netflix_prize") = [] /\
    reported_found s' "Netflix Prize".
Proof.
  assert (wf_fs (fs fresh) = true) as H1 by (vm_compute; reflexivity).
  assert (importable (offline_kaggle None) fresh) as H2 by (right; reflexivity).
  assert (lookup_path (fs fresh) (Path "datasets/Netflix/netflix_prize") = None) as H3
    by (vm_compute; reflexivity).
  assert (clear_way (fs fresh) (Path "datasets/Netflix/netflix_prize")) as H4.
  { intros q c _ _. unfold fresh. simpl. by rewrite lookup_empty. }
  assert (kaggle_api (offline_kaggle None) "netflix-inc/netflix-prize-data"
          = ([], Some api_unauthorized)) as H5 by reflexivity.
  split; [exact H1|]. split; [exact H2|]. split; [exact H3|]. split; [exact H4|].
  split; [exact H5|].
  destruct (failed_kaggle_download_leaves_empty_directory (offline_kaggle None) fresh
              "netflix-inc/netflix-prize-data" "datasets/Netflix/netflix_prize"
              "Netflix Prize" api_unauthorized H1 H2 H3 H4 H5)
    as (s' & Hrun & _ & _ & Hdir & Hnil & Hfound).
  exists s'. split; [exact Hrun|]. split; [exact Hdir|]. split; [exact Hnil|].
  exact (Hfound eq_refl).
Defined.

(** ** An existing, empty destination *)

Lemma trace_grows {A} fp (m : py A) s :
  keeps fp m -> exists out, trace (m s).2 = trace s ++ out.
Proof.
  intros Hk. destruct (within_new_events _ _ _ (Hk s)) as (out & Ht & _). eauto.
Qed.

Lemma urlretrieve_trace w url dest s :
  exists out, trace (urlretrieve w url dest reporthook s).2 = trace s ++ Retrieve url dest :: out.
Proof.
  unfold urlretrieve. rewrite bind_run. cbn [emit fst snd].
  match goal with
  | |- context [match fetch w url with _ => _ end] =>
      assert (keeps (fp_download url dest)
                (match fetch w url with
                 | Unreachable e => raise e
                 | Response size blocks broken =>
                     bind (open_wb dest) (fun _ =>
                       bind (reporthook 0 block_bytes size) (fun _ =>
                         bind (for_fold blocks (0%Z, 0%Z) (fun acc block =>
                                 let '(blocknum, read) := acc in
                                 bind (write_block dest block) (fun _ =>
                                   bind (reporthook (blocknum + 1) block_bytes size) (fun _ =>
                                     ret ((blocknum + 1)%Z,
                                          (read + Z.of_nat (String.length block))%Z)))))
                           (fun st =>
                              match broken with
                              | Some e => raise e
                              | None =>
                                  if ((0 <=? size)%Z && (st.2 <? size)%Z)%bool
                                  then raise (Exn ContentTooShortError "retrieval incomplete")
                                  else ret tt
                              end)))
                 end)) as Hk
  end.
  { destruct (fetch w url) as [e|size blocks broken]; [apply keeps_raise|].
    apply keeps_bind; [by apply keeps_open_wb|]. intros _.
    apply keeps_bind; [apply keeps_reporthook; by left|]. intros _.
    apply keeps_bind.
    - apply keeps_for_fold. intros [blocknum read] block.
      apply keeps_bind; [by apply keeps_write_block|]. intros _.
      apply keeps_bind; [apply keeps_reporthook; by left|]. intros _.
      apply keeps_ret.
    - intros st. destruct broken; [apply keeps_raise|].
      apply keeps_if; [apply keeps_raise | apply keeps_ret]. }
  destruct (trace_grows _ _
              (State (fs s) (kaggle_loaded s) (trace s ++ [Retrieve url dest])) Hk)
    as (out & Ht).
  exists out. rewrite Ht. simpl. by rewrite <- app_assoc.
Qed.

Lemma download_file_trace w url dest description s :
  exists out,
    trace (download_file w url dest description s).2 =
      trace s ++ Stdout ("[INFO] Downloading " +:+ description +:+ "...")
                 :: Retrieve url dest :: out.
Proof.
  rewrite download_file_run.
  destruct (urlretrieve_trace w url dest
              (log s [Stdout ("[INFO] Downloading " +:+ description +:+ "...")]))
    as (out & Ht).
  destruct (urlretrieve _ _ _ _ _) as [[[]|e] s1]; simpl in Ht |- *;
    eexists; rewrite Ht, <- !app_assoc; reflexivity.
Qed.

Lemma movielens_item_downloads w dir d s :
  unpopulated (fs s) (dir ++ Path (d_extract_dir d)) ->
  exists out,
    trace (movielens_item w dir d s).2 =
      trace s ++ Stdout ("[INFO] Downloading " +:+ d_name d +:+ "...")
                 :: Retrieve (d_url d) (dir ++ Path (d_filename d)) :: out.
Proof.
  intros Hun.
  destruct (download_file_trace w (d_url d) (dir ++ Path (d_filename d)) (d_name d) s)
    as (out1 & Ht1).
  unfold movielens_item.
  rewrite (bind_returned _ _ _ _ _ (is_populated_false _ _ Hun)).
  rewrite bind_run.
  destruct (download_file _ _ _ _ s) as [[b|e] s1]; simpl in Ht1; [|eauto].
  match goal with
  | |- context [(if negb b then ?a else ?c) s1] =>
      assert (keeps (fp_item w dir d) (if negb b then a else c)) as Hk
  end.
  { apply keeps_if; [apply keeps_ret|].
    apply keeps_bind.
    { eapply keeps_narrower; [|apply keeps_extract_zip].
      split; [|split; [|split]]; simpl.
      - intros q H. by right.
      - intros q H. by right.
      - intros q [].
      - intros e [H|H]; [by left | right; right; by left]. }
    intros extracted. apply keeps_if; [|apply keeps_ret].
    apply keeps_bind; [apply keeps_unlink; simpl; auto|]. intros _.
    apply keeps_print. by left. }
  destruct (trace_grows _ _ s1 Hk) as (out2 & Ht2).
  exists (out1 ++ out2). rewrite Ht2, Ht1, <- app_assoc. reflexivity.
Qed.

Lemma wf_ancestor (f : filesystem) q k n :
  wf_fs f = true -> q <> [] -> k <> [] -> f !! (q ++ k) = Some n -> f !! q = Some Dir.
Proof.
  intros Hwf Hq. revert n. induction k as [|x k IH] using rev_ind; [done|].
  intros n _ Hn. rewrite app_assoc in Hn.
  apply (wf_fs_parent _ _ _ Hwf) in Hn. rewrite parent_snoc in Hn.
  destruct k as [|y k].
  - rewrite app_nil_r in Hn. by rewrite lookup_path_ne in Hn.
  - rewrite lookup_path_ne in Hn; [|by destruct q]. by apply (IH Dir).
Qed.

Lemma dirs_above (f : filesystem) p q :
  wf_fs f = true -> f !! p = Some Dir -> q <> [] -> q `prefix_of` p -> f !! q = Some Dir.
Proof.
  intros Hwf Hp Hq [k ->]. destruct k as [|x k].
  - by rewrite app_nil_r in Hp.
  - by apply (wf_ancestor f q (x :: k) Dir).
Qed.

Lemma dirs_clear_way (f : filesystem) p :
  (forall q, q <> [] -> q `prefix_of` p -> f !! q = Some Dir) -> clear_way f p.
Proof. intros H q c Hq Hpre. rewrite (H q Hq Hpre). discriminate. Qed.

Lemma within_dirs fp s s' (p : path) :
  within fp s s' ->
  (forall q, q <> [] -> q `prefix_of` p -> fs s !! q = Some Dir) ->
  (forall q, q <> [] -> q `prefix_of` p -> fs s' !! q = Some Dir).
Proof. intros (_ & Hd & _) H q Hq Hpre. apply Hd. by apply H. Qed.

Lemma within_importable fp w s s' : within fp s s' -> importable w s -> importable w s'.
Proof.
  intros (_ & _ & _ & _ & _ & Hl) [H|H]; [left; by apply Hl|by right].
Qed.

(** A Kaggle download that is reached with the import going through and
    directories all the way to the destination shows in the trace. *)
Lemma setup_kaggle_dataset_attempt w id extract_to name s :
  importable w s ->
  (forall q, q <> [] -> q `prefix_of` Path extract_to -> fs s !! q = Some Dir) ->
  exists out,
    trace (setup_kaggle_dataset w id extract_to name s).2 = trace s ++ out /\
    In (KaggleDownload id (Path extract_to)) out.
Proof.
  intros Himp Hdirs.
  destruct (setup_kaggle_dataset_calls_api w id extract_to name s Himp
              (dirs_clear_way _ _ Hdirs)) as (sm & b & s' & out & _ & Hrun & Ht).
  rewrite Hrun. eexists. split; [exact Ht|]. right. by left.
Qed.

Lemma empty_dir_unpopulated (f : filesystem) p :
  lookup_path f p = Some Dir -> entries f p = [] -> unpopulated f p.
Proof. intros H1 H2. by right. Qed.

Lemma setup_tmdb_attempt w s :
  wf_fs (fs s) = true -> importable w s ->
  lookup_path (fs s) (Path "datasets/TMDB") = Some Dir ->
  entries (fs s) (Path "datasets/TMDB") = [] ->
  exists out,
    trace (setup_tmdb_dataset w true s).2 = trace s ++ out /\
    In (KaggleDownload "asaniczka/tmdb-movies-dataset-2023-930k-movies"
          (Path "datasets/TMDB")) out.
Proof.
  intros Hwf Himp Hd Hnil.
  unfold setup_tmdb_dataset. rewrite bind_print_header.
  rewrite (bind_returned _ _ _ _ _
             (check_dataset_exists_false "datasets/TMDB" "TMDB Movies" (log s _)
                (empty_dir_unpopulated _ _ Hd Hnil))).
  cbn [negb]. rewrite bind_run.
  destruct (setup_kaggle_dataset_attempt w "asaniczka/tmdb-movies-dataset-2023-930k-movies"
              "datasets/TMDB" "TMDB Movies" (log s (header_lines "TMDB Dataset")))
    as (out & Ht & Hin).
  { exact Himp. }
  { intros q Hq Hpre. by apply (dirs_above (fs s) (Path "datasets/TMDB")). }
  destruct (setup_kaggle_dataset _ _ _ _ _) as [[b|e] s1]; simpl in Ht |- *;
    (exists (header_lines "TMDB Dataset" ++ out); split;
     [by rewrite Ht, <- app_assoc | apply in_or_app; by right]).
Qed.

Lemma setup_anime_attempt w s :
  wf_fs (fs s) = true -> importable w s ->
  lookup_path (fs s) (Path "datasets/anime") = Some Dir ->
  entries (fs s) (Path "datasets/anime") = [] ->
  exists out,
    trace (setup_anime_dataset w true s).2 = trace s ++ out /\
    In (KaggleDownload "hernan4444/anime-recommendation-database-2020"
          (Path "datasets/anime")) out.
Proof.
  intros Hwf Himp Hd Hnil.
  unfold setup_anime_dataset. rewrite bind_print_header.
  rewrite (bind_returned _ _ _ _ _
             (check_dataset_exists_false "datasets/anime" "MyAnimeList" (log s _)
                (empty_dir_unpopulated _ _ Hd Hnil))).
  cbn [negb]. rewrite bind_run.
  destruct (setup_kaggle_dataset_attempt w "hernan4444/anime-recommendation-database-2020"
              "datasets/anime" "MyAnimeList" (log s (header_lines "MyAnimeList Dataset")))
    as (out & Ht & Hin).
  { exact Himp. }
  { intros q Hq Hpre. by apply (dirs_above (fs s) (Path "datasets/anime")). }
  destruct (setup_kaggle_dataset _ _ _ _ _) as [[b|e] s1]; simpl in Ht |- *;
    (exists (header_lines "MyAnimeList Dataset" ++ out); split;
     [by rewrite Ht, <- app_assoc | apply in_or_app; by right]).
Qed.

Lemma keeps_kaggle_then_unit w id extract_to name :
  keeps (fp_kaggle w id (Path extract_to))
    (bind (setup_kaggle_dataset w id extract_to name) (fun _ => ret tt)).
Proof. apply keeps_bind; [apply keeps_setup_kaggle_dataset|]. intros _. apply keeps_ret. Qed.

Lemma setup_netflix_attempt_shows w s :
  wf_fs (fs s) = true -> importable w s ->
  lookup_path (fs s) (Path "datasets/Netflix/netflix") = Some Dir ->
  entries (fs s) (Path "datasets/Netflix/netflix") = [] ->
  inspectable (fs s) (Path "datasets/Netflix/netflix_prize") ->
  exists out,
    trace (setup_netflix_datasets w true s).2 = trace s ++ out /\
    In (KaggleDownload "shivamb/netflix-shows" (Path "datasets/Netflix/netflix")) out.
Proof.
  intros Hwf Himp Hd Hnil H2.
  pose proof (empty_dir_unpopulated _ _ Hd Hnil) as H1.
  destruct (netflix_checks (log s (header_lines "Netflix Datasets")) (or_intror H1) H2)
    as (b1 & b2 & outc & Hb1 & Hb2 & Hpr & Hk).
  assert (b1 = false) as ->.
  { destruct b1; [|done]. exfalso.
    apply (populated_not_unpopulated (fs s) (Path "datasets/Netflix/netflix")); [|done].
    by apply Hb1. }
  unfold setup_netflix_datasets. rewrite bind_print_header, Hk.
  cbn [andb negb]. rewrite log_log. rewrite bind_run, bind_run.
  destruct (setup_kaggle_dataset_attempt w "shivamb/netflix-shows"
              "datasets/Netflix/netflix" "Netflix Shows"
              (log s (header_lines "Netflix Datasets" ++ outc)))
    as (out1 & Ht1 & Hin).
  { exact Himp. }
  { intros q Hq Hpre. by apply (dirs_above (fs s) (Path "datasets/Netflix/netflix")). }
  destruct (setup_kaggle_dataset _ _ _ _ _) as [[b|e] s1];
    cbn [snd] in Ht1; rewrite trace_log in Ht1; cbv beta iota.
  - rewrite ret_run. cbv beta iota.
    destruct (trace_grows (fp_kaggle w "netflix-inc/netflix-prize-data"
                             (Path "datasets/Netflix/netflix_prize"))
                (if negb b2
                 then bind (setup_kaggle_dataset w "netflix-inc/netflix-prize-data"
                              "datasets/Netflix/netflix_prize" "Netflix Prize")
                        (fun _ => ret tt)
                 else ret tt) s1) as (out2 & Ht2).
    { apply keeps_if; [apply keeps_kaggle_then_unit | apply keeps_ret]. }
    exists ((header_lines "Netflix Datasets" ++ outc) ++ out1 ++ out2).
    split; [by rewrite Ht2, Ht1, <- !app_assoc|].
    apply in_or_app. right. apply in_or_app. by left.
  - exists ((header_lines "Netflix Datasets" ++ outc) ++ out1). cbn [snd].
    split; [by rewrite Ht1, <- !app_assoc|]. apply in_or_app. by right.
Qed.

Lemma setup_netflix_attempt_prize w s :
  wf_fs (fs s) = true -> importable w s ->
  lookup_path (fs s) (Path "datasets/Netflix/netflix_prize") = Some Dir ->
  entries (fs s) (Path "datasets/Netflix/netflix_prize") = [] ->
  inspectable (fs s) (Path "datasets/Netflix/netflix") ->
  exists out,
    trace (setup_netflix_datasets w true s).2 = trace s ++ out /\
    In (KaggleDownload "netflix-inc/netflix-prize-data"
          (Path "datasets/Netflix/netflix_prize")) out.
Proof.
  intros Hwf Himp Hd Hnil H1.
  pose proof (empty_dir_unpopulated _ _ Hd Hnil) as H2.
  destruct (netflix_checks (log s (header_lines "Netflix Datasets")) H1 (or_intror H2))
    as (b1 & b2 & outc & Hb1 & Hb2 & Hpr & Hk).
  assert (b2 = false) as ->.
  { destruct b2; [|done]. exfalso.
    apply (populated_not_unpopulated (fs s) (Path "datasets/Netflix/netflix_prize")); [|done].
    by apply Hb2. }
  assert (forall q, q <> [] -> q `prefix_of` Path "datasets/Netflix/netflix_prize" ->
                    fs s !! q = Some Dir) as Hdirs.
  { intros q Hq Hpre. by apply (dirs_above (fs s) (Path "datasets/Netflix/netflix_prize")). }
  unfold setup_netflix_datasets. rewrite bind_print_header, Hk.
  rewrite andb_false_r. cbn [negb]. rewrite log_log. rewrite bind_run.
  match goal with
  | |- context [match ?m ?st with _ => _ end] =>
      assert (keeps (fp_kaggle w "shivamb/netflix-shows" (Path "datasets/Netflix/netflix")) m)
        as Hkp by (apply keeps_if; [apply keeps_kaggle_then_unit | apply keeps_ret]);
      destruct (trace_grows _ m st Hkp) as (out1 & Ht1);
      pose proof (Hkp st) as Hw;
      destruct (m st) as [[[]|e] s1] eqn:E
  end; cbn [snd] in Ht1, Hw; rewrite trace_log in Ht1; cbv beta iota.
  - rewrite bind_run.
    destruct (setup_kaggle_dataset_attempt w "netflix-inc/netflix-prize-data"
                "datasets/Netflix/netflix_prize" "Netflix Prize" s1)
      as (out2 & Ht2 & Hin).
    { eapply within_importable; [exact Hw|exact Himp]. }
    { eapply within_dirs; [exact Hw|exact Hdirs]. }
    destruct (setup_kaggle_dataset _ _ _ _ s1) as [[b|e] s2]; simpl in Ht2 |- *;
      (exists ((header_lines "Netflix Datasets" ++ outc) ++ out1 ++ out2); split;
       [by rewrite Ht2, Ht1, <- !app_assoc
       |apply in_or_app; right; apply in_or_app; by right]).
  - exfalso. destruct b1; cbn [negb] in E.
    + discriminate E.
    + destruct (setup_kaggle_dataset_returns w "shivamb/netflix-shows"
                  "datasets/Netflix/netflix" "Netflix Shows"
                  (log s (header_lines "Netflix Datasets" ++ outc))) as (b & s' & Hr).
      rewrite bind_run, Hr in E. discriminate E.
Qed.

(** C9, as amended. A destination directory that exists but has no entries
    is treated as not yet satisfied: the skip check wants the directory
    both existing and non-empty, and yields false for it. For such a
    destination the body of the MovieLens loop attempts the download. In a
    well-formed filesystem, a Kaggle-mediated routine attempts the download
    when it is called with [has_kaggle] true and the import of [kaggle] goes
    through, and when it is called with [has_kaggle] false it prints the
    manual instructions, makes no download and returns. The Netflix routine
    inspects both of its destinations first, so for it the other Netflix
    destination has to be inspectable as well: absent or a directory, not a
    regular file. *)
Theorem empty_destination_is_not_skipped (w : world) (s : state) :
  (forall p,
     lookup_path (fs s) p = Some Dir -> entries (fs s) p = [] ->
     is_populated p s = (Returned false, s)) /\
  (forall p name,
     lookup_path (fs s) (Path p) = Some Dir -> entries (fs s) (Path p) = [] ->
     check_dataset_exists p name s = (Returned false, s)) /\
  (forall dir d,
     lookup_path (fs s) (dir ++ Path (d_extract_dir d)) = Some Dir ->
     entries (fs s) (dir ++ Path (d_extract_dir d)) = [] ->
     exists out,
       trace (movielens_item w dir d s).2 =
         trace s ++ Stdout ("[INFO] Downloading " +:+ d_name d +:+ "...")
                    :: Retrieve (d_url d) (dir ++ Path (d_filename d)) :: out) /\
  (wf_fs (fs s) = true -> importable w s ->
   (lookup_path (fs s) (Path "datasets/TMDB") = Some Dir ->
    entries (fs s) (Path "datasets/TMDB") = [] ->
    exists out,
      trace (setup_tmdb_dataset w true s).2 = trace s ++ out /\
      In (KaggleDownload "asaniczka/tmdb-movies-dataset-2023-930k-movies"
            (Path "datasets/TMDB")) out) /\
   (lookup_path (fs s) (Path "datasets/anime") = Some Dir ->
    entries (fs s) (Path "datasets/anime") = [] ->
    exists out,
      trace (setup_anime_dataset w true s).2 = trace s ++ out /\
      In (KaggleDownload "hernan4444/anime-recommendation-database-2020"
            (Path "datasets/anime")) out) /\
   (lookup_path (fs s) (Path "datasets/Netflix/netflix") = Some Dir ->
    entries (fs s) (Path "datasets/Netflix/netflix") = [] ->
    inspectable (fs s) (Path "datasets/Netflix/netflix_prize") ->
    exists out,
      trace (setup_netflix_datasets w true s).2 = trace s ++ out /\
      In (KaggleDownload "shivamb/netflix-shows" (Path "datasets/Netflix/netflix")) out) /\
   (lookup_path (fs s) (Path "datasets/Netflix/netflix_prize") = Some Dir ->
    entries (fs s) (Path "datasets/Netflix/netflix_prize") = [] ->
    inspectable (fs s) (Path "datasets/Netflix/netflix") ->
    exists out,
      trace (setup_netflix_datasets w true s).2 = trace s ++ out /\
      In (KaggleDownload "netflix-inc/netflix-prize-data"
            (Path "datasets/Netflix/netflix_prize")) out)) /\
  (wf_fs (fs s) = true ->
   (lookup_path (fs s) (Path "datasets/TMDB") = Some Dir ->
    entries (fs s) (Path "datasets/TMDB") = [] ->
    exists out,
      setup_tmdb_dataset w false s = (Returned tt, log s out) /\
      forallb is_print out = true /\
      In (Stdout "  3. Extract TMDB_movie_dataset_v11.csv to: datasets/TMDB/") out) /\
   (lookup_path (fs s) (Path "datasets/anime") = Some Dir ->
    entries (fs s) (Path "datasets/anime") = [] ->
    exists out,
      setup_anime_dataset w false s = (Returned tt, log s out) /\
      forallb is_print out = true /\
      In (Stdout "  3. Extract all CSV files to: datasets/anime/") out) /\
   (lookup_path (fs s) (Path "datasets/Netflix/netflix") = Some Dir ->
    entries (fs s) (Path "datasets/Netflix/netflix") = [] ->
    inspectable (fs s) (Path "datasets/Netflix/netflix_prize") ->
    exists out,
      setup_netflix_datasets w false s = (Returned tt, log s out) /\
      forallb is_print out = true /\
      In (Stdout "  3. Extract netflix_titles.csv to: datasets/Netflix/netflix/") out) /\
   (lookup_path (fs s) (Path "datasets/Netflix/netflix_prize") = Some Dir ->
    entries (fs s) (Path "datasets/Netflix/netflix_prize") = [] ->
    inspectable (fs s) (Path "datasets/Netflix/netflix") ->
    exists out,
      setup_netflix_datasets w false s = (Returned tt, log s out) /\
      forallb is_print out = true /\
      In (Stdout "  3. Extract all files to: datasets/Netflix/netflix_prize/") out)).
Proof.
  split; [|split; [|split; [|split]]].
  - intros p Hd Hnil. apply is_populated_false. by right.
  - intros p name Hd Hnil. apply check_dataset_exists_false. by right.
  - intros dir d Hd Hnil. apply movielens_item_downloads. by right.
  - intros Hwf Himp. split; [|split; [|split]].
    + by apply setup_tmdb_attempt.
    + by apply setup_anime_attempt.
    + by apply setup_netflix_attempt_shows.
    + by apply setup_netflix_attempt_prize.
  - intros Hwf. split; [|split; [|split]].
    + intros Hd Hnil.
      destruct (setup_tmdb_manual w s Hwf (empty_dir_unpopulated _ _ Hd Hnil))
        as (out & Hrun & Hpr & Hlines & _).
      exists out. split; [done|]. split; [done|]. apply Hlines. in_list.
    + intros Hd Hnil.
      destruct (setup_anime_manual w s Hwf (empty_dir_unpopulated _ _ Hd Hnil))
        as (out & Hrun & Hpr & Hlines & _).
      exists out. split; [done|]. split; [done|]. apply Hlines. in_list.
    + intros Hd Hnil Hin.
      destruct (setup_netflix_manual_shows w s Hwf (empty_dir_unpopulated _ _ Hd Hnil) Hin)
        as (out & Hrun & Hpr & Hlines & _).
      exists out. split; [done|]. split; [done|]. apply Hlines. in_list.
    + intros Hd Hnil Hin.
      destruct (setup_netflix_manual_prize w s (empty_dir_unpopulated _ _ Hd Hnil) Hin)
        as (out & Hrun & Hpr & Hlines & _).
      exists out. split; [done|]. split; [done|]. apply Hlines. in_list.
Qed.

Lemma empty_destination_is_not_skipped_witness :
  wf_fs (fs empty_tmdb_dir) = true /\
  importable (offline_kaggle None) empty_tmdb_dir /\
  lookup_path (fs empty_tmdb_dir) (Path "datasets/TMDB") = Some Dir /\
  entries (fs empty_tmdb_dir) (Path "datasets/TMDB") = [] /\
  exists out,
    trace (setup_tmdb_dataset (offline_kaggle None) true empty_tmdb_dir).2
      = trace empty_tmdb_dir ++ out /\
    In (KaggleDownload "asaniczka/tmdb-movies-dataset-2023-930k-movies"
          (Path "datasets/TMDB")) out.
Proof.
  assert (wf_fs (fs empty_tmdb_dir) = true) as H1 by (vm_compute; reflexivity).
  assert (importable (offline_kaggle None) empty_tmdb_dir) as H2 by (right; reflexivity).
  assert (lookup_path (fs empty_tmdb_dir) (Path "datasets/TMDB") = Some Dir) as H3
    by (vm_compute; reflexivity).
  assert (entries (fs empty_tmdb_dir) (Path "datasets/TMDB") = []) as H4
    by (vm_compute; reflexivity).
  split; [exact H1|]. split; [exact H2|]. split; [exact H3|]. split; [exact H4|].
  exact (proj1 (proj1 (proj2 (proj2 (proj2
           (empty_destination_is_not_skipped (offline_kaggle None) empty_tmdb_dir))))
                  H1 H2) H3 H4).
Defined.

(** C9, as stated, fails for a Kaggle-mediated item without API access:
    with [datasets/TMDB] present and empty and [has_kaggle] false the
    routine is not skipped, but it attempts no download either; it only
    prints. *)
Lemma empty_tmdb_dir_without_api_is_not_downloaded :
  lookup_path (fs empty_tmdb_dir) (Path "datasets/TMDB") = Some Dir /\
  entries (fs empty_tmdb_dir) (Path "datasets/TMDB") = [] /\
  exists out,
    setup_tmdb_dataset (offline_kaggle (Some no_credentials)) false empty_tmdb_dir
      = (Returned tt, log empty_tmdb_dir out) /\
    (forall id to, ~ In (KaggleDownload id to) out) /\
    (forall url dest, ~ In (Retrieve url dest) out).
Proof.
  assert (lookup_path (fs empty_tmdb_dir) (Path "datasets/TMDB") = Some Dir) as H3
    by (vm_compute; reflexivity).
  assert (entries (fs empty_tmdb_dir) (Path "datasets/TMDB") = []) as H4
    by (vm_compute; reflexivity).
  split; [exact H3|]. split; [exact H4|].
  destruct (setup_tmdb_manual (offline_kaggle (Some no_credentials)) empty_tmdb_dir)
    as (out & Hrun & Hpr & _).
  { vm_compute. reflexivity. }
  { right. split; [exact H3|exact H4]. }
  exists out. split; [exact Hrun|].
  rewrite forallb_forall in Hpr.
  split; intros a b Hin; apply Hpr in Hin; discriminate Hin.
Qed.
(** ** Failure containment *)

Lemma run_within {A} fp (m : py A) s a s' : keeps fp m -> m s = (a, s') -> within fp s s'.
Proof. intros Hk H. specialize (Hk s). by rewrite H in Hk. Qed.

Lemma within_dirlike fp s s' q :
  within fp s s' -> ~ writes fp q -> dirlike (fs s) q -> dirlike (fs s') q.
Proof.
  intros (_ & _ & _ & Hnew & _) Hw Hq. unfold dirlike in *.
  destruct (fs s' !! q) as [[c|]|] eqn:E.
  - destruct (Hnew q c E) as [[c' Hc]|Hc]; [|done].
    destruct Hq as [Hq|Hq]; rewrite Hq in Hc; discriminate.
  - by right.
  - by left.
Qed.

Lemma within_under_log roots s out : within (fp_under roots) s (log s out).
Proof. apply within_log. by apply Forall_forall. Qed.

Lemma dirlike_inspectable (f : filesystem) p : dirlike f p -> inspectable f p.
Proof.
  intros H.
  assert (lookup_path f p = None \/ lookup_path f p = Some Dir) as [Hl|Hl].
  { destruct p; [by right|]. by rewrite lookup_path_cons. }
  - right. by left.
  - destruct (decide (entries f p = [])) as [He|He].
    + right. by right.
    + by left.
Qed.

Lemma check_dataset_exists_returns p name s :
  dirlike (fs s) (Path p) ->
  exists b out, check_dataset_exists p name s = (Returned b, log s out).
Proof.
  intros H. destruct (dirlike_inspectable _ _ H) as [Hp|Hu].
  - eexists true, _. by apply check_dataset_exists_true.
  - exists false, []. rewrite log_nil. by apply check_dataset_exists_false.
Qed.

Lemma narrower_kaggle_under w id dest roots :
  In dest roots -> narrower (fp_kaggle w id dest) (fp_under roots).
Proof.
  intros Hin. split; [|split; [|split]]; simpl; try done.
  intros q (rel & data & err & _ & ->). exists dest. split; [done|]. by exists rel.
Qed.

Lemma narrower_item_under w dir d roots :
  In dir roots -> narrower (fp_item w dir d) (fp_under roots).
Proof.
  intros Hin. split; [|split; [|split]]; simpl; try done.
  - intros q [Hq|(c & ms & _ & rel & data & err & _ & Hq)]; subst q; exists dir; split; try done.
    + by eexists.
    + by exists rel.
  - intros q ->. exists dir. split; [done|]. by eexists.
Qed.

Ltac keeps_any :=
  unfold print_header, print_success, print_info, print_warning, print_error;
  repeat first
    [ apply keeps_ret
    | apply keeps_print; exact I
    | apply keeps_check_dataset_exists; done
    | apply keeps_bind; [|intros ?]
    | apply keeps_if ].

Lemma keeps_kaggle_under w id extract_to name roots :
  In (Path extract_to) roots ->
  keeps (fp_under roots) (setup_kaggle_dataset w id extract_to name).
Proof.
  intros Hin. apply (keeps_narrower (fp_kaggle w id (Path extract_to))).
  - by apply narrower_kaggle_under.
  - apply keeps_setup_kaggle_dataset.
Qed.

(** Each routine prints its header and then stays at or below its
    destinations. *)
Lemma setup_movielens_shape w :
  exists k,
    setup_movielens w = bind (print_header "MovieLens Datasets") (fun _ => k) /\
    keeps (fp_under [ml_dir]) k.
Proof.
  eexists. split; [reflexivity|].
  apply keeps_bind; [apply keeps_mkdir_p; done|intros _].
  apply keeps_for_each. intros d.
  apply (keeps_narrower (fp_item w (Path "datasets/MovieLens") d)).
  - apply narrower_item_under. by left.
  - apply keeps_movielens_item.
Qed.

Lemma setup_netflix_shape w has_kaggle :
  exists k,
    setup_netflix_datasets w has_kaggle
      = bind (print_header "Netflix Datasets") (fun _ => k) /\
    keeps (fp_under [Path "datasets/Netflix/netflix"; Path "datasets/Netflix/netflix_prize"]) k.
Proof.
  eexists. split; [reflexivity|].
  apply keeps_bind; [apply keeps_check_dataset_exists; done|intros b1].
  apply keeps_bind; [apply keeps_check_dataset_exists; done|intros b2].
  apply keeps_if; [apply keeps_ret|].
  apply keeps_if; [keeps_any|].
  apply keeps_bind; [|intros _]; (apply keeps_if; [|apply keeps_ret]);
    (apply keeps_bind; [|intros _; apply keeps_ret]); apply keeps_kaggle_under.
  - by left.
  - right. by left.
Qed.

Lemma setup_tmdb_shape w has_kaggle :
  exists k,
    setup_tmdb_dataset w has_kaggle = bind (print_header "TMDB Dataset") (fun _ => k) /\
    keeps (fp_under [Path "datasets/TMDB"]) k.
Proof.
  eexists. split; [reflexivity|].
  apply keeps_bind; [apply keeps_check_dataset_exists; done|intros b].
  apply keeps_if; [apply keeps_ret|].
  apply keeps_if; [keeps_any|].
  apply keeps_bind; [|intros _; apply keeps_ret]. apply keeps_kaggle_under. by left.
Qed.

Lemma setup_anime_shape w has_kaggle :
  exists k,
    setup_anime_dataset w has_kaggle = bind (print_header "MyAnimeList Dataset") (fun _ => k) /\
    keeps (fp_under [Path "datasets/anime"]) k.
Proof.
  eexists. split; [reflexivity|].
  apply keeps_bind; [apply keeps_check_dataset_exists; done|intros b].
  apply keeps_if; [apply keeps_ret|].
  apply keeps_if; [keeps_any|].
  apply keeps_bind; [|intros _; apply keeps_ret]. apply keeps_kaggle_under. by left.
Qed.

Lemma headed_routine {A} roots text (k m : py A) s a s' :
  m = bind (print_header text) (fun _ => k) -> keeps (fp_under roots) k ->
  m s = (a, s') ->
  within (fp_under roots) s s' /\
  exists out, trace s' = trace s ++ header_lines text ++ out.
Proof.
  intros -> Hk H. rewrite bind_print_header in H.
  pose proof (run_within _ _ _ _ _ Hk H) as Hw. split.
  - apply (within_trans _ _ (log s (header_lines text))); [apply within_under_log|done].
  - destruct (within_new_events _ _ _ Hw) as (out & Ht & _).
    exists out. rewrite Ht, trace_log. by rewrite <- app_assoc.
Qed.
(** ** The routines return *)

Lemma movielens_item_returns w dir d s :
  dirlike (fs s) (dir ++ Path (d_extract_dir d)) ->
  exists s', movielens_item w dir d s = (Returned tt, s').
Proof.
  intros Hd. rewrite movielens_item_run.
  destruct (dirlike_inspectable _ _ Hd) as [Hp|Hu].
  - rewrite (is_populated_true _ _ Hp). eauto.
  - rewrite (is_populated_false _ _ Hu).
    destruct (download_file_returns w (d_url d) (dir ++ Path (d_filename d)) (d_name d) s)
      as (b & s1 & H1).
    rewrite H1. destruct b; [|eauto].
    destruct (extract_zip_returns w (dir ++ Path (d_filename d)) dir (d_name d) s1)
      as (b2 & s2 & H2).
    rewrite H2. destruct b2; [|eauto].
    destruct (download_file_true_file _ _ _ _ _ _ H1) as (Hne & c & Hc).
    destruct (extract_zip_file_persists _ _ _ _ _ _ _ _ _ H2 Hc) as (c' & Hc').
    rewrite bind_run, unlink_run, (lookup_path_ne _ _ Hne), Hc'.
    unfold print_success. rewrite print_run. eauto.
Qed.

Lemma prefix_of_pair {A} (q : list A) a b :
  q `prefix_of` [a; b] -> q = [] \/ q = [a] \/ q = [a; b].
Proof.
  intros [k Hk]. destruct q as [|x [|y [|z q]]]; simpl in Hk.
  - by left.
  - right. left. by injection Hk as <- _.
  - right. right. by injection Hk as <- <- _.
  - discriminate Hk.
Qed.

Lemma clear_way_ml_dir (f : filesystem) :
  dirlike f ["datasets"] -> dirlike f ml_dir -> clear_way f ml_dir.
Proof.
  intros H1 H2 q c Hne Hq Hf.
  destruct (prefix_of_pair _ _ _ Hq) as [-> | [-> | ->]]; [done| |].
  - destruct H1 as [H1|H1]; rewrite H1 in Hf; discriminate.
  - destruct H2 as [H2|H2]; unfold ml_dir in H2; rewrite H2 in Hf; discriminate.
Qed.

Lemma item_writes_apart w d (q : path) :
  In d movielens_datasets ->
  tidy_archives w -> q = ml_dir ++ ["ml-25m"] ->
  ~ writes (fp_item w ml_dir d) q.
Proof.
  intros Hd Htidy -> [Hz|(c & ms & Hun & rel & data & err & Hin & Hq)].
  - destruct Hd as [<-|[<-|[]]]; vm_compute in Hz; discriminate Hz.
  - apply app_inv_head in Hq. subst rel. by apply (Htidy c ms data err).
Qed.

Lemma setup_movielens_returns w s :
  tidy_archives w ->
  dirlike (fs s) ["datasets"] -> dirlike (fs s) ml_dir ->
  dirlike (fs s) (ml_dir ++ ["ml-1m"]) -> dirlike (fs s) (ml_dir ++ ["ml-25m"]) ->
  exists s', setup_movielens w s = (Returned tt, s').
Proof.
  intros Htidy H0 H1 H2 H3. rewrite setup_movielens_run.
  set (s0 := log s (header_lines "MovieLens Datasets")).
  destruct (mkdir_p_creates [] ml_dir s0 (clear_way_ml_dir _ H0 H1)) as (f & Hmk & _).
  rewrite (bind_returned _ _ _ _ _ Hmk).
  assert (within (fp_under []) s0 (State f (kaggle_loaded s0) (trace s0))) as Hw.
  { refine (run_within _ _ _ _ _ _ Hmk). by apply keeps_mkdir_p. }
  assert (forall q, ~ writes (fp_under []) q) as Hnw by (intros q (r & [] & _)).
  pose proof (within_dirlike _ _ _ _ Hw (Hnw _) H2) as H2'.
  pose proof (within_dirlike _ _ _ _ Hw (Hnw _) H3) as H3'.
  destruct (movielens_item_returns w ml_dir ml_1m _ H2') as (s1 & Hi1).
  rewrite (bind_returned _ _ _ _ _ Hi1).
  pose proof (run_within _ _ _ _ _ (keeps_movielens_item w ml_dir ml_1m) Hi1) as Hw1.
  assert (dirlike (fs s1) (ml_dir ++ ["ml-25m"])) as H3''.
  { apply (within_dirlike _ _ _ _ Hw1); [|done].
    apply item_writes_apart; [by left|done|done]. }
  destruct (movielens_item_returns w ml_dir ml_25m _ H3'') as (s2 & Hi2).
  rewrite (bind_returned _ _ _ _ _ Hi2), ret_run. eauto.
Qed.

Lemma kaggle_unit_returns w id extract_to name s :
  exists s',
    bind (setup_kaggle_dataset w id extract_to name) (fun _ => ret tt) s = (Returned tt, s').
Proof.
  destruct (setup_kaggle_dataset_returns w id extract_to name s) as (b & s' & H).
  rewrite (bind_returned _ _ _ _ _ H), ret_run. eauto.
Qed.

Lemma setup_tmdb_returns w has_kaggle s :
  dirlike (fs s) (Path "datasets/TMDB") ->
  exists s', setup_tmdb_dataset w has_kaggle s = (Returned tt, s').
Proof.
  intros Hd. unfold setup_tmdb_dataset. rewrite bind_print_header.
  destruct (check_dataset_exists_returns "datasets/TMDB" "TMDB Movies"
              (log s (header_lines "TMDB Dataset")) Hd) as (b & out & Hc).
  rewrite (bind_returned _ _ _ _ _ Hc). destruct b; [rewrite ret_run; eauto|].
  destruct has_kaggle; cbn [negb].
  - apply kaggle_unit_returns.
  - run_prints. eauto.
Qed.

Lemma setup_anime_returns w has_kaggle s :
  dirlike (fs s) (Path "datasets/anime") ->
  exists s', setup_anime_dataset w has_kaggle s = (Returned tt, s').
Proof.
  intros Hd. unfold setup_anime_dataset. rewrite bind_print_header.
  destruct (check_dataset_exists_returns "datasets/anime" "MyAnimeList"
              (log s (header_lines "MyAnimeList Dataset")) Hd) as (b & out & Hc).
  rewrite (bind_returned _ _ _ _ _ Hc). destruct b; [rewrite ret_run; eauto|].
  destruct has_kaggle; cbn [negb].
  - apply kaggle_unit_returns.
  - run_prints. eauto.
Qed.

Lemma setup_netflix_returns w has_kaggle s :
  dirlike (fs s) (Path "datasets/Netflix/netflix") ->
  dirlike (fs s) (Path "datasets/Netflix/netflix_prize") ->
  exists s', setup_netflix_datasets w has_kaggle s = (Returned tt, s').
Proof.
  intros Hd1 Hd2. unfold setup_netflix_datasets. rewrite bind_print_header.
  destruct (check_dataset_exists_returns "datasets/Netflix/netflix" "Netflix Shows"
              (log s (header_lines "Netflix Datasets")) Hd1) as (b1 & out1 & Hc1).
  rewrite (bind_returned _ _ _ _ _ Hc1).
  destruct (check_dataset_exists_returns "datasets/Netflix/netflix_prize" "Netflix Prize"
              (log (log s (header_lines "Netflix Datasets")) out1) Hd2) as (b2 & out2 & Hc2).
  rewrite (bind_returned _ _ _ _ _ Hc2).
  destruct b1, b2, has_kaggle; cbn [negb andb];
    try (rewrite ret_run; eauto; fail);
    try (run_prints; eauto; fail).
  - rewrite bind_ret. apply kaggle_unit_returns.
  - destruct (kaggle_unit_returns w "shivamb/netflix-shows" "datasets/Netflix/netflix"
                "Netflix Shows" (log (log (log s (header_lines "Netflix Datasets")) out1) out2))
      as (s1 & H1).
    rewrite (bind_returned _ _ _ _ _ H1), ret_run. eauto.
  - destruct (kaggle_unit_returns w "shivamb/netflix-shows" "datasets/Netflix/netflix"
                "Netflix Shows" (log (log (log s (header_lines "Netflix Datasets")) out1) out2))
      as (s1 & H1).
    rewrite (bind_returned _ _ _ _ _ H1). apply kaggle_unit_returns.
Qed.
(** ** The orchestrator *)

Lemma import_kaggle_returned w s s1 :
  import_kaggle w s = (Returned tt, s1) -> importable w s.
Proof.
  unfold import_kaggle, importable. destruct (kaggle_loaded s); [by left|].
  destruct (kaggle_import w); [discriminate|by right].
Qed.

Lemma check_kaggle_api_returns_iff w s :
  returns (check_kaggle_api w) s <-> probe_caught w s.
Proof.
  unfold returns. rewrite check_kaggle_api_run. split.
  - intros (b & s' & H). destruct (import_kaggle w s) as [[[]|e] s1] eqn:Hi.
    + left. by apply (import_kaggle_returned w s s1).
    + apply import_kaggle_raised in Hi as [_ Hi]. right. exists e. split; [done|].
      destruct (is_OSError (exn_class_of e)); [done|].
      destruct (is_ImportError (exn_class_of e)); [done|discriminate H].
  - intros [Hi|(e & He & Hc)].
    + rewrite (import_kaggle_ok _ _ Hi). eauto.
    + destruct (import_kaggle w s) as [[[]|e'] s1] eqn:Hi; [eauto|].
      apply import_kaggle_raised in Hi as [_ Hi]. rewrite He in Hi.
      injection Hi as <-.
      destruct (is_OSError (exn_class_of e)); [eauto|].
      simpl in Hc. rewrite Hc. eauto.
Qed.

Lemma keeps_check_kaggle_api roots w : keeps (fp_under roots) (check_kaggle_api w).
Proof.
  unfold check_kaggle_api. apply keeps_try_except.
  - apply keeps_bind; [apply keeps_import_kaggle|intros _]. keeps_any.
  - constructor; [intros e; keeps_any|]. constructor; [intros e; keeps_any|]. constructor.
Qed.

Lemma probe_caught_loaded w s s' :
  kaggle_loaded s' = kaggle_loaded s -> probe_caught w s -> probe_caught w s'.
Proof.
  intros Hk [[Hl|Hi]|He].
  - left. left. by rewrite Hk.
  - left. by right.
  - by right.
Qed.

Lemma mkdir_datasets_run s :
  dirlike (fs s) (Path "datasets") ->
  exists f,
    mkdir_exist_ok (Path "datasets") s = (Returned tt, State f (kaggle_loaded s) (trace s)) /\
    within (fp_under []) s (State f (kaggle_loaded s) (trace s)).
Proof.
  intros Hd.
  assert (exists f, mkdir_exist_ok (Path "datasets") s
                    = (Returned tt, State f (kaggle_loaded s) (trace s))) as [f Hf].
  { unfold mkdir_exist_ok, get_fs. rewrite bind_run. cbn [fst snd].
    change (parent (Path "datasets")) with (@nil string).
    change (Path "datasets") with ["datasets"] in *.
    cbn [lookup_path]. destruct Hd as [Hd|Hd]; rewrite Hd.
    - eexists. reflexivity.
    - exists (fs s). unfold ret. by destruct s. }
  exists f. split; [done|].
  refine (run_within _ _ _ _ _ _ Hf). by apply keeps_mkdir_exist_ok.
Qed.

Lemma under_nothing q : ~ writes (fp_under []) q.
Proof. by intros (r & [] & _). Qed.

Lemma not_under (roots : list path) (q : path) :
  forallb (fun r => negb (bool_decide (r `prefix_of` q))) roots = true ->
  ~ writes (fp_under roots) q.
Proof.
  intros Hall (r & Hin & Hp). rewrite forallb_forall in Hall.
  specialize (Hall r Hin). apply negb_true_iff, bool_decide_eq_false in Hall. done.
Qed.

Lemma main_setup_returns w s :
  probe_caught w s -> clean_layout (fs s) -> tidy_archives w ->
  exists has_kaggle s' out0 out1 out2 out3 out4,
    main_setup w s = (Returned has_kaggle, s') /\
    trace s' = trace s ++ out0 ++ header_lines "MovieLens Datasets" ++ out1
                       ++ header_lines "Netflix Datasets" ++ out2
                       ++ header_lines "TMDB Dataset" ++ out3
                       ++ header_lines "MyAnimeList Dataset" ++ out4.
Proof.
  intros Hprobe Hclean Htidy.
  assert (forall p, In p directories -> forall s',
            within (fp_under []) s s' -> dirlike (fs s') p) as Hdir.
  { intros p Hp s' Hw. apply (within_dirlike _ _ _ _ Hw (under_nothing _)). by apply Hclean. }
  unfold main_setup. rewrite bind_print_header, !bind_print, !log_log.
  match goal with |- context [log s ?o] => set (pre := o) end.
  assert (within (fp_under []) s (log s pre)) as W0 by apply within_under_log.
  destruct (mkdir_datasets_run (log s pre)) as (f & Hmk & W1).
  { apply Hdir; [by left|done]. }
  rewrite (bind_returned _ _ _ _ _ Hmk).
  set (s1 := State f (kaggle_loaded (log s pre)) (trace (log s pre))) in *.
  pose proof (within_trans _ _ _ _ W0 W1) as W01.
  destruct (proj2 (check_kaggle_api_returns_iff w s1)) as (hk & s2 & Hck).
  { by apply (probe_caught_loaded w s). }
  rewrite (bind_returned _ _ _ _ _ Hck).
  pose proof (within_trans _ _ _ _ W01
                (run_within _ _ _ _ _ (keeps_check_kaggle_api [] w) Hck)) as W2.
  assert (exists o, forall A (k : unit -> py A),
            bind (if negb hk then bind (print "") (fun _ => print_kaggle_setup_instructions)
                  else ret tt) k s2 = k tt (log s2 o)) as [o Ho].
  { destruct hk; cbn [negb].
    - exists []. intros A k. by rewrite bind_ret, log_nil.
    - destruct (print_kaggle_setup_instructions_returns (log s2 [Stdout ""])) as [o Ho].
      exists ([Stdout ""] ++ o). intros A k.
      rewrite bind_assoc, bind_print, (bind_returned _ _ _ _ _ Ho). by rewrite log_log. }
  rewrite Ho, bind_print, log_log.
  match goal with |- context [log s2 ?o] => set (mid := o) end.
  pose proof (within_trans _ _ _ _ W2 (within_under_log [] s2 mid)) as W3.
  set (s3 := log s2 mid) in *.
  (* MovieLens *)
  destruct (setup_movielens_returns w s3 Htidy) as (s4 & Hml);
    try (apply Hdir; [unfold directories; in_list|done]).
  rewrite (bind_returned _ _ _ _ _ Hml).
  destruct (setup_movielens_shape w) as (k1 & Hk1 & Kk1).
  destruct (headed_routine _ _ _ _ _ _ _ Hk1 Kk1 Hml) as (W4 & o1 & T4).
  assert (forall p, In p directories -> ~ writes (fp_under [ml_dir]) p ->
            dirlike (fs s4) p) as Hdir4.
  { intros p Hp Hnw. apply (within_dirlike _ _ _ _ W4 Hnw). by apply Hdir. }
  (* Netflix *)
  destruct (setup_netflix_returns w hk s4) as (s5 & Hnf);
    try (apply Hdir4; [unfold directories; in_list|by apply not_under]).
  rewrite (bind_returned _ _ _ _ _ Hnf).
  destruct (setup_netflix_shape w hk) as (k2 & Hk2 & Kk2).
  destruct (headed_routine _ _ _ _ _ _ _ Hk2 Kk2 Hnf) as (W5 & o2 & T5).
  (* TMDB *)
  destruct (setup_tmdb_returns w hk s5) as (s6 & Htm).
  { apply (within_dirlike _ _ _ _ W5); [by apply not_under|].
    apply Hdir4; [unfold directories; in_list|by apply not_under]. }
  rewrite (bind_returned _ _ _ _ _ Htm).
  destruct (setup_tmdb_shape w hk) as (k3 & Hk3 & Kk3).
  destruct (headed_routine _ _ _ _ _ _ _ Hk3 Kk3 Htm) as (W6 & o3 & T6).
  (* MyAnimeList *)
  destruct (setup_anime_returns w hk s6) as (s7 & Han).
  { apply (within_dirlike _ _ _ _ W6); [by apply not_under|].
    apply (within_dirlike _ _ _ _ W5); [by apply not_under|].
    apply Hdir4; [unfold directories; in_list|by apply not_under]. }
  rewrite (bind_returned _ _ _ _ _ Han), ret_run.
  destruct (setup_anime_shape w hk) as (k4 & Hk4 & Kk4).
  destruct (headed_routine _ _ _ _ _ _ _ Hk4 Kk4 Han) as (W7 & o4 & T7).
  destruct (within_new_events _ _ _ W3) as (o0 & T3 & _).
  exists hk, s7, o0, o1, o2, o3, o4. split; [reflexivity|].
  rewrite T7, T6, T5, T4, T3. by rewrite <- !app_assoc.
Qed.
(** ** What reaches the orchestrator *)

(** X1. Failures of the downloads, extractions and Kaggle calls are
    contained: when the import of [kaggle] goes through or fails with an
    [OSError] or [ImportError], no regular file stands where the script wants
    a directory, and no archive puts a regular file at the second MovieLens
    destination, [main] returns and its output shows the header of each of
    the four dataset routines, then the verification header and its six
    lines, whatever the network, the archives and the Kaggle API did. *)
Theorem main_runs_every_routine (w : world) (s : state) :
  probe_caught w s -> clean_layout (fs s) -> tidy_archives w ->
  exists s' out,
    main w s = (Returned tt, s') /\
    trace s' = trace s ++ out /\
    full_run_output (fs s') out.
Proof.
  intros Hprobe Hclean Htidy.
  destruct (main_setup_returns w s Hprobe Hclean Htidy)
    as (hk & s7 & o0 & o1 & o2 & o3 & o4 & Hms & T).
  destruct (main_run w s hk s7 Hms) as (out & Hmain).
  eexists _, _. split; [exact Hmain|]. split.
  - rewrite trace_log, T, <- !app_assoc. reflexivity.
  - exists o0, o1, o2, o3, (o4 ++ [Stdout ""]), out.
    rewrite fs_log, <- !app_assoc. reflexivity.
Qed.

Lemma main_runs_every_routine_witness :
  probe_caught (offline_kaggle (Some no_credentials)) fresh /\
  clean_layout (fs fresh) /\
  tidy_archives (offline_kaggle (Some no_credentials)) /\
  exists s' out,
    main (offline_kaggle (Some no_credentials)) fresh = (Returned tt, s') /\
    trace s' = trace fresh ++ out /\
    full_run_output (fs s') out.
Proof.
  assert (probe_caught (offline_kaggle (Some no_credentials)) fresh) as H1.
  { right. exists no_credentials. split; reflexivity. }
  assert (clean_layout (fs fresh)) as H2.
  { intros p _. left. apply lookup_empty. }
  assert (tidy_archives (offline_kaggle (Some no_credentials))) as H3.
  { intros c ms data err H Hin. injection H as <-.
    destruct Hin as [Hin|[Hin|[]]]; discriminate Hin. }
  split; [exact H1|]. split; [exact H2|]. split; [exact H3|].
  exact (main_runs_every_routine (offline_kaggle (Some no_credentials)) fresh H1 H2 H3).
Defined.

(** X2. [check_kaggle_api] handles [OSError] and [ImportError] only. When
    the import of [kaggle] raises an exception of another class, the probe
    lets it through and [main] ends with it right after its opening lines:
    no dataset routine and no verification is run, and the exit status
    is 1. *)
Theorem unhandled_import_error_aborts_main (w : world) (s : state) (e : exn) :
  kaggle_loaded s = false -> kaggle_import w = Some e ->
  is_OSError (exn_class_of e) = false -> is_ImportError (exn_class_of e) = false ->
  dirlike (fs s) (Path "datasets") ->
  check_kaggle_api w s = (Raised e, s) /\
  (exists s',
     main w s = (Raised e, s') /\
     trace s' = trace s ++ header_lines "Movie Recommendation Systems - Dataset Setup"
                        ++ [ Stdout "This script will download and setup all required datasets.";
                             Stdout "" ]) /\
  exit_status w s = 1%Z.
Proof.
  intros Hl Hi Hos Him Hd.
  assert (forall s1, kaggle_loaded s1 = false -> check_kaggle_api w s1 = (Raised e, s1)) as Hck.
  { intros s1 Hl1. rewrite check_kaggle_api_run. unfold import_kaggle.
    by rewrite Hl1, Hi, Hos, Him. }
  split; [by apply Hck|].
  assert (exists s',
     main w s = (Raised e, s') /\
     trace s' = trace s ++ header_lines "Movie Recommendation Systems - Dataset Setup"
                        ++ [ Stdout "This script will download and setup all required datasets.";
                             Stdout "" ]) as (s' & Hmain & Ht).
  { unfold main, main_setup. run_prints.
    match goal with |- context [log s ?o] => set (pre := o) end.
    destruct (mkdir_datasets_run (log s pre) Hd) as (f & Hmk & _).
    rewrite (bind_returned _ _ _ _ _ Hmk).
    rewrite ?bind_assoc,
      (bind_raised _ _ _ _ _
         (Hck (State f (kaggle_loaded (log s pre)) (trace (log s pre))) Hl)).
    eexists. split; [reflexivity|]. cbn [trace]. rewrite trace_log. unfold pre.
    rewrite <- ?app_assoc. reflexivity. }
  split; [eauto|]. unfold exit_status. by rewrite Hmain.
Qed.

Lemma unhandled_import_error_aborts_main_witness :
  kaggle_loaded fresh = false /\
  kaggle_import (offline_kaggle (Some bad_credentials)) = Some bad_credentials /\
  is_OSError (exn_class_of bad_credentials) = false /\
  is_ImportError (exn_class_of bad_credentials) = false /\
  dirlike (fs fresh) (Path "datasets") /\
  exit_status (offline_kaggle (Some bad_credentials)) fresh = 1%Z.
Proof.
  assert (dirlike (fs fresh) (Path "datasets")) as Hd by (left; apply lookup_empty).
  split; [reflexivity|]. split; [reflexivity|]. split; [reflexivity|].
  split; [reflexivity|]. split; [exact Hd|].
  exact (proj2 (proj2 (unhandled_import_error_aborts_main
                         (offline_kaggle (Some bad_credentials)) fresh bad_credentials
                         eq_refl eq_refl eq_refl eq_refl Hd))).
Defined.

(** X3. [Path("datasets").mkdir(exist_ok=True)] accepts an existing
    directory, not an existing regular file: when [datasets] is a regular
    file, [main] ends with [FileExistsError] after its opening lines, before
    the probe and before any dataset routine, with exit status 1 and the
    filesystem as it was. *)
Theorem datasets_regular_file_aborts_main (w : world) (s : state) (c : string) :
  fs s !! Path "datasets" = Some (File c) ->
  main w s =
    (Raised (eexist (Path "datasets")),
     log s (header_lines "Movie Recommendation Systems - Dataset Setup"
            ++ [ Stdout "This script will download and setup all required datasets.";
                 Stdout "" ])) /\
  exit_status w s = 1%Z.
Proof.
  intros Hf.
  assert (main w s =
    (Raised (eexist (Path "datasets")),
     log s (header_lines "Movie Recommendation Systems - Dataset Setup"
            ++ [ Stdout "This script will download and setup all required datasets.";
                 Stdout "" ]))) as Hmain.
  { unfold main, main_setup. run_prints.
    match goal with |- context [log s ?o] => set (pre := o) end.
    assert (mkdir_exist_ok (Path "datasets") (log s pre)
            = (Raised (eexist (Path "datasets")), log s pre)) as Hmk.
    { unfold mkdir_exist_ok, get_fs. rewrite bind_run. cbn [fst snd].
      change (parent (Path "datasets")) with (@nil string).
      change (Path "datasets") with ["datasets"] in *.
      cbn [lookup_path]. rewrite fs_log, Hf. reflexivity. }
    rewrite (bind_raised _ _ _ _ _ Hmk). unfold pre.
    rewrite <- ?app_assoc. reflexivity. }
  split; [exact Hmain|]. unfold exit_status. by rewrite Hmain.
Qed.

Lemma datasets_regular_file_aborts_main_witness :
  fs datasets_is_file !! Path "datasets" = Some (File "data") /\
  exit_status (offline_kaggle None) datasets_is_file = 1%Z.
Proof.
  assert (fs datasets_is_file !! Path "datasets" = Some (File "data")) as H
    by (vm_compute; reflexivity).
  split; [exact H|].
  exact (proj2 (datasets_regular_file_aborts_main (offline_kaggle None) datasets_is_file
                  "data" H)).
Defined.
(** ** The transport wrappers *)

Lemma urlretrieve_unreachable w url dest s e :
  fetch w url = Unreachable e ->
  urlretrieve w url dest reporthook s = (Raised e, log s [Retrieve url dest]).
Proof.
  intros Hf. unfold urlretrieve. rewrite bind_run. cbn [emit fst snd]. by rewrite Hf.
Qed.

(** X4. [download_file] never raises: whatever [urlretrieve] does, the
    result is a boolean. When the server cannot be reached, the result is
    false, the filesystem is untouched, and the output is the announcement
    followed by one error line that carries the text of the exception. A
    result of true leaves a regular file at the destination. *)
Theorem download_file_contains_failures
    (w : world) (url : string) (dest : path) (description : string) (s : state) :
  returns (download_file w url dest description) s /\
  (forall e,
     fetch w url = Unreachable e ->
     download_file w url dest description s =
       (Returned false,
        log s [ Stdout ("[INFO] Downloading " +:+ description +:+ "...");
                Retrieve url dest;
                Stdout ("[ERROR] Failed to download " +:+ description +:+ ": "
                        +:+ exn_str e) ])) /\
  (forall s',
     download_file w url dest description s = (Returned true, s') ->
     exists c, fs s' !! dest = Some (File c)).
Proof.
  split; [apply download_file_returns|]. split.
  - intros e Hf. rewrite download_file_run, (urlretrieve_unreachable _ _ _ _ _ Hf).
    by rewrite !log_log.
  - intros s' H. by destruct (download_file_true_file _ _ _ _ _ _ H) as [_ Hc].
Qed.

Lemma download_file_contains_failures_witness :
  fetch empty_deliveries "https://files.grouplens.org/datasets/movielens/ml-1m.zip"
    = Unreachable (Exn URLError "<urlopen error [Errno 101] Network is unreachable>") /\
  download_file empty_deliveries "https://files.grouplens.org/datasets/movielens/ml-1m.zip"
    (ml_dir ++ ["ml-1m.zip"]) "MovieLens 1M" movielens_ready =
    (Returned false,
     log movielens_ready
       [ Stdout ("[INFO] Downloading " +:+ "MovieLens 1M" +:+ "...");
         Retrieve "https://files.grouplens.org/datasets/movielens/ml-1m.zip"
           (ml_dir ++ ["ml-1m.zip"]);
         Stdout ("[ERROR] Failed to download " +:+ "MovieLens 1M" +:+ ": "
                 +:+ exn_str (Exn URLError
                                "<urlopen error [Errno 101] Network is unreachable>")) ]).
Proof.
  split; [reflexivity|].
  exact (proj1 (proj2 (download_file_contains_failures empty_deliveries
                         "https://files.grouplens.org/datasets/movielens/ml-1m.zip"
                         (ml_dir ++ ["ml-1m.zip"]) "MovieLens 1M" movielens_ready))
           (Exn URLError "<urlopen error [Errno 101] Network is unreachable>") eq_refl).
Defined.

(** X5. A response that announces a length of zero makes the progress
    callback divide by zero at its first call, which [urlretrieve] makes
    after it has opened the destination and before it reads any block:
    [download_file] returns false with the message [division by zero] and
    leaves an empty regular file at the destination, also where a file with
    content was before. *)
Theorem zero_length_response_fails_download
    (w : world) (url : string) (dest : path) (description : string) (s : state)
    (blocks : list string) (broken : option exn) :
  fetch w url = Response 0 blocks broken ->
  lookup_path (fs s) (parent dest) = Some Dir ->
  lookup_path (fs s) dest <> Some Dir ->
  download_file w url dest description s =
    (Returned false,
     State (<[dest := File ""]> (fs s)) (kaggle_loaded s)
       (trace s ++
        [ Stdout ("[INFO] Downloading " +:+ description +:+ "...");
          Retrieve url dest;
          Stdout ("[ERROR] Failed to download " +:+ description +:+ ": division by zero") ])).
Proof.
  intros Hf Hpar Hdest.
  assert (forall s0, fs s0 = fs s ->
            open_wb dest s0 = (Returned tt, State (<[dest := File ""]> (fs s))
                                              (kaggle_loaded s0) (trace s0))) as Hopen.
  { intros s0 Hs0. unfold open_wb, get_fs. rewrite bind_run. cbn [fst snd].
    rewrite Hs0, Hpar. unfold put_fs.
    destruct (lookup_path (fs s) dest) as [[c|]|]; [reflexivity|done|reflexivity]. }
  rewrite download_file_run. unfold urlretrieve.
  rewrite bind_run. cbn [emit fst snd]. rewrite Hf.
  match goal with
  | |- context [bind (open_wb dest) _ ?st] =>
      rewrite (bind_returned _ _ _ _ _ (Hopen st eq_refl))
  end.
  rewrite bind_run. cbn [reporthook Z.eqb raise fst snd].
  unfold log. cbn [fs kaggle_loaded trace exn_str]. by rewrite <- !app_assoc.
Qed.

Lemma zero_length_response_fails_download_witness :
  fetch (World None (fun _ => Response 0 [] None) (fun _ => inr []) (fun _ => ([], None)))
    "https://files.grouplens.org/datasets/movielens/ml-1m.zip" = Response 0 [] None /\
  lookup_path (fs movielens_ready) (parent (ml_dir ++ ["ml-1m.zip"])) = Some Dir /\
  lookup_path (fs movielens_ready) (ml_dir ++ ["ml-1m.zip"]) <> Some Dir /\
  (download_file
     (World None (fun _ => Response 0 [] None) (fun _ => inr []) (fun _ => ([], None)))
     "https://files.grouplens.org/datasets/movielens/ml-1m.zip"
     (ml_dir ++ ["ml-1m.zip"]) "MovieLens 1M" movielens_ready).1 = Returned false.
Proof.
  assert (lookup_path (fs movielens_ready) (parent (ml_dir ++ ["ml-1m.zip"])) = Some Dir)
    as H1 by (vm_compute; reflexivity).
  assert (lookup_path (fs movielens_ready) (ml_dir ++ ["ml-1m.zip"]) <> Some Dir)
    as H2 by (vm_compute; discriminate).
  split; [reflexivity|]. split; [exact H1|]. split; [exact H2|].
  exact (f_equal fst
           (zero_length_response_fails_download
              (World None (fun _ => Response 0 [] None) (fun _ => inr []) (fun _ => ([], None)))
              "https://files.grouplens.org/datasets/movielens/ml-1m.zip"
              (ml_dir ++ ["ml-1m.zip"]) "MovieLens 1M" movielens_ready [] None
              eq_refl H1 H2)).
Defined.

(** X6. [setup_kaggle_dataset] imports [kaggle] inside its own [try] block
    and catches every exception class: when the import fails, with whatever
    exception, the function returns false and prints one error line; it
    creates no directory and makes no API call. *)
Theorem setup_kaggle_dataset_catches_import_failure
    (w : world) (id extract_to name : string) (s : state) (e : exn) :
  kaggle_loaded s = false -> kaggle_import w = Some e ->
  setup_kaggle_dataset w id extract_to name s =
    (Returned false,
     log s [ Stdout ("[ERROR] Failed to download " +:+ name +:+ ": " +:+ exn_str e) ]).
Proof.
  intros Hl Hi. unfold setup_kaggle_dataset. rewrite try_except_all_run.
  assert (import_kaggle w s = (Raised e, s)) as Himp.
  { unfold import_kaggle. by rewrite Hl, Hi. }
  rewrite (bind_raised _ _ _ _ _ Himp).
  unfold print_error. by rewrite bind_print, ret_run.
Qed.

Lemma setup_kaggle_dataset_catches_import_failure_witness :
  kaggle_loaded fresh = false /\
  kaggle_import (offline_kaggle (Some bad_credentials)) = Some bad_credentials /\
  setup_kaggle_dataset (offline_kaggle (Some bad_credentials))
    "asaniczka/tmdb-movies-dataset-2023-930k-movies" "datasets/TMDB" "TMDB Movies" fresh =
    (Returned false,
     log fresh [ Stdout ("[ERROR] Failed to download " +:+ "TMDB Movies" +:+ ": "
                         +:+ exn_str bad_credentials) ]).
Proof.
  split; [reflexivity|]. split; [reflexivity|].
  exact (setup_kaggle_dataset_catches_import_failure
           (offline_kaggle (Some bad_credentials))
           "asaniczka/tmdb-movies-dataset-2023-930k-movies" "datasets/TMDB" "TMDB Movies"
           fresh bad_credentials eq_refl eq_refl).
Defined.
(** ** Extraction *)

Lemma for_each_app {A} (xs ys : list A) (body : A -> py unit) s :
  for_each (xs ++ ys) body s =
    match for_each xs body s with
    | (Returned _, s1) => for_each ys body s1
    | (Raised e, s1) => (Raised e, s1)
    end.
Proof.
  revert s. induction xs as [|x xs IH]; intros s; [reflexivity|].
  cbn [app for_each]. rewrite !bind_run.
  destruct (body x s) as [[[]|e] s1]; [apply IH|reflexivity].
Qed.

Lemma extractall_run w zip to s :
  extractall w zip to s =
    match lookup_path (fs s) zip with
    | None => (Raised (enoent zip), log s [Unzip zip to])
    | Some Dir => (Raised (eisdir zip), log s [Unzip zip to])
    | Some (File c) =>
        match unzip w c with
        | inl e => (Raised e, log s [Unzip zip to])
        | inr members => for_each members (extract_member to) (log s [Unzip zip to])
        end
    end.
Proof.
  unfold extractall, get_fs. rewrite bind_run. cbn [emit fst snd].
  rewrite bind_run. cbn [fst snd fs].
  destruct (lookup_path (fs s) zip) as [[c|]|]; try reflexivity.
  destruct (unzip w c); reflexivity.
Qed.



(** X8. Extraction is not all-or-nothing: the members are written one after
    the other, and when one of them fails, [extract_zip] returns false in the
    state that member left; the members before it stay on disk and the
    members after it are never written. *)
Theorem extract_zip_stops_at_failing_member
    (w : world) (zip to : path) (description : string) (s : state)
    (c : string) (ms1 ms2 : list zip_member) (m : zip_member) (e : exn) :
  lookup_path (fs s) zip = Some (File c) ->
  unzip w c = inr (ms1 ++ m :: ms2) ->
  (for_each ms1 (extract_member to)
     (log s [ Stdout ("[INFO] Extracting " +:+ description +:+ "..."); Unzip zip to ])).1
    = Returned tt ->
  (extract_member to m
     (for_each ms1 (extract_member to)
        (log s [ Stdout ("[INFO] Extracting " +:+ description +:+ "..."); Unzip zip to ])).2).1
    = Raised e ->
  extract_zip w zip to description s =
    (Returned false,
     log (extract_member to m
            (for_each ms1 (extract_member to)
               (log s [ Stdout ("[INFO] Extracting " +:+ description +:+ "...");
                        Unzip zip to ])).2).2
       [ Stdout ("[ERROR] Failed to extract " +:+ description +:+ ": " +:+ exn_str e) ]).
Proof.
  intros Hz Hun H1 H2. rewrite extract_zip_run.
  set (s0 := log s [Stdout ("[INFO] Extracting " +:+ description +:+ "..."); Unzip zip to])
    in *.
  assert (extractall w zip to
            (log s [Stdout ("[INFO] Extracting " +:+ description +:+ "...")])
          = for_each (ms1 ++ m :: ms2) (extract_member to) s0) as ->.
  { rewrite extractall_run, fs_log, Hz, Hun. unfold s0. by rewrite log_log. }
  rewrite for_each_app.
  apply outcome_eta in H1. rewrite H1. cbn [for_each]. rewrite bind_run.
  apply outcome_eta in H2. rewrite H2. reflexivity.
Qed.

Lemma extract_zip_stops_at_failing_member_witness :
  lookup_path (fs archive_downloaded) (ml_dir ++ ["ml-1m.zip"]) = Some (File "data") /\
  unzip damaged_archives "data" =
    inr ([ (["ml-1m"], MDir);
           (["ml-1m"; "movies.dat"], MFile "1::Toy Story (1995)::Animation" None) ]
         ++ (["ml-1m"; "ratings.dat"],
             MFile "1::1193"
               (Some (Exn BadZipFile "Bad CRC-32 for file 'ml-1m/ratings.dat'")))
            :: [ (["ml-1m"; "users.dat"], MFile "1::F::1::10::48067" None) ]) /\
  (extract_zip damaged_archives (ml_dir ++ ["ml-1m.zip"]) ml_dir "MovieLens 1M"
     archive_downloaded).1 = Returned false.
Proof.
  assert (lookup_path (fs archive_downloaded) (ml_dir ++ ["ml-1m.zip"])
          = Some (File "data")) as H1 by (vm_compute; reflexivity).
  split; [exact H1|]. split; [reflexivity|].
  refine (f_equal fst
            (extract_zip_stops_at_failing_member damaged_archives
               (ml_dir ++ ["ml-1m.zip"]) ml_dir "MovieLens 1M" archive_downloaded "data"
               [ (["ml-1m"], MDir);
                 (["ml-1m"; "movies.dat"], MFile "1::Toy Story (1995)::Animation" None) ]
               [ (["ml-1m"; "users.dat"], MFile "1::F::1::10::48067" None) ]
               (["ml-1m"; "ratings.dat"],
                MFile "1::1193"
                  (Some (Exn BadZipFile "Bad CRC-32 for file 'ml-1m/ratings.dat'")))
               (Exn BadZipFile "Bad CRC-32 for file 'ml-1m/ratings.dat'")
               H1 eq_refl _ _)).
  - vm_compute. reflexivity.
  - vm_compute. reflexivity.
Defined.

Lemma extract_member_file to rel data err s s' :
  extract_member to (rel, MFile data err) s = (Returned tt, s') ->
  exists c, fs s' !! (to ++ rel) = Some (File c).
Proof.
  unfold extract_member. cbn [fst snd]. intros H.
  apply bind_inv_returned in H as (b & s1 & _ & H).
  apply bind_inv_returned in H as ([] & s2 & _ & H).
  apply bind_inv_returned in H as ([] & s3 & Hopen & H).
  apply open_wb_returned in Hopen as [_ Hopen].
  apply bind_inv_returned in H as ([] & s4 & Hw & H).
  assert (exists c, fs s4 !! (to ++ rel) = Some (File c)) as Hc.
  { unfold write_block, get_fs in Hw. rewrite bind_run in Hw. cbn [fst snd] in Hw.
    rewrite Hopen in Hw. unfold put_fs in Hw. injection Hw as <-. cbn [fs].
    rewrite lookup_insert_eq. eauto. }
  destruct err; [discriminate H|]. unfold ret in H. by injection H as <-.
Qed.

Lemma keeps_extract_members_any to ms :
  keeps (Footprint (fun _ => True) (fun _ => True) (fun _ => False) (fun _ => True))
    (for_each ms (extract_member to)).
Proof. by apply keeps_extract_members. Qed.

Lemma extract_members_files to ms s s' rel data err :
  for_each ms (extract_member to) s = (Returned tt, s') ->
  In (rel, MFile data err) ms ->
  exists c, fs s' !! (to ++ rel) = Some (File c).
Proof.
  revert s. induction ms as [|m ms IH]; intros s H Hin; [destruct Hin|].
  cbn [for_each] in H. apply bind_inv_returned in H as ([] & s1 & Hm & H).
  destruct Hin as [->|Hin]; [|by apply (IH s1)].
  destruct (extract_member_file _ _ _ _ _ _ Hm) as (c & Hc).
  refine (within_file_persists _ _ _ _ _ _ (run_within _ _ _ _ _
            (keeps_extract_members_any to ms) H) Hc).
  intros p Hp. exact Hp.
Qed.

(** X9. When [extract_zip] returns true, every file member of the archive
    is a regular file below the target directory afterwards, and the archive
    is still in place. *)
Theorem extract_zip_true_members_exist
    (w : world) (zip to : path) (description : string) (s s' : state)
    (c : string) (ms : list zip_member) (rel : path) (data : string) (err : option exn) :
  extract_zip w zip to description s = (Returned true, s') ->
  lookup_path (fs s) zip = Some (File c) ->
  unzip w c = inr ms ->
  In (rel, MFile data err) ms ->
  (exists c', fs s' !! (to ++ rel) = Some (File c')) /\
  (zip <> [] -> exists c', fs s' !! zip = Some (File c')).
Proof.
  intros H Hz Hun Hin. split.
  - rewrite extract_zip_run, extractall_run, fs_log, Hz, Hun in H.
    destruct (for_each ms (extract_member to) _) as [[[]|e] s1] eqn:Hfe; [|discriminate H].
    injection H as <-. rewrite fs_log. exact (extract_members_files _ _ _ _ _ _ _ Hfe Hin).
  - intros Hne. rewrite (lookup_path_ne _ _ Hne) in Hz.
    by apply (extract_zip_file_persists _ _ _ _ _ _ _ _ _ H Hz).
Qed.

Lemma extract_zip_true_members_exist_witness :
  (extract_zip (offline_kaggle None) (ml_dir ++ ["ml-1m.zip"]) ml_dir "MovieLens 1M"
     archive_downloaded).1 = Returned true /\
  lookup_path (fs archive_downloaded) (ml_dir ++ ["ml-1m.zip"]) = Some (File "data") /\
  unzip (offline_kaggle None) "data" = inr ml_archive /\
  In (["ml-1m"; "ratings.dat"], MFile "1::1193::5::978300760" None) ml_archive /\
  exists c',
    fs (extract_zip (offline_kaggle None) (ml_dir ++ ["ml-1m.zip"]) ml_dir "MovieLens 1M"
          archive_downloaded).2 !! (ml_dir ++ ["ml-1m"; "ratings.dat"]) = Some (File c').
Proof.
  assert ((extract_zip (offline_kaggle None) (ml_dir ++ ["ml-1m.zip"]) ml_dir "MovieLens 1M"
             archive_downloaded).1 = Returned true) as H0 by (vm_compute; reflexivity).
  assert (lookup_path (fs archive_downloaded) (ml_dir ++ ["ml-1m.zip"])
          = Some (File "data")) as H1 by (vm_compute; reflexivity).
  assert (In (["ml-1m"; "ratings.dat"], MFile "1::1193::5::978300760" None) ml_archive)
    as H3 by (right; left; reflexivity).
  split; [exact H0|]. split; [exact H1|]. split; [reflexivity|]. split; [exact H3|].
  exact (proj1 (extract_zip_true_members_exist (offline_kaggle None)
                  (ml_dir ++ ["ml-1m.zip"]) ml_dir "MovieLens 1M" archive_downloaded _
                  "data" ml_archive ["ml-1m"; "ratings.dat"] "1::1193::5::978300760" None
                  (outcome_eta _ _ H0) H1 eq_refl H3)).
Defined.
(** ** The closing message *)

Lemma main_report_run has_kaggle all_present s :
  exists report,
    main_report has_kaggle all_present s =
      (Returned tt, log s (header_lines "Setup Complete" ++ report ++ [Stdout ""])) /\
    report =
      (if all_present then
         [ Stdout "[OK] All datasets are ready!";
           Stdout "[INFO] You can now run the Jupyter notebooks in recommendation_techniques/" ]
       else
         Stdout "[WARNING] Some datasets are missing."
         :: (if has_kaggle then []
             else [ Stdout "[INFO] For Kaggle datasets, you can:";
                    Stdout "  Option 1: Setup Kaggle API and run this script again";
                    Stdout "  Option 2: Download manually from the URLs shown above" ])
         ++ [ Stdout "[INFO] Place downloaded files in the correct folders and run this script again to verify." ]) /\
    (In (Stdout "[OK] All datasets are ready!") report <-> all_present = true) /\
    (In (Stdout "[WARNING] Some datasets are missing.") report <-> all_present = false) /\
    (In (Stdout "  Option 1: Setup Kaggle API and run this script again") report <->
     all_present = false /\ has_kaggle = false) /\
    (In (Stdout "  Option 2: Download manually from the URLs shown above") report <->
     all_present = false /\ has_kaggle = false).
Proof.
  unfold main_report. destruct all_present, has_kaggle; cbn [negb].
  - exists [Stdout "[OK] All datasets are ready!";
            Stdout "[INFO] You can now run the Jupyter notebooks in recommendation_techniques/"].
    split; [run_prints; reflexivity|]. split; [reflexivity|].
    split; [split; [done|intros _; by left]|].
    split; [split; [intros [H|[H|[]]]; discriminate H|discriminate]|].
    split; split; try (intros [H|[H|[]]]; discriminate H); intros [? _]; discriminate.
  - exists [Stdout "[OK] All datasets are ready!";
            Stdout "[INFO] You can now run the Jupyter notebooks in recommendation_techniques/"].
    split; [run_prints; reflexivity|]. split; [reflexivity|].
    split; [split; [done|intros _; by left]|].
    split; [split; [intros [H|[H|[]]]; discriminate H|discriminate]|].
    split; split; try (intros [H|[H|[]]]; discriminate H); intros [? _]; discriminate.
  - exists [Stdout "[WARNING] Some datasets are missing.";
            Stdout "[INFO] Place downloaded files in the correct folders and run this script again to verify."].
    split; [run_prints; reflexivity|]. split; [reflexivity|].
    split; [split; [intros [H|[H|[]]]; discriminate H|discriminate]|].
    split; [split; [done|intros _; by left]|].
    split; split; try (intros [H|[H|[]]]; discriminate H); intros [_ ?]; discriminate.
  - exists [Stdout "[WARNING] Some datasets are missing.";
            Stdout "[INFO] For Kaggle datasets, you can:";
            Stdout "  Option 1: Setup Kaggle API and run this script again";
            Stdout "  Option 2: Download manually from the URLs shown above";
            Stdout "[INFO] Place downloaded files in the correct folders and run this script again to verify."].
    split; [run_prints; reflexivity|]. split; [reflexivity|].
    split; [split; [intros [H|[H|[H|[H|[H|[]]]]]]; discriminate H|discriminate]|].
    split; [split; [done|intros _; by left]|].
    split; [split; [done|intros _; right; right; by left]|].
    split; [done|intros _; right; right; right; by left].
Qed.

(** X10. The closing message of [main] follows the verification result
    alone: after the verification lines comes the [Setup Complete] header,
    then [All datasets are ready!] and the hint at the notebooks exactly
    when all six markers exist, and otherwise [Some datasets are missing.]
    and, last, the hint to place the files and run again; between these two
    the line [For Kaggle datasets, you can:] and the two options, [Option 1]
    and [Option 2], are printed exactly when something is missing and the
    probe returned false. A last empty line ends the output. *)
Theorem final_message_follows_verification
    (w : world) (s s1 : state) (has_kaggle : bool) :
  main_setup w s = (Returned has_kaggle, s1) ->
  exists report,
    main w s =
      (Returned tt,
       log s1 ([Stdout ""] ++ header_lines "Verification"
               ++ map (verify_line (fs s1)) required_files
               ++ header_lines "Setup Complete" ++ report ++ [Stdout ""])) /\
    report =
      (if forallb (present (fs s1)) required_files then
         [ Stdout "[OK] All datasets are ready!";
           Stdout "[INFO] You can now run the Jupyter notebooks in recommendation_techniques/" ]
       else
         Stdout "[WARNING] Some datasets are missing."
         :: (if has_kaggle then []
             else [ Stdout "[INFO] For Kaggle datasets, you can:";
                    Stdout "  Option 1: Setup Kaggle API and run this script again";
                    Stdout "  Option 2: Download manually from the URLs shown above" ])
         ++ [ Stdout "[INFO] Place downloaded files in the correct folders and run this script again to verify." ]) /\
    (In (Stdout "[OK] All datasets are ready!") report <->
     forallb (present (fs s1)) required_files = true) /\
    (In (Stdout "[WARNING] Some datasets are missing.") report <->
     forallb (present (fs s1)) required_files = false) /\
    (In (Stdout "  Option 1: Setup Kaggle API and run this script again") report <->
     forallb (present (fs s1)) required_files = false /\ has_kaggle = false) /\
    (In (Stdout "  Option 2: Download manually from the URLs shown above") report <->
     forallb (present (fs s1)) required_files = false /\ has_kaggle = false).
Proof.
  intros H. unfold main. rewrite (bind_returned _ _ _ _ _ H).
  rewrite bind_print, bind_run, verify_datasets_run.
  destruct (main_report_run has_kaggle
              (forallb (present (fs (log s1 [Stdout ""]))) required_files)
              (log (log s1 [Stdout ""])
                 (header_lines "Verification"
                  ++ map (verify_line (fs (log s1 [Stdout ""]))) required_files)))
    as (report & Hrun & Hrest).
  exists report. split; [|exact Hrest].
  rewrite Hrun, !log_log, fs_log. by rewrite <- !app_assoc.
Qed.

Lemma final_message_follows_verification_witness :
  main_setup (offline_kaggle (Some no_credentials)) fresh =
    (Returned false, (main_setup (offline_kaggle (Some no_credentials)) fresh).2) /\
  exists report,
    main (offline_kaggle (Some no_credentials)) fresh =
      (Returned tt,
       log (main_setup (offline_kaggle (Some no_credentials)) fresh).2
         ([Stdout ""] ++ header_lines "Verification"
          ++ map (verify_line (fs (main_setup (offline_kaggle (Some no_credentials)) fresh).2))
               required_files
          ++ header_lines "Setup Complete" ++ report ++ [Stdout ""])) /\
    (In (Stdout "  Option 2: Download manually from the URLs shown above") report <->
     forallb (present (fs (main_setup (offline_kaggle (Some no_credentials)) fresh).2))
       required_files = false /\ false = false).
Proof.
  assert ((main_setup (offline_kaggle (Some no_credentials)) fresh).1 = Returned false)
    as H0 by (vm_compute; reflexivity).
  split; [exact (outcome_eta _ _ H0)|].
  destruct (final_message_follows_verification (offline_kaggle (Some no_credentials)) fresh
              _ false (outcome_eta _ _ H0))
    as (report & Hmain & _ & _ & _ & _ & Hopt2).
  exists report. split; [exact Hmain|exact Hopt2].
Defined.
(** ** A second run *)

Lemma within_print_inv s s' :
  within fp_print s s' ->
  fs s' = fs s /\ exists out, trace s' = trace s ++ out /\ forallb is_print out = true.
Proof.
  intros (Hframe & _ & _ & _ & (out & Ht & Ho) & _). split.
  - apply map_eq. intros q. apply Hframe. by intros [].
  - exists out. split; [done|]. apply forallb_forall. intros e He.
    rewrite Forall_forall in Ho. apply Ho. by apply list_elem_of_In.
Qed.

Lemma within_print_of_log s out :
  forallb is_print out = true -> within fp_print s (log s out).
Proof. intros H. by apply within_print_log. Qed.

Lemma keeps_check_kaggle_api_print w : keeps fp_print (check_kaggle_api w).
Proof.
  unfold check_kaggle_api. apply keeps_try_except.
  - apply keeps_bind; [apply keeps_import_kaggle|intros _]. keeps_prints.
  - constructor; [intros e; keeps_prints|]. constructor; [intros e; keeps_prints|].
    constructor.
Qed.

Lemma print_kaggle_setup_instructions_prints s :
  exists out,
    print_kaggle_setup_instructions s = (Returned tt, log s out) /\
    forallb is_print out = true.
Proof.
  eexists. split; [unfold print_kaggle_setup_instructions; run_prints; reflexivity|].
  reflexivity.
Qed.

Lemma main_report_prints has_kaggle all_present s :
  exists out,
    main_report has_kaggle all_present s = (Returned tt, log s out) /\
    forallb is_print out = true.
Proof.
  unfold main_report. destruct all_present, has_kaggle; cbn [negb];
    (eexists; split; [run_prints; reflexivity|reflexivity]).
Qed.

Lemma verify_lines_print (f : filesystem) items :
  forallb is_print (map (verify_line f) items) = true.
Proof.
  induction items as [|item items IH]; [reflexivity|].
  cbn [map forallb]. rewrite IH. unfold verify_line.
  by destruct (bool_decide _).
Qed.

Lemma mkdir_exist_ok_noop p s :
  lookup_path (fs s) (parent p) = Some Dir -> lookup_path (fs s) p = Some Dir ->
  mkdir_exist_ok p s = (Returned tt, s).
Proof.
  intros Hpar Hp. unfold mkdir_exist_ok, get_fs. rewrite bind_run. cbn [fst snd].
  by rewrite Hpar, Hp.
Qed.

Lemma main_setup_all_populated w s :
  probe_caught w s -> wf_fs (fs s) = true ->
  (forall d, In d movielens_datasets ->
     populated (fs s) (Path "datasets/MovieLens" ++ Path (d_extract_dir d))) ->
  populated (fs s) (Path "datasets/Netflix/netflix") ->
  populated (fs s) (Path "datasets/Netflix/netflix_prize") ->
  populated (fs s) (Path "datasets/TMDB") ->
  populated (fs s) (Path "datasets/anime") ->
  exists has_kaggle s', main_setup w s = (Returned has_kaggle, s') /\ within fp_print s s'.
Proof.
  intros Hprobe Hwf Hml Hshows Hprize Htmdb Hanime.
  assert (fs s !! ["datasets"] = Some Dir) as Hroot.
  { destruct Htmdb as [Hd _].
    apply (wf_fs_parent _ (Path "datasets/TMDB") Dir Hwf Hd). }
  unfold main_setup. run_prints.
  match goal with |- context [log s ?o] => set (pre := o) end.
  assert (within fp_print s (log s pre)) as W0 by (by apply within_print_of_log).
  rewrite (bind_returned _ _ _ _ _ (mkdir_exist_ok_noop (Path "datasets") (log s pre)
                                      eq_refl Hroot)).
  destruct (proj2 (check_kaggle_api_returns_iff w (log s pre))) as (hk & s2 & Hck).
  { by apply (probe_caught_loaded w s). }
  rewrite (bind_returned _ _ _ _ _ Hck).
  pose proof (within_trans _ _ _ _ W0
                (run_within _ _ _ _ _ (keeps_check_kaggle_api_print w) Hck)) as W2.
  assert (exists s3, within fp_print s s3 /\ forall A (k : unit -> py A),
            bind (if negb hk then bind (print "") (fun _ => print_kaggle_setup_instructions)
                  else ret tt) k s2 = k tt s3) as (s3 & W3 & Ho).
  { destruct hk; cbn [negb].
    - exists s2. split; [done|]. intros A k. by rewrite bind_ret.
    - destruct (print_kaggle_setup_instructions_prints (log s2 [Stdout ""])) as (o & Ho & Po).
      exists (log (log s2 [Stdout ""]) o). split.
      + apply (within_trans _ _ _ _ W2).
        apply (within_trans _ _ (log s2 [Stdout ""])); by apply within_print_of_log.
      + intros A k. by rewrite bind_assoc, bind_print, (bind_returned _ _ _ _ _ Ho). }
  rewrite Ho, bind_print.
  pose proof (within_trans _ _ _ _ W3
                (within_print_of_log s3 [Stdout ""] eq_refl)) as W4.
  set (s4 := log s3 [Stdout ""]) in *.
  destruct (within_print_inv _ _ W4) as [F4 _].
  destruct (setup_movielens_all_populated w s4) as (o5 & H5 & P5);
    [by rewrite F4|by rewrite F4|].
  rewrite (bind_returned _ _ _ _ _ H5).
  destruct (setup_netflix_populated w hk (log s4 o5)) as (o6 & H6 & P6);
    [by rewrite fs_log, F4|by rewrite fs_log, F4|].
  rewrite (bind_returned _ _ _ _ _ H6).
  destruct (setup_tmdb_populated w hk (log (log s4 o5) o6)) as (o7 & H7 & P7);
    [by rewrite !fs_log, F4|].
  rewrite (bind_returned _ _ _ _ _ H7).
  destruct (setup_anime_populated w hk (log (log (log s4 o5) o6) o7)) as (o8 & H8 & P8);
    [by rewrite !fs_log, F4|].
  rewrite (bind_returned _ _ _ _ _ H8), ret_run.
  eexists _, _. split; [reflexivity|].
  apply (within_trans _ _ _ _ W4).
  apply (within_trans _ _ (log s4 o5)); [by apply within_print_of_log|].
  apply (within_trans _ _ (log (log s4 o5) o6)); [by apply within_print_of_log|].
  apply (within_trans _ _ (log (log (log s4 o5) o6) o7)); by apply within_print_of_log.
Qed.

(** X11. A run on a tree in which every destination is populated changes
    nothing: whatever the network, the archives and the Kaggle API would
    answer, [main] returns, the filesystem is as before, and the run has
    only printed; it has made no download, extraction, deletion or API
    call. *)
Theorem rerun_on_populated_tree_only_prints (w : world) (s : state) :
  probe_caught w s -> wf_fs (fs s) = true ->
  (forall d, In d movielens_datasets ->
     populated (fs s) (Path "datasets/MovieLens" ++ Path (d_extract_dir d))) ->
  populated (fs s) (Path "datasets/Netflix/netflix") ->
  populated (fs s) (Path "datasets/Netflix/netflix_prize") ->
  populated (fs s) (Path "datasets/TMDB") ->
  populated (fs s) (Path "datasets/anime") ->
  exists s' out,
    main w s = (Returned tt, s') /\
    fs s' = fs s /\
    trace s' = trace s ++ out /\
    forallb is_print out = true.
Proof.
  intros Hprobe Hwf Hml Hshows Hprize Htmdb Hanime.
  destruct (main_setup_all_populated w s Hprobe Hwf Hml Hshows Hprize Htmdb Hanime)
    as (hk & s1 & Hms & W1).
  assert (exists s', main w s = (Returned tt, s') /\ within fp_print s s')
    as (s' & Hmain & W).
  { unfold main. rewrite (bind_returned _ _ _ _ _ Hms), bind_print.
    rewrite bind_run, verify_datasets_run.
    match goal with
    | |- exists _, main_report hk ?b ?st = _ /\ _ =>
        destruct (main_report_prints hk b st) as (o & Hrep & Po)
    end.
    eexists. split; [exact Hrep|].
    apply (within_trans _ _ _ _ W1).
    apply (within_trans _ _ (log s1 [Stdout ""])); [by apply within_print_of_log|].
    apply (within_trans _ _ (log (log s1 [Stdout ""])
                               (header_lines "Verification"
                                ++ map (verify_line (fs (log s1 [Stdout ""]))) required_files)));
      [|by apply within_print_of_log].
    apply within_print_of_log. rewrite forallb_app, verify_lines_print. reflexivity. }
  destruct (within_print_inv _ _ W) as (Hfs & out & Ht & Hp).
  exists s', out. by repeat split.
Qed.

Lemma rerun_on_populated_tree_only_prints_witness :
  probe_caught corrupt_archives complete /\
  wf_fs (fs complete) = true /\
  (forall d, In d movielens_datasets ->
     populated (fs complete) (Path "datasets/MovieLens" ++ Path (d_extract_dir d))) /\
  populated (fs complete) (Path "datasets/Netflix/netflix") /\
  populated (fs complete) (Path "datasets/Netflix/netflix_prize") /\
  populated (fs complete) (Path "datasets/TMDB") /\
  populated (fs complete) (Path "datasets/anime") /\
  exists s' out,
    main corrupt_archives complete = (Returned tt, s') /\
    fs s' = fs complete /\
    trace s' = trace complete ++ out /\
    forallb is_print out = true.
Proof.
  assert (forall p, (lookup_path (fs complete) p = Some Dir) ->
                    negb (bool_decide (entries (fs complete) p = [])) = true ->
                    populated (fs complete) p) as Hpop.
  { intros p H1 H2. split; [exact H1|]. by apply negb_true_iff, bool_decide_eq_false in H2. }
  assert (probe_caught corrupt_archives complete) as H1.
  { right. exists no_credentials. split; reflexivity. }
  assert (wf_fs (fs complete) = true) as H2 by (vm_compute; reflexivity).
  assert (forall d, In d movielens_datasets ->
     populated (fs complete) (Path "datasets/MovieLens" ++ Path (d_extract_dir d))) as H3.
  { intros d [<-|[<-|[]]]; apply Hpop; vm_compute; reflexivity. }
  assert (populated (fs complete) (Path "datasets/Netflix/netflix")) as H4
    by (apply Hpop; vm_compute; reflexivity).
  assert (populated (fs complete) (Path "datasets/Netflix/netflix_prize")) as H5
    by (apply Hpop; vm_compute; reflexivity).
  assert (populated (fs complete) (Path "datasets/TMDB")) as H6
    by (apply Hpop; vm_compute; reflexivity).
  assert (populated (fs complete) (Path "datasets/anime")) as H7
    by (apply Hpop; vm_compute; reflexivity).
  split; [exact H1|]. split; [exact H2|]. split; [exact H3|]. split; [exact H4|].
  split; [exact H5|]. split; [exact H6|]. split; [exact H7|].
  exact (rerun_on_populated_tree_only_prints corrupt_archives complete H1 H2 H3 H4 H5 H6 H7).
Defined.
(** ** Edges of the skip check and of the probe *)

Lemma is_populated_file p s c :
  lookup_path (fs s) p = Some (File c) -> is_populated p s = (Raised (enotdir p), s).
Proof. intros H. by rewrite is_populated_run, H. Qed.

Lemma check_dataset_exists_file p name s c :
  lookup_path (fs s) (Path p) = Some (File c) ->
  check_dataset_exists p name s = (Raised (enotdir (Path p)), s).
Proof.
  intros H. unfold check_dataset_exists.
  by rewrite (bind_raised _ _ _ _ _ (is_populated_file _ _ _ H)).
Qed.

(** X12. The skip check is [exists() and any(iterdir())] outside of every
    [try] block: when a regular file stands at a destination, [iterdir]
    raises [NotADirectoryError], and the exception leaves
    [check_dataset_exists], the Kaggle-mediated routines (right after their
    header, whatever [has_kaggle] is) and the MovieLens item; nothing is
    written. *)
Theorem destination_regular_file_raises
    (w : world) (has_kaggle : bool) (s : state) (c : string) :
  (forall p name,
     lookup_path (fs s) (Path p) = Some (File c) ->
     check_dataset_exists p name s = (Raised (enotdir (Path p)), s)) /\
  (lookup_path (fs s) (Path "datasets/TMDB") = Some (File c) ->
   setup_tmdb_dataset w has_kaggle s =
     (Raised (enotdir (Path "datasets/TMDB")), log s (header_lines "TMDB Dataset"))) /\
  (lookup_path (fs s) (Path "datasets/anime") = Some (File c) ->
   setup_anime_dataset w has_kaggle s =
     (Raised (enotdir (Path "datasets/anime")), log s (header_lines "MyAnimeList Dataset"))) /\
  (lookup_path (fs s) (Path "datasets/Netflix/netflix") = Some (File c) ->
   setup_netflix_datasets w has_kaggle s =
     (Raised (enotdir (Path "datasets/Netflix/netflix")),
      log s (header_lines "Netflix Datasets"))) /\
  (forall dir d,
     lookup_path (fs s) (dir ++ Path (d_extract_dir d)) = Some (File c) ->
     movielens_item w dir d s = (Raised (enotdir (dir ++ Path (d_extract_dir d))), s)).
Proof.
  split; [|split; [|split; [|split]]].
  - intros p name H. by apply (check_dataset_exists_file p name s c).
  - intros H. unfold setup_tmdb_dataset. rewrite bind_print_header.
    by rewrite (bind_raised _ _ _ _ _
                  (check_dataset_exists_file "datasets/TMDB" "TMDB Movies"
                     (log s (header_lines "TMDB Dataset")) c H)).
  - intros H. unfold setup_anime_dataset. rewrite bind_print_header.
    by rewrite (bind_raised _ _ _ _ _
                  (check_dataset_exists_file "datasets/anime" "MyAnimeList"
                     (log s (header_lines "MyAnimeList Dataset")) c H)).
  - intros H. unfold setup_netflix_datasets. rewrite bind_print_header.
    by rewrite (bind_raised _ _ _ _ _
                  (check_dataset_exists_file "datasets/Netflix/netflix" "Netflix Shows"
                     (log s (header_lines "Netflix Datasets")) c H)).
  - intros dir d H. by rewrite movielens_item_run, (is_populated_file _ _ _ H).
Qed.

Lemma destination_regular_file_raises_witness :
  lookup_path (fs tmdb_is_file) (Path "datasets/TMDB") = Some (File "data") /\
  setup_tmdb_dataset (offline_kaggle None) true tmdb_is_file =
    (Raised (enotdir (Path "datasets/TMDB")), log tmdb_is_file (header_lines "TMDB Dataset")).
Proof.
  assert (lookup_path (fs tmdb_is_file) (Path "datasets/TMDB") = Some (File "data")) as H
    by (vm_compute; reflexivity).
  split; [exact H|].
  exact (proj1 (proj2 (destination_regular_file_raises (offline_kaggle None) true
                         tmdb_is_file "data")) H).
Defined.

(** X13. [check_kaggle_api] returns, with a boolean, exactly when [kaggle]
    is already imported, or its import goes through, or it fails with an
    exception whose class derives from [OSError] or [ImportError]; in every
    other case the exception of the import leaves the function. *)
Theorem check_kaggle_api_returns_exactly_when_caught (w : world) (s : state) :
  (returns (check_kaggle_api w) s <-> probe_caught w s) /\
  (forall e,
     kaggle_loaded s = false -> kaggle_import w = Some e ->
     is_OSError (exn_class_of e) || is_ImportError (exn_class_of e) = false ->
     check_kaggle_api w s = (Raised e, s)).
Proof.
  split; [apply check_kaggle_api_returns_iff|].
  intros e Hl Hi Hc. apply orb_false_iff in Hc as [Hos Him].
  rewrite check_kaggle_api_run. unfold import_kaggle. by rewrite Hl, Hi, Hos, Him.
Qed.

Lemma check_kaggle_api_returns_exactly_when_caught_witness :
  kaggle_loaded fresh = false /\
  kaggle_import (offline_kaggle (Some bad_credentials)) = Some bad_credentials /\
  is_OSError (exn_class_of bad_credentials) || is_ImportError (exn_class_of bad_credentials)
    = false /\
  check_kaggle_api (offline_kaggle (Some bad_credentials)) fresh = (Raised bad_credentials, fresh).
Proof.
  split; [reflexivity|]. split; [reflexivity|]. split; [reflexivity|].
  exact (proj2 (check_kaggle_api_returns_exactly_when_caught
                  (offline_kaggle (Some bad_credentials)) fresh)
           bad_credentials eq_refl eq_refl eq_refl).
Defined.

(** ** A successful Kaggle download *)

Lemma mkdir_p_returned pre rest s s' :
  mkdir_p pre rest s = (Returned tt, s') -> rest <> [] ->
  fs s' !! (pre ++ rest) = Some Dir.
Proof.
  revert pre s. induction rest as [|x rest IH]; intros pre s H Hne; [done|].
  cbn [mkdir_p] in H. unfold get_fs in H. rewrite bind_run in H. cbn [fst snd] in H.
  replace (pre ++ x :: rest) with ((pre ++ [x]) ++ rest) by (by rewrite <- app_assoc).
  destruct (fs s !! (pre ++ [x])) as [[c|]|] eqn:Hq.
  - destruct rest; discriminate H.
  - destruct rest as [|y rest].
    + cbn [mkdir_p] in H. unfold ret in H. injection H as <-. by rewrite app_nil_r.
    + by apply (IH (pre ++ [x]) s).
  - rewrite bind_run in H. unfold put_fs in H. cbn [fst snd] in H.
    destruct rest as [|y rest].
    + cbn [mkdir_p] in H. unfold ret in H. injection H as <-. cbn [fs].
      rewrite app_nil_r. apply lookup_insert_eq.
    + by apply (IH (pre ++ [x]) _ H).
Qed.

Lemma setup_kaggle_dataset_true_inv
    (w : world) (id extract_to name : string) (s s' : state) :
  Path extract_to <> [] ->
  setup_kaggle_dataset w id extract_to name s = (Returned true, s') ->
  importable w s /\
  kaggle_loaded s' = true /\
  (kaggle_api w id).2 = None /\
  fs s' !! Path extract_to = Some Dir /\
  (forall rel data err,
     In (rel, MFile data err) (kaggle_api w id).1 ->
     exists c, fs s' !! (Path extract_to ++ rel) = Some (File c)) /\
  exists out,
    trace s' = trace s ++ Stdout ("[INFO] Downloading " +:+ name +:+ " from Kaggle...")
                       :: KaggleDownload id (Path extract_to) :: out
                       ++ [Stdout ("[OK] " +:+ name +:+ " downloaded and extracted")].
Proof.
  intros Hne H. unfold setup_kaggle_dataset in H. rewrite try_except_all_run in H.
  match type of H with
  | match ?body s with _ => _ end = _ => destruct (body s) as [[b|e] s1] eqn:Hb
  end.
  2: { unfold print_error in H. rewrite bind_print, ret_run in H. discriminate H. }
  injection H as -> ->.
  apply bind_inv_returned in Hb as ([] & sa & Himp & Hb).
  apply bind_inv_returned in Hb as ([] & sb & Hmk & Hb).
  unfold print_info in Hb. rewrite bind_print in Hb.
  apply bind_inv_returned in Hb as ([] & sc & Hdl & Hb).
  unfold print_success in Hb. rewrite bind_print, ret_run in Hb. injection Hb as <-.
  pose proof (import_kaggle_returned _ _ _ Himp) as Hi.
  rewrite (import_kaggle_ok _ _ Hi) in Himp. injection Himp as <-.
  unfold mkdir_parents_exist_ok in Hmk.
  pose proof (mkdir_p_returned _ _ _ _ Hmk Hne) as Hdir. cbn [app] in Hdir.
  assert (kaggle_loaded sb = true /\ trace sb = trace s) as [Hlb Htb].
  { pose proof (run_within _ _ _ _ _
                  (keeps_mkdir_p (Footprint (fun _ => True) (fun _ => False)
                                    (fun _ => False) (fun _ => False))
                     [] (Path extract_to) (fun _ _ => I)) Hmk)
      as (_ & _ & _ & _ & (o & Ht & Ho) & Hl).
    split; [by apply Hl|]. destruct o as [|ev o]; [by rewrite Ht, app_nil_r|].
    by apply Forall_cons in Ho as [[] _]. }
  set (s0 := log sb [Stdout ("[INFO] Downloading " +:+ name +:+ " from Kaggle...")]) in *.
  unfold dataset_download_files in Hdl.
  rewrite bind_run in Hdl. cbn [emit fst snd] in Hdl.
  apply bind_inv_returned in Hdl as ([] & sd & Hfe & Hdl).
  destruct ((kaggle_api w id).2) as [e|] eqn:Herr; [discriminate Hdl|].
  unfold ret in Hdl. injection Hdl as <-.
  pose proof (run_within _ _ _ _ _ (keeps_extract_members_any (Path extract_to) _) Hfe)
    as (_ & Hdirs & _ & _ & (o & Ht & _) & Hl).
  split; [done|]. split; [by apply Hl|]. split; [done|]. split; [by apply Hdirs|]. split.
  - intros rel data err Hin. rewrite fs_log.
    exact (extract_members_files _ _ _ _ _ _ _ Hfe Hin).
  - exists o. rewrite trace_log, Ht. cbn [trace]. unfold s0. rewrite trace_log, Htb.
    rewrite <- !app_assoc. reflexivity.
Qed.

(** X14. A result of true from [setup_kaggle_dataset] means that the whole
    body went through: [kaggle] is imported, the API call was made and
    raised nothing, the destination is a directory, every file member of
    the delivered archive is a regular file below it, and the last line
    printed is the success line. *)
Theorem setup_kaggle_dataset_true_means_downloaded
    (w : world) (id extract_to name : string) (s s' : state) :
  Path extract_to <> [] ->
  setup_kaggle_dataset w id extract_to name s = (Returned true, s') ->
  importable w s /\
  kaggle_loaded s' = true /\
  (kaggle_api w id).2 = None /\
  fs s' !! Path extract_to = Some Dir /\
  (forall rel data err,
     In (rel, MFile data err) (kaggle_api w id).1 ->
     exists c, fs s' !! (Path extract_to ++ rel) = Some (File c)) /\
  exists out,
    trace s' = trace s ++ Stdout ("[INFO] Downloading " +:+ name +:+ " from Kaggle...")
                       :: KaggleDownload id (Path extract_to) :: out
                       ++ [Stdout ("[OK] " +:+ name +:+ " downloaded and extracted")].
Proof. apply setup_kaggle_dataset_true_inv. Qed.

Lemma setup_kaggle_dataset_true_means_downloaded_witness :
  Path "datasets/TMDB" <> [] /\
  setup_kaggle_dataset
    (World None (fun _ => Unreachable (Exn URLError "offline")) (fun _ => inr [])
       (fun _ => ([ (["TMDB_movie_dataset_v11.csv"], MFile "id,title" None) ], None)))
    "asaniczka/tmdb-movies-dataset-2023-930k-movies" "datasets/TMDB" "TMDB Movies" fresh
    = (Returned true,
       (setup_kaggle_dataset
          (World None (fun _ => Unreachable (Exn URLError "offline")) (fun _ => inr [])
             (fun _ => ([ (["TMDB_movie_dataset_v11.csv"], MFile "id,title" None) ], None)))
          "asaniczka/tmdb-movies-dataset-2023-930k-movies" "datasets/TMDB" "TMDB Movies"
          fresh).2) /\
  fs (setup_kaggle_dataset
        (World None (fun _ => Unreachable (Exn URLError "offline")) (fun _ => inr [])
           (fun _ => ([ (["TMDB_movie_dataset_v11.csv"], MFile "id,title" None) ], None)))
        "asaniczka/tmdb-movies-dataset-2023-930k-movies" "datasets/TMDB" "TMDB Movies"
        fresh).2 !! Path "datasets/TMDB" = Some Dir.
Proof.
  assert (Path "datasets/TMDB" <> []) as H1 by (vm_compute; discriminate).
  assert ((setup_kaggle_dataset
    (World None (fun _ => Unreachable (Exn URLError "offline")) (fun _ => inr [])
       (fun _ => ([ (["TMDB_movie_dataset_v11.csv"], MFile "id,title" None) ], None)))
    "asaniczka/tmdb-movies-dataset-2023-930k-movies" "datasets/TMDB" "TMDB Movies" fresh).1
    = Returned true) as H2 by (vm_compute; reflexivity).
  split; [exact H1|]. split; [exact (outcome_eta _ _ H2)|].
  exact (proj1 (proj2 (proj2 (proj2
           (setup_kaggle_dataset_true_means_downloaded _ _ _ _ fresh _ H1
              (outcome_eta _ _ H2)))))).
Defined.
(** ** From a success report to the verification pass *)

Lemma extract_zip_true_inv w zip to description s s' c :
  extract_zip w zip to description s = (Returned true, s') ->
  lookup_path (fs s) zip = Some (File c) ->
  exists ms,
    unzip w c = inr ms /\
    forall rel data err,
      In (rel, MFile data err) ms -> exists c', fs s' !! (to ++ rel) = Some (File c').
Proof.
  intros H Hz. rewrite extract_zip_run, extractall_run, fs_log, Hz in H.
  destruct (unzip w c) as [e|ms]; [discriminate H|]. exists ms. split; [done|].
  destruct (for_each ms (extract_member to) _) as [[[]|e] s1] eqn:Hfe; [|discriminate H].
  injection H as <-. intros rel data err Hin. rewrite fs_log.
  exact (extract_members_files _ _ _ _ _ _ _ Hfe Hin).
Qed.

(** X15. The full path of a MovieLens item: when the destination is not
    populated, the download returns true and the extraction returns true,
    the item deletes the archive and prints [setup complete]; if every
    archive holds the marker file of the item, a verification pass run
    afterwards reports the item Found. *)
Theorem movielens_item_success_is_verified
    (w : world) (s s1 s2 : state) (d : dataset) (marker : string) (rel : path) :
  In (d_name d, marker) required_files ->
  Path marker = ml_dir ++ rel ->
  rel <> Path (d_filename d) ->
  unpopulated (fs s) (ml_dir ++ Path (d_extract_dir d)) ->
  download_file w (d_url d) (ml_dir ++ Path (d_filename d)) (d_name d) s = (Returned true, s1) ->
  extract_zip w (ml_dir ++ Path (d_filename d)) ml_dir (d_name d) s1 = (Returned true, s2) ->
  (forall c ms, unzip w c = inr ms -> exists data err, In (rel, MFile data err) ms) ->
  exists s',
    movielens_item w ml_dir d s = (Returned tt, s') /\
    fs s' = delete (ml_dir ++ Path (d_filename d)) (fs s2) /\
    trace s' = trace s2 ++ [ Unlink (ml_dir ++ Path (d_filename d));
                             Stdout ("[OK] " +:+ d_name d +:+ " setup complete") ] /\
    reported_found s' (d_name d).
Proof.
  intros Hitem Hmarker Hrel Hun H1 H2 Harch.
  destruct (download_file_true_file _ _ _ _ _ _ H1) as (Hne & c & Hc).
  destruct (extract_zip_file_persists _ _ _ _ _ _ _ _ _ H2 Hc) as (c' & Hc').
  destruct (extract_zip_true_inv _ _ _ _ _ _ c H2) as (ms & Hms & Hfiles).
  { by rewrite (lookup_path_ne _ _ Hne). }
  destruct (Harch _ _ Hms) as (data & err & Hin).
  destruct (Hfiles _ _ _ Hin) as (cm & Hcm).
  eexists. split; [|split; [|split]].
  - rewrite movielens_item_run, (is_populated_false _ _ Hun), H1, H2.
    rewrite bind_run, unlink_run, (lookup_path_ne _ _ Hne), Hc'.
    unfold print_success. rewrite print_run. reflexivity.
  - reflexivity.
  - rewrite trace_log. cbn [trace]. by rewrite <- app_assoc.
  - apply (verify_reports_found _ (d_name d) marker Hitem).
    rewrite Hmarker, fs_log. cbn [fs].
    rewrite lookup_path_ne; [|unfold ml_dir; simpl; discriminate].
    rewrite lookup_delete_ne; [by rewrite Hcm|].
    intros Heq. by apply app_inv_head in Heq.
Qed.

Lemma movielens_item_success_is_verified_witness :
  In (d_name ml_1m, "datasets/MovieLens/ml-1m/ratings.dat") required_files /\
  Path "datasets/MovieLens/ml-1m/ratings.dat" = ml_dir ++ ["ml-1m"; "ratings.dat"] /\
  ["ml-1m"; "ratings.dat"] <> Path (d_filename ml_1m) /\
  unpopulated (fs movielens_ready) (ml_dir ++ Path (d_extract_dir ml_1m)) /\
  (download_file (offline_kaggle None) (d_url ml_1m) (ml_dir ++ Path (d_filename ml_1m))
     (d_name ml_1m) movielens_ready).1 = Returned true /\
  (extract_zip (offline_kaggle None) (ml_dir ++ Path (d_filename ml_1m)) ml_dir (d_name ml_1m)
     (download_file (offline_kaggle None) (d_url ml_1m) (ml_dir ++ Path (d_filename ml_1m))
        (d_name ml_1m) movielens_ready).2).1 = Returned true /\
  (forall c ms, unzip (offline_kaggle None) c = inr ms ->
     exists data err, In (["ml-1m"; "ratings.dat"], MFile data err) ms) /\
  exists s',
    movielens_item (offline_kaggle None) ml_dir ml_1m movielens_ready = (Returned tt, s') /\
    reported_found s' (d_name ml_1m).
Proof.
  assert (In (d_name ml_1m, "datasets/MovieLens/ml-1m/ratings.dat") required_files) as H1
    by (left; reflexivity).
  assert (Path "datasets/MovieLens/ml-1m/ratings.dat" = ml_dir ++ ["ml-1m"; "ratings.dat"])
    as H2 by (vm_compute; reflexivity).
  assert (["ml-1m"; "ratings.dat"] <> Path (d_filename ml_1m)) as H3
    by (vm_compute; discriminate).
  assert (unpopulated (fs movielens_ready) (ml_dir ++ Path (d_extract_dir ml_1m))) as H4.
  { left. vm_compute. reflexivity. }
  assert ((download_file (offline_kaggle None) (d_url ml_1m) (ml_dir ++ Path (d_filename ml_1m))
     (d_name ml_1m) movielens_ready).1 = Returned true) as H5 by (vm_compute; reflexivity).
  assert ((extract_zip (offline_kaggle None) (ml_dir ++ Path (d_filename ml_1m)) ml_dir
             (d_name ml_1m)
     (download_file (offline_kaggle None) (d_url ml_1m) (ml_dir ++ Path (d_filename ml_1m))
        (d_name ml_1m) movielens_ready).2).1 = Returned true) as H6
    by (vm_compute; reflexivity).
  assert (forall c ms, unzip (offline_kaggle None) c = inr ms ->
     exists data err, In (["ml-1m"; "ratings.dat"], MFile data err) ms) as H7.
  { intros c ms [= <-]. eexists _, _. right. left. reflexivity. }
  split; [exact H1|]. split; [exact H2|]. split; [exact H3|]. split; [exact H4|].
  split; [exact H5|]. split; [exact H6|]. split; [exact H7|].
  destruct (movielens_item_success_is_verified (offline_kaggle None) movielens_ready _ _
              ml_1m "datasets/MovieLens/ml-1m/ratings.dat" ["ml-1m"; "ratings.dat"]
              H1 H2 H3 H4 (outcome_eta _ _ H5) (outcome_eta _ _ H6) H7)
    as (s' & Hrun & _ & _ & Hfound).
  exists s'. split; [exact Hrun|exact Hfound].
Defined.

(** X16. A result of true from [setup_kaggle_dataset] carries over to the
    verification pass when the marker of the dataset is the destination
    directory itself, as for Netflix Prize, or a file member of the
    delivered archive: the dataset is then reported Found. *)
Theorem kaggle_success_is_verified
    (w : world) (id extract_to name vname marker : string) (rel : path) (s s' : state) :
  Path extract_to <> [] ->
  In (vname, marker) required_files ->
  Path marker = Path extract_to ++ rel ->
  rel = [] \/ (exists data err, In (rel, MFile data err) (kaggle_api w id).1) ->
  setup_kaggle_dataset w id extract_to name s = (Returned true, s') ->
  reported_found s' vname.
Proof.
  intros Hne Hitem Hmarker Hrel H.
  destruct (setup_kaggle_dataset_true_inv w id extract_to name s s' Hne H)
    as (_ & _ & _ & Hdir & Hfiles & _).
  apply (verify_reports_found _ vname marker Hitem). rewrite Hmarker.
  assert (Path extract_to ++ rel <> []) as Hne'.
  { intros Hnil. by apply app_eq_nil in Hnil as [? _]. }
  rewrite (lookup_path_ne _ _ Hne').
  destruct Hrel as [->|(data & err & Hin)].
  - rewrite app_nil_r, Hdir. eauto.
  - destruct (Hfiles _ _ _ Hin) as (c & Hc). rewrite Hc. eauto.
Qed.

Lemma kaggle_success_is_verified_witness :
  Path "datasets/Netflix/netflix_prize" <> [] /\
  In ("Netflix Prize", "datasets/Netflix/netflix_prize") required_files /\
  Path "datasets/Netflix/netflix_prize" = Path "datasets/Netflix/netflix_prize" ++ [] /\
  (setup_kaggle_dataset empty_deliveries "netflix-inc/netflix-prize-data"
     "datasets/Netflix/netflix_prize" "Netflix Prize" fresh).1 = Returned true /\
  reported_found
    (setup_kaggle_dataset empty_deliveries "netflix-inc/netflix-prize-data"
       "datasets/Netflix/netflix_prize" "Netflix Prize" fresh).2 "Netflix Prize".
Proof.
  assert (Path "datasets/Netflix/netflix_prize" <> []) as H1 by (vm_compute; discriminate).
  assert (In ("Netflix Prize", "datasets/Netflix/netflix_prize") required_files) as H2
    by (unfold required_files; in_list).
  assert (Path "datasets/Netflix/netflix_prize" = Path "datasets/Netflix/netflix_prize" ++ [])
    as H3 by (vm_compute; reflexivity).
  assert ((setup_kaggle_dataset empty_deliveries "netflix-inc/netflix-prize-data"
     "datasets/Netflix/netflix_prize" "Netflix Prize" fresh).1 = Returned true) as H4
    by (vm_compute; reflexivity).
  split; [exact H1|]. split; [exact H2|]. split; [exact H3|]. split; [exact H4|].
  exact (kaggle_success_is_verified empty_deliveries "netflix-inc/netflix-prize-data"
           "datasets/Netflix/netflix_prize" "Netflix Prize" "Netflix Prize"
           "datasets/Netflix/netflix_prize" [] fresh _ H1 H2 H3 (or_introl eq_refl)
           (outcome_eta _ _ H4)).
Defined.

Lemma setup_kaggle_dataset_empty_delivery w id extract_to name s f :
  importable w s ->
  mkdir_p [] (Path extract_to) (loaded s) = (Returned tt, State f true (trace s)) ->
  kaggle_api w id = ([], None) ->
  setup_kaggle_dataset w id extract_to name s =
    (Returned true,
     State f true
       (trace s ++
        [ Stdout ("[INFO] Downloading " +:+ name +:+ " from Kaggle...");
          KaggleDownload id (Path extract_to);
          Stdout ("[OK] " +:+ name +:+ " downloaded and extracted") ])).
Proof.
  intros Himp Hmk Hapi.
  unfold setup_kaggle_dataset. rewrite try_except_all_run.
  rewrite (bind_returned _ _ _ _ _ (import_kaggle_ok w s Himp)).
  unfold mkdir_parents_exist_ok. rewrite (bind_returned _ _ _ _ _ Hmk).
  unfold print_info. rewrite bind_print.
  unfold dataset_download_files. rewrite Hapi. cbn [fst snd for_each].
  rewrite !bind_run. cbn [bind emit ret raise fst snd].
  unfold print_success, print. cbn [bind emit ret fst snd].
  unfold log. cbn [fs kaggle_loaded trace]. rewrite <- !app_assoc. reflexivity.
Qed.

(** X17. A success report is no proof of data: when the Kaggle call
    delivers an empty archive without raising, [setup_kaggle_dataset]
    returns true and prints [downloaded and extracted], the destination is an
    empty directory, and a verification pass run afterwards reports Missing
    for a dataset whose marker is a file in that directory. *)
Theorem empty_delivery_is_reported_as_success
    (w : world) (id extract_to name vname marker leaf : string) (s : state) :
  wf_fs (fs s) = true ->
  importable w s ->
  Path extract_to <> [] ->
  unpopulated (fs s) (Path extract_to) ->
  clear_way (fs s) (Path extract_to) ->
  kaggle_api w id = ([], None) ->
  In (vname, marker) required_files ->
  Path marker = Path extract_to ++ [leaf] ->
  exists s',
    setup_kaggle_dataset w id extract_to name s = (Returned true, s') /\
    trace s' =
      trace s ++
      [ Stdout ("[INFO] Downloading " +:+ name +:+ " from Kaggle...");
        KaggleDownload id (Path extract_to);
        Stdout ("[OK] " +:+ name +:+ " downloaded and extracted") ] /\
    fs s' !! Path extract_to = Some Dir /\
    entries (fs s') (Path extract_to) = [] /\
    reported_missing s' vname.
Proof.
  intros Hwf Himp Hne Hun Hclear Hapi Hitem Hmarker.
  destruct (mkdir_p_creates [] (Path extract_to) (loaded s) Hclear)
    as (f & Hmk & _ & Hdir).
  specialize (Hdir Hne). simpl in Hmk, Hdir.
  assert (forall x, f !! (Path extract_to ++ [x]) = None) as Hchild.
  { intros x.
    pose proof (keeps_mkdir_p
                  (Footprint (fun q => q `prefix_of` Path extract_to)
                     (fun _ => False) (fun _ => False) (fun _ => False))
                  [] (Path extract_to) (fun q Hq => Hq) (loaded s)) as Hk.
    rewrite Hmk in Hk. apply (within_frame _ _ _ (Path extract_to ++ [x])) in Hk.
    - simpl in Hk. rewrite Hk. by apply unpopulated_child_absent.
    - simpl. apply snoc_not_prefix. }
  eexists. split; [by apply (setup_kaggle_dataset_empty_delivery w id extract_to name s f)|].
  cbn [fs trace]. split; [reflexivity|]. split; [exact Hdir|]. split.
  - by apply entries_nil_of.
  - apply (verify_reports_missing _ vname marker Hitem).
    rewrite Hmarker, lookup_path_snoc. cbn [fs]. apply Hchild.
Qed.

Lemma empty_delivery_is_reported_as_success_witness :
  wf_fs (fs fresh) = true /\
  importable empty_deliveries fresh /\
  Path "datasets/TMDB" <> [] /\
  unpopulated (fs fresh) (Path "datasets/TMDB") /\
  clear_way (fs fresh) (Path "datasets/TMDB") /\
  kaggle_api empty_deliveries "asaniczka/tmdb-movies-dataset-2023-930k-movies" = ([], None) /\
  In ("TMDB", "datasets/TMDB/TMDB_movie_dataset_v11.csv") required_files /\
  Path "datasets/TMDB/TMDB_movie_dataset_v11.csv"
    = Path "datasets/TMDB" ++ ["TMDB_movie_dataset_v11.csv"] /\
  exists s',
    setup_kaggle_dataset empty_deliveries "asaniczka/tmdb-movies-dataset-2023-930k-movies"
      "datasets/TMDB" "TMDB Movies" fresh = (Returned true, s') /\
    reported_missing s' "TMDB".
Proof.
  assert (wf_fs (fs fresh) = true) as H1 by (vm_compute; reflexivity).
  assert (importable empty_deliveries fresh) as H2 by (right; reflexivity).
  assert (Path "datasets/TMDB" <> []) as H3 by (vm_compute; discriminate).
  assert (unpopulated (fs fresh) (Path "datasets/TMDB")) as H4.
  { left. vm_compute. reflexivity. }
  assert (clear_way (fs fresh) (Path "datasets/TMDB")) as H5.
  { intros q c _ _. unfold fresh. simpl. by rewrite lookup_empty. }
  assert (In ("TMDB", "datasets/TMDB/TMDB_movie_dataset_v11.csv") required_files) as H7
    by (unfold required_files; in_list).
  assert (Path "datasets/TMDB/TMDB_movie_dataset_v11.csv"
          = Path "datasets/TMDB" ++ ["TMDB_movie_dataset_v11.csv"]) as H8
    by (vm_compute; reflexivity).
  split; [exact H1|]. split; [exact H2|]. split; [exact H3|]. split; [exact H4|].
  split; [exact H5|]. split; [reflexivity|]. split; [exact H7|]. split; [exact H8|].
  destruct (empty_delivery_is_reported_as_success empty_deliveries
              "asaniczka/tmdb-movies-dataset-2023-930k-movies" "datasets/TMDB" "TMDB Movies"
              "TMDB" "datasets/TMDB/TMDB_movie_dataset_v11.csv" "TMDB_movie_dataset_v11.csv"
              fresh H1 H2 H3 H4 H5 eq_refl H7 H8)
    as (s' & Hrun & _ & _ & _ & Hmiss).
  exists s'. split; [exact Hrun|exact Hmiss].
Defined.
(** ** One item after the other *)

Lemma frame_unpopulated (f f' : filesystem) p :
  p <> [] -> f' !! p = f !! p -> (forall x, f' !! (p ++ [x]) = f !! (p ++ [x])) ->
  unpopulated f p -> unpopulated f' p.
Proof.
  intros Hne Hp Hch Hun. unfold unpopulated in *.
  rewrite (lookup_path_ne f' _ Hne), Hp. rewrite (lookup_path_ne f _ Hne) in Hun.
  destruct Hun as [Hun|[Hd Hnil]]; [by left|right]. split; [done|].
  apply entries_nil_of. intros x. rewrite Hch. by apply entries_nil_lookup.
Qed.

Lemma unpopulated_dirlike (f : filesystem) p : p <> [] -> unpopulated f p -> dirlike f p.
Proof.
  intros Hne Hun. unfold unpopulated in Hun. rewrite (lookup_path_ne _ _ Hne) in Hun.
  destruct Hun as [Hun|[Hd _]]; [by left|by right].
Qed.

Lemma movielens_item_unreachable w dir d s e :
  unpopulated (fs s) (dir ++ Path (d_extract_dir d)) ->
  fetch w (d_url d) = Unreachable e ->
  movielens_item w dir d s =
    (Returned tt,
     log s [ Stdout ("[INFO] Downloading " +:+ d_name d +:+ "...");
             Retrieve (d_url d) (dir ++ Path (d_filename d));
             Stdout ("[ERROR] Failed to download " +:+ d_name d +:+ ": " +:+ exn_str e) ]).
Proof.
  intros Hun Hf. rewrite movielens_item_run, (is_populated_false _ _ Hun).
  rewrite download_file_run, (urlretrieve_unreachable _ _ _ _ _ Hf). by rewrite !log_log.
Qed.

(** X18. A failed download ends its own item only: when both MovieLens
    destinations are unpopulated and the server of the first archive cannot
    be reached, [setup_movielens] prints the error line of the first item,
    goes on to download the second archive, and returns. *)
Theorem failed_download_does_not_stop_next_item (w : world) (s : state) (e : exn) :
  clear_way (fs s) ml_dir ->
  unpopulated (fs s) (ml_dir ++ ["ml-1m"]) ->
  unpopulated (fs s) (ml_dir ++ ["ml-25m"]) ->
  fetch w "https://files.grouplens.org/datasets/movielens/ml-1m.zip" = Unreachable e ->
  exists s' out,
    setup_movielens w s = (Returned tt, s') /\
    trace s' =
      trace s ++ header_lines "MovieLens Datasets"
      ++ [ Stdout "[INFO] Downloading MovieLens 1M...";
           Retrieve "https://files.grouplens.org/datasets/movielens/ml-1m.zip"
             (ml_dir ++ ["ml-1m.zip"]);
           Stdout ("[ERROR] Failed to download MovieLens 1M: " +:+ exn_str e);
           Stdout "[INFO] Downloading MovieLens 25M...";
           Retrieve "https://files.grouplens.org/datasets/movielens/ml-25m.zip"
             (ml_dir ++ ["ml-25m.zip"]) ]
      ++ out.
Proof.
  intros Hclear Hun1 Hun2 Hf. rewrite setup_movielens_run.
  set (s0 := log s (header_lines "MovieLens Datasets")).
  destruct (mkdir_p_creates [] ml_dir s0 Hclear) as (f & Hmk & _).
  rewrite (bind_returned _ _ _ _ _ Hmk).
  pose proof (run_within _ _ _ _ _
                (keeps_mkdir_p (Footprint (fun q => q `prefix_of` ml_dir)
                                  (fun _ => False) (fun _ => False) (fun _ => False))
                   [] ml_dir (fun q Hq => Hq)) Hmk) as Hw.
  assert (forall leaf, unpopulated (fs s) (ml_dir ++ [leaf]) ->
                       unpopulated f (ml_dir ++ [leaf])) as Hkeep.
  { intros leaf Hun. refine (frame_unpopulated (fs s) f _ _ _ _ Hun).
    - unfold ml_dir. discriminate.
    - apply (within_frame _ _ _ (ml_dir ++ [leaf]) Hw). apply snoc_not_prefix.
    - intros x. apply (within_frame _ _ _ ((ml_dir ++ [leaf]) ++ [x]) Hw).
      intros [k Hk]. unfold ml_dir in Hk. discriminate Hk. }
  set (s1 := State f (kaggle_loaded s0) (trace s0)) in *.
  rewrite (bind_returned _ _ _ _ _
             (movielens_item_unreachable w ml_dir ml_1m s1 e (Hkeep _ Hun1) Hf)).
  match goal with |- context [log s1 ?o] => set (o1 := o) end.
  destruct (movielens_item_returns w ml_dir ml_25m (log s1 o1)) as (s2 & H2).
  { apply unpopulated_dirlike; [unfold ml_dir; discriminate|]. exact (Hkeep _ Hun2). }
  destruct (movielens_item_downloads w ml_dir ml_25m (log s1 o1) (Hkeep _ Hun2))
    as (out & Ht).
  rewrite H2 in Ht. cbn [snd] in Ht.
  rewrite (bind_returned _ _ _ _ _ H2), ret_run.
  exists s2, out. split; [reflexivity|].
  rewrite Ht, trace_log. unfold s1, o1. cbn [trace]. unfold s0. rewrite trace_log.
  rewrite <- !app_assoc. reflexivity.
Qed.

Lemma failed_download_does_not_stop_next_item_witness :
  clear_way (fs fresh) ml_dir /\
  unpopulated (fs fresh) (ml_dir ++ ["ml-1m"]) /\
  unpopulated (fs fresh) (ml_dir ++ ["ml-25m"]) /\
  fetch empty_deliveries "https://files.grouplens.org/datasets/movielens/ml-1m.zip"
    = Unreachable (Exn URLError "<urlopen error [Errno 101] Network is unreachable>") /\
  exists s' out,
    setup_movielens empty_deliveries fresh = (Returned tt, s') /\
    trace s' =
      trace fresh ++ header_lines "MovieLens Datasets"
      ++ [ Stdout "[INFO] Downloading MovieLens 1M...";
           Retrieve "https://files.grouplens.org/datasets/movielens/ml-1m.zip"
             (ml_dir ++ ["ml-1m.zip"]);
           Stdout ("[ERROR] Failed to download MovieLens 1M: "
                   +:+ exn_str (Exn URLError "<urlopen error [Errno 101] Network is unreachable>"));
           Stdout "[INFO] Downloading MovieLens 25M...";
           Retrieve "https://files.grouplens.org/datasets/movielens/ml-25m.zip"
             (ml_dir ++ ["ml-25m.zip"]) ]
      ++ out.
Proof.
  assert (clear_way (fs fresh) ml_dir) as H1.
  { intros q c _ _. unfold fresh. simpl. by rewrite lookup_empty. }
  assert (unpopulated (fs fresh) (ml_dir ++ ["ml-1m"])) as H2 by (left; reflexivity).
  assert (unpopulated (fs fresh) (ml_dir ++ ["ml-25m"])) as H3 by (left; reflexivity).
  split; [exact H1|]. split; [exact H2|]. split; [exact H3|]. split; [reflexivity|].
  exact (failed_download_does_not_stop_next_item empty_deliveries fresh _ H1 H2 H3 eq_refl).
Defined.
(** ** An interrupted download *)

Lemma download_loop_run dest size blocks :
  size <> 0%Z ->
  forall (acc : Z * Z) s c,
    fs s !! dest = Some (File c) ->
    exists acc' out,
      for_fold blocks acc (fun acc block =>
         let '(blocknum, read) := acc in
         bind (write_block dest block) (fun _ =>
           bind (reporthook (blocknum + 1) block_bytes size) (fun _ =>
             ret ((blocknum + 1)%Z, (read + Z.of_nat (String.length block))%Z)))) s
      = (Returned acc',
         State (<[dest := File (fold_left String.append blocks c)]> (fs s))
               (kaggle_loaded s) (trace s ++ out)) /\
      forallb is_print out = true.
Proof.
  intros Hsize. induction blocks as [|b blocks IH]; intros [blocknum read] s c Hc.
  - exists (blocknum, read), []. split; [|reflexivity].
    cbn [for_fold fold_left]. unfold ret. rewrite app_nil_r.
    rewrite (insert_id _ _ _ Hc). by destruct s.
  - cbn [for_fold fold_left]. rewrite bind_run.
    unfold write_block at 1, get_fs. rewrite !bind_run. cbn [fst snd]. rewrite Hc.
    unfold put_fs. cbn [fst snd]. unfold reporthook at 1.
    apply Z.eqb_neq in Hsize. rewrite Hsize. cbn [emit fst snd ret].
    rewrite bind_run. cbn [emit fst snd ret].
    match goal with
    | |- context [for_fold blocks ?a _ ?st] =>
        destruct (IH a st (c +:+ b)) as (acc' & out & Hrun & Hout)
    end.
    { cbn [fs]. apply lookup_insert_eq. }
    exists acc', (Progress (blocknum + 1) block_bytes size :: out).
    split; [|exact Hout].
    rewrite Hrun. cbn [fs kaggle_loaded trace]. rewrite insert_insert_eq.
    by rewrite <- app_assoc.
Qed.

(** X19. A download that breaks off after some blocks leaves what was read:
    when the response announces a non-zero length and fails after its
    blocks, [download_file] returns false and the destination is a regular
    file holding exactly the blocks read; nothing removes it. *)
Theorem interrupted_download_leaves_partial_file
    (w : world) (url : string) (dest : path) (description : string) (s : state)
    (size : Z) (blocks : list string) (e : exn) :
  fetch w url = Response size blocks (Some e) ->
  size <> 0%Z ->
  lookup_path (fs s) (parent dest) = Some Dir ->
  lookup_path (fs s) dest <> Some Dir ->
  exists s' out,
    download_file w url dest description s = (Returned false, s') /\
    fs s' = <[dest := File (fold_left String.append blocks "")]> (fs s) /\
    trace s' =
      trace s ++ Stdout ("[INFO] Downloading " +:+ description +:+ "...")
              :: Retrieve url dest :: out
              ++ [Stdout ("[ERROR] Failed to download " +:+ description +:+ ": "
                          +:+ exn_str e)] /\
    forallb is_print out = true.
Proof.
  intros Hf Hsize Hpar Hdest.
  rewrite download_file_run. unfold urlretrieve.
  rewrite bind_run. cbn [emit fst snd]. rewrite Hf.
  assert (forall s0, fs s0 = fs s ->
            open_wb dest s0 = (Returned tt, State (<[dest := File ""]> (fs s))
                                              (kaggle_loaded s0) (trace s0))) as Hopen.
  { intros s0 Hs0. unfold open_wb, get_fs. rewrite bind_run. cbn [fst snd].
    rewrite Hs0, Hpar. unfold put_fs.
    destruct (lookup_path (fs s) dest) as [[c|]|]; [reflexivity|done|reflexivity]. }
  match goal with
  | |- context [bind (open_wb dest) _ ?st] =>
      rewrite (bind_returned _ _ _ _ _ (Hopen st eq_refl))
  end.
  clear Hopen.
  rewrite bind_run. unfold reporthook at 1.
  pose proof Hsize as Hsize'. apply Z.eqb_neq in Hsize'. rewrite Hsize'.
  cbn [emit fst snd].
  rewrite bind_run.
  match goal with
  | |- context [for_fold blocks ?a _ ?st] =>
      destruct (download_loop_run dest size blocks Hsize a st "") as (acc' & out & Hrun & Hout)
  end.
  { cbn [fs]. apply lookup_insert_eq. }
  rewrite Hrun. unfold log. cbn [raise fs kaggle_loaded trace].
  eexists _, (Progress 0 block_bytes size :: out). split; [reflexivity|].
  cbn [fs trace]. split; [apply insert_insert_eq|].
  split; [|exact Hout]. rewrite <- !app_assoc. reflexivity.
Qed.

Lemma interrupted_download_leaves_partial_file_witness :
  fetch connection_reset "https://files.grouplens.org/datasets/movielens/ml-1m.zip"
    = Response 24594 ["PK.."; "...."]
        (Some (Exn OSError "[Errno 104] Connection reset by peer")) /\
  24594%Z <> 0%Z /\
  lookup_path (fs movielens_ready) (parent (ml_dir ++ ["ml-1m.zip"])) = Some Dir /\
  lookup_path (fs movielens_ready) (ml_dir ++ ["ml-1m.zip"]) <> Some Dir /\
  exists s' out,
    download_file connection_reset
      "https://files.grouplens.org/datasets/movielens/ml-1m.zip"
      (ml_dir ++ ["ml-1m.zip"]) "MovieLens 1M" movielens_ready = (Returned false, s') /\
    fs s' = <[ml_dir ++ ["ml-1m.zip"] := File (fold_left String.append ["PK.."; "...."] "")]>
              (fs movielens_ready) /\
    trace s' =
      trace movielens_ready ++ Stdout ("[INFO] Downloading " +:+ "MovieLens 1M" +:+ "...")
        :: Retrieve "https://files.grouplens.org/datasets/movielens/ml-1m.zip"
             (ml_dir ++ ["ml-1m.zip"]) :: out
        ++ [Stdout ("[ERROR] Failed to download " +:+ "MovieLens 1M" +:+ ": "
                    +:+ exn_str (Exn OSError "[Errno 104] Connection reset by peer"))] /\
    forallb is_print out = true.
Proof.
  assert (24594%Z <> 0%Z) as H2 by lia.
  assert (lookup_path (fs movielens_ready) (parent (ml_dir ++ ["ml-1m.zip"])) = Some Dir)
    as H3 by (vm_compute; reflexivity).
  assert (lookup_path (fs movielens_ready) (ml_dir ++ ["ml-1m.zip"]) <> Some Dir)
    as H4 by (vm_compute; discriminate).
  split; [reflexivity|]. split; [exact H2|]. split; [exact H3|]. split; [exact H4|].
  exact (interrupted_download_leaves_partial_file connection_reset
           "https://files.grouplens.org/datasets/movielens/ml-1m.zip"
           (ml_dir ++ ["ml-1m.zip"]) "MovieLens 1M" movielens_ready 24594
           ["PK.."; "...."] (Exn OSError "[Errno 104] Connection reset by peer")
           eq_refl H2 H3 H4).
Defined.
(** ** The layout of a header *)

Lemma length_append (a b : string) :
  String.length (a +:+ b) = (String.length a + String.length b)%nat.
Proof.
  induction a as [|ch a IH]; [reflexivity|].
  change (S (String.length (a +:+ b)) = S (String.length a + String.length b)).
  by rewrite IH.
Qed.

Lemma length_string_rep ch n : String.length (string_rep (String ch "") n) = n.
Proof.
  induction n as [|n IH]; [reflexivity|].
  change (S (String.length (string_rep (String ch "") n)) = S n). by rewrite IH.
Qed.

(** X20. [print_header] prints three lines: a rule of 70 [=] signs after an
    empty line, the text, and the rule again followed by an empty line. A
    text shorter than 70 characters is centred in a field of exactly 70,
    the odd space going to the right; a text of 70 characters or more is
    printed as it is, not cut. *)
Theorem print_header_layout (text : string) (s : state) :
  print_header text s =
    (Returned tt,
     log s [ Stdout (nl +:+ string_rep "=" 70);
             Stdout (center text 70);
             Stdout (string_rep "=" 70 +:+ nl) ]) /\
  String.length (string_rep "=" 70) = 70%nat /\
  (70 <= String.length text -> center text 70 = text)%nat /\
  (String.length text < 70 ->
   exists l r,
     center text 70 = string_rep " " l +:+ text +:+ string_rep " " r /\
     l + String.length text + r = 70 /\
     (r = l \/ r = l + 1))%nat.
Proof.
  split; [apply print_header_run|]. split; [apply length_string_rep|]. split.
  - intros H. unfold center. apply Nat.leb_le in H. by rewrite H.
  - intros H. unfold center.
    assert ((70 <=? String.length text)%nat = false) as -> by (apply Nat.leb_gt; lia).
    change (Nat.odd 70) with false. rewrite andb_false_r, Nat.add_0_r.
    eexists _, _. split; [reflexivity|].
    pose proof (Nat.div_mod_eq (70 - String.length text) 2) as Hdm.
    pose proof (Nat.mod_upper_bound (70 - String.length text) 2) as Hm.
    lia.
Qed.

Lemma print_header_layout_witness :
  (String.length "Verification" < 70)%nat /\
  exists l r,
    (center "Verification" 70 = string_rep " " l +:+ "Verification" +:+ string_rep " " r /\
     l + String.length "Verification" + r = 70 /\
     (r = l \/ r = l + 1))%nat.
Proof.
  assert (String.length "Verification" < 70)%nat as H by (vm_compute; lia).
  split; [exact H|].
  exact (proj2 (proj2 (proj2 (print_header_layout "Verification" fresh))) H).
Defined.

(** ** One Netflix dataset in place *)

(** X21. Without API access, [setup_netflix_datasets] prints the manual
    steps of the missing dataset only: with Netflix Shows populated and
    Netflix Prize not, the output is the header, the [Already exists] line
    of Shows, the warning and the three steps for Prize; with the roles
    exchanged it is the header, the [Already exists] line of Prize, the
    warning and the three steps for Shows followed by an empty line. In
    both cases the state is otherwise unchanged. *)
Theorem netflix_instructions_for_missing_only (w : world) (s : state) :
  (populated (fs s) (Path "datasets/Netflix/netflix") ->
   unpopulated (fs s) (Path "datasets/Netflix/netflix_prize") ->
   setup_netflix_datasets w false s =
     (Returned tt,
      log s (header_lines "Netflix Datasets" ++
        [ Stdout "[OK] Netflix Shows: Already exists";
          Stdout "[WARNING] Kaggle API not configured - Manual download required";
          Stdout "[INFO] Netflix Prize:";
          Stdout "  1. Go to: https://www.kaggle.com/datasets/netflix-inc/netflix-prize-data";
          Stdout "  2. Click 'Download' button (requires Kaggle login)";
          Stdout "  3. Extract all files to: datasets/Netflix/netflix_prize/" ]))) /\
  (unpopulated (fs s) (Path "datasets/Netflix/netflix") ->
   populated (fs s) (Path "datasets/Netflix/netflix_prize") ->
   setup_netflix_datasets w false s =
     (Returned tt,
      log s (header_lines "Netflix Datasets" ++
        [ Stdout "[OK] Netflix Prize: Already exists";
          Stdout "[WARNING] Kaggle API not configured - Manual download required";
          Stdout "[INFO] Netflix Shows:";
          Stdout "  1. Go to: https://www.kaggle.com/datasets/shivamb/netflix-shows";
          Stdout "  2. Click 'Download' button (requires Kaggle login)";
          Stdout "  3. Extract netflix_titles.csv to: datasets/Netflix/netflix/";
          Stdout "" ]))).
Proof.
  split; intros H1 H2; unfold setup_netflix_datasets; rewrite bind_print_header.
  - rewrite (bind_returned _ _ _ _ _
               (check_dataset_exists_true "datasets/Netflix/netflix" "Netflix Shows"
                  (log s (header_lines "Netflix Datasets")) H1)).
    rewrite (bind_returned _ _ _ _ _
               (check_dataset_exists_false "datasets/Netflix/netflix_prize" "Netflix Prize"
                  (log (log s (header_lines "Netflix Datasets")) _) H2)).
    cbn [negb andb]. run_prints. reflexivity.
  - rewrite (bind_returned _ _ _ _ _
               (check_dataset_exists_false "datasets/Netflix/netflix" "Netflix Shows"
                  (log s (header_lines "Netflix Datasets")) H1)).
    rewrite (bind_returned _ _ _ _ _
               (check_dataset_exists_true "datasets/Netflix/netflix_prize" "Netflix Prize"
                  (log s (header_lines "Netflix Datasets")) H2)).
    cbn [negb andb]. run_prints. reflexivity.
Qed.

Lemma netflix_instructions_for_missing_only_witness :
  populated (fs shows_in_place) (Path "datasets/Netflix/netflix") /\
  unpopulated (fs shows_in_place) (Path "datasets/Netflix/netflix_prize") /\
  setup_netflix_datasets (offline_kaggle (Some no_credentials)) false shows_in_place =
    (Returned tt,
     log shows_in_place (header_lines "Netflix Datasets" ++
       [ Stdout "[OK] Netflix Shows: Already exists";
         Stdout "[WARNING] Kaggle API not configured - Manual download required";
         Stdout "[INFO] Netflix Prize:";
         Stdout "  1. Go to: https://www.kaggle.com/datasets/netflix-inc/netflix-prize-data";
         Stdout "  2. Click 'Download' button (requires Kaggle login)";
         Stdout "  3. Extract all files to: datasets/Netflix/netflix_prize/" ])).
Proof.
  assert (populated (fs shows_in_place) (Path "datasets/Netflix/netflix")) as H1.
  { split; [vm_compute; reflexivity|vm_compute; discriminate]. }
  assert (unpopulated (fs shows_in_place) (Path "datasets/Netflix/netflix_prize")) as H2.
  { left. vm_compute. reflexivity. }
  split; [exact H1|]. split; [exact H2|].
  exact (proj1 (netflix_instructions_for_missing_only
                  (offline_kaggle (Some no_credentials)) shows_in_place) H1 H2).
Defined.
(** ** What escapes to the orchestrator, and what does not *)

(** C2, as amended. The outcomes of the downloads, the extractions and the
    Kaggle API calls never reach [main] as exceptions: [download_file],
    [extract_zip] and [setup_kaggle_dataset] return a boolean in every
    state of every world. The probe [check_kaggle_api] returns exactly when
    [kaggle] is already imported, its import goes through, or the import
    fails with an [OSError] or an [ImportError]; an import that fails with
    an exception of another class makes the probe raise that exception and
    leave the state as it was. When the probe returns,
    none of the eight paths the script uses as directories outside of its
    [try] blocks is a regular file, and no archive holds a regular file
    named [ml-25m] at its top level, [main] returns, having run every
    per-dataset routine and the verification: its output shows, in this
    order, the headers of the MovieLens, Netflix, TMDB and MyAnimeList
    routines, the verification header and the six verification lines. *)
Theorem failures_of_transport_and_api_are_contained (w : world) (s : state) :
  (forall url dest description, returns (download_file w url dest description) s) /\
  (forall zip to description, returns (extract_zip w zip to description) s) /\
  (forall id extract_to name, returns (setup_kaggle_dataset w id extract_to name) s) /\
  (returns (check_kaggle_api w) s <-> probe_caught w s) /\
  (forall e,
     kaggle_loaded s = false -> kaggle_import w = Some e ->
     is_OSError (exn_class_of e) || is_ImportError (exn_class_of e) = false ->
     check_kaggle_api w s = (Raised e, s)) /\
  (probe_caught w s -> clean_layout (fs s) -> tidy_archives w ->
   exists s' out,
     main w s = (Returned tt, s') /\
     trace s' = trace s ++ out /\
     full_run_output (fs s') out).
Proof.
  split; [intros; apply download_file_returns|].
  split; [intros; apply extract_zip_returns|].
  split; [intros; apply setup_kaggle_dataset_returns|].
  split; [apply check_kaggle_api_returns_iff|].
  split.
  { intros e Hl Hi Hc. apply orb_false_iff in Hc as [Hos Him].
    rewrite check_kaggle_api_run. unfold import_kaggle. by rewrite Hl, Hi, Hos, Him. }
  intros Hprobe Hclean Htidy.
  destruct (main_setup_returns w s Hprobe Hclean Htidy)
    as (hk & s7 & o0 & o1 & o2 & o3 & o4 & Hms & T).
  destruct (main_run w s hk s7 Hms) as (out & Hmain).
  eexists _, _. split; [exact Hmain|]. split.
  - rewrite trace_log, T, <- !app_assoc. reflexivity.
  - exists o0, o1, o2, o3, (o4 ++ [Stdout ""]), out.
    rewrite fs_log, <- !app_assoc. reflexivity.
Qed.

Lemma failures_of_transport_and_api_are_contained_witness :
  probe_caught corrupt_archives fresh /\
  clean_layout (fs fresh) /\
  tidy_archives corrupt_archives /\
  exists s' out,
    main corrupt_archives fresh = (Returned tt, s') /\
    trace s' = trace fresh ++ out /\
    full_run_output (fs s') out.
Proof.
  assert (probe_caught corrupt_archives fresh) as H1.
  { right. exists no_credentials. split; reflexivity. }
  assert (clean_layout (fs fresh)) as H2.
  { intros p _. left. apply lookup_empty. }
  assert (tidy_archives corrupt_archives) as H3.
  { intros c ms data err H. discriminate H. }
  split; [exact H1|]. split; [exact H2|]. split; [exact H3|].
  exact (proj2 (proj2 (proj2 (proj2 (proj2
           (failures_of_transport_and_api_are_contained corrupt_archives fresh))))) H1 H2 H3).
Defined.

(** C2, as stated, fails for the credential probe: [check_kaggle_api]
    handles [OSError] and [ImportError] only. With a [kaggle.json] that
    lacks the user name the import raises [ValueError]; on an empty tree,
    with archives that download and extract, the exception leaves the probe
    and [main], which ends after its three opening lines and two more
    prints, having run no dataset routine and no verification. *)
Lemma invalid_credentials_abort_main :
  clean_layout (fs fresh) /\
  tidy_archives (offline_kaggle (Some bad_credentials)) /\
  check_kaggle_api (offline_kaggle (Some bad_credentials)) fresh
    = (Raised bad_credentials, fresh) /\
  (main (offline_kaggle (Some bad_credentials)) fresh).1 = Raised bad_credentials /\
  trace (main (offline_kaggle (Some bad_credentials)) fresh).2 =
    header_lines "Movie Recommendation Systems - Dataset Setup"
    ++ [ Stdout "This script will download and setup all required datasets.";
         Stdout "" ] /\
  exit_status (offline_kaggle (Some bad_credentials)) fresh = 1%Z.
Proof.
  split; [intros p _; left; apply lookup_empty|].
  split.
  { intros c ms data err H Hin. injection H as <-.
    destruct Hin as [Hin|[Hin|[]]]; discriminate Hin. }
  split; [reflexivity|].
  split; [vm_compute; reflexivity|].
  split; [vm_compute; reflexivity|].
  vm_compute. reflexivity.
Qed.
